(** * Session store, validators and result normalizer of the analytics backend

    A shallow embedding of [utils/validators.py], [utils/session_manager.py]
    and the session-facing helpers and upload routes of [app.py].

    Conventions.
    - A Python [str] is a [string]; a character is read as the code point
      0..255 it denotes (Latin-1), which is where [str.lower] and [str.strip]
      are modelled.  [len] is [String.length].
    - A Python object that is shared and mutated in place lives in a heap: a
      list indexed by its address ([loc]), grown at the end by allocation.
    - A cell of a dataframe holds a scalar or the address of a Python
      object; these objects live in a heap of their own, which [df.copy()]
      and the session store never touch.
    - A library call that may raise returns an [outcome].
    - A [Dict[str, Any]] is a [gmap string pyval].
    - [datetime.now()] and [uuid.uuid4()] are inputs of the operation that
      reads them. *)

From Stdlib Require Import ZArith Ascii.
From stdpp Require Import gmap strings list.
From stdpp Require Import pretty.

(** ** Python strings *)

Module PyStr.

(** [str.isspace] on one character, code points 0..255. *)
Definition is_space (c : ascii) : bool :=
  let n := nat_of_ascii c in
  ((9 <=? n) && (n <=? 13)) || ((28 <=? n) && (n <=? 32))
  || (n =? 133) || (n =? 160).

Fixpoint lstrip (s : string) : string :=
  match s with
  | EmptyString => EmptyString
  | String c r => if is_space c then lstrip r else s
  end.

Fixpoint rstrip (s : string) : string :=
  match s with
  | EmptyString => EmptyString
  | String c r =>
      match rstrip r with
      | EmptyString => if is_space c then EmptyString else String c EmptyString
      | r' => String c r'
      end
  end.

(** [s.strip()] *)
Definition strip (s : string) : string := rstrip (lstrip s).

(** [str.lower] on one character, code points 0..255: A-Z and the
    accented capitals 0xC0..0xDE (without the multiplication sign 0xD7)
    move up by 32. *)
Definition lower_char (c : ascii) : ascii :=
  let n := nat_of_ascii c in
  if ((65 <=? n) && (n <=? 90))
     || ((192 <=? n) && (n <=? 222) && negb (n =? 215))
  then ascii_of_nat (n + 32) else c.

(** [s.lower()] *)
Fixpoint lower (s : string) : string :=
  match s with
  | EmptyString => EmptyString
  | String c r => String (lower_char c) (lower r)
  end.

(** [sub in s] *)
Fixpoint contains (sub s : string) : bool :=
  String.prefix sub s
  || match s with
     | EmptyString => false
     | String _ r => contains sub r
     end.

(** [sub] occurs in [s] as a contiguous block. *)
Definition occurs (sub s : string) : Prop :=
  exists pre post, s = pre +:+ sub +:+ post.

End PyStr.

(** ** utils/validators.py, class QueryValidator *)

Module QueryValidator.
Import PyStr.

Definition validate_query (query : string) : bool * string :=
  if String.eqb query "" || String.eqb (strip query) "" then
    (false, "Query cannot be empty")
  else if String.length query <? 3 then
    (false, "Query too short (minimum 3 characters)")
  else if 500 <? String.length query then
    (false, "Query too long (maximum 500 characters)")
  else (true, "Valid query").

Definition dangerous_keywords : list string :=
  [ "drop table"; "delete from"; "truncate";
    "insert into"; "update set"; "exec";
    "system"; "os."; "eval("; "exec(" ].

Definition danger_message (keyword : string) : string :=
  "Query contains potentially dangerous operation: '" +:+ keyword +:+ "'".

(** The [for keyword in dangerous_keywords] loop over the lowered query. *)
Fixpoint scan_keywords (keywords : list string) (query_lower : string)
  : bool * string :=
  match keywords with
  | [] => (true, "Query is safe")
  | keyword :: rest =>
      if contains keyword query_lower then (false, danger_message keyword)
      else scan_keywords rest query_lower
  end.

Definition is_safe_query (query : string) : bool * string :=
  scan_keywords dangerous_keywords (lower query).

End QueryValidator.

(** ** Python values *)

(** The address of an object in a heap. *)
Abbreviation loc := nat.

(** A Python [float], by the 64 bits of its IEEE-754 double. *)
Inductive pyfloat := Float64 (bits : Z).

(** One cell of a pandas column: a scalar, or (in an object column) a
    reference to a Python object such as a list, by the address of that
    object among the objects cells hold. Two frames whose cells hold one
    address share the object. *)
Inductive cell :=
| CellNull
| CellInt (z : Z)
| CellFloat (f : pyfloat)
| CellStr (s : string)
| CellObject (address : loc).

(** [pd.DataFrame]: column labels and rows; [len(df)] is the number of rows. *)
Record DataFrame := mkDataFrame {
  df_columns : list string;
  df_rows : list (list cell)
}.

(** [pd.Series]: its [name] (a label or [None]) and its values. *)
Record Series := mkSeries {
  series_name : option string;
  series_values : list cell
}.

#[local] Set Warnings "-register-all".

(** What a [Dict[str, Any]] payload of the application holds. [PyObject] is
    any other object, given by a description of it. *)
Inductive pyval :=
| PyNone
| PyBool (b : bool)
| PyInt (z : Z)
| PyFloat (f : pyfloat)
| PyStr (s : string)
| PyList (items : list pyval)
| PyDict (d : gmap string pyval)
| PyObject (descr : string).

(** Python truth value, as [x or y] and [not x] test it, of a value of a
    built-in type. For an object of another type this is the truth value
    of [object]; what the class of the object makes of the test, which may
    raise, is in [truth_value]. *)
Definition truthy (v : pyval) : bool :=
  match v with
  | PyNone => false
  | PyBool b => b
  | PyInt z => negb (z =? 0)%Z
  | PyFloat (Float64 bits) =>
      negb ((bits =? 0)%Z || (bits =? 0x8000000000000000)%Z)
  | PyStr s => negb (String.eqb s "")
  | PyList items => match items with [] => false | _ => true end
  | PyDict d => negb (bool_decide (size d = 0))
  | PyObject _ => true
  end.

(** [x or y] *)
Definition py_or (x y : pyval) : pyval := if truthy x then x else y.

(** [d.get(key)] *)
Definition dict_get (d : gmap string pyval) (key : string) : pyval :=
  default PyNone (d !! key).

(** [d.get(key, dflt)] *)
Definition dict_get_default (d : gmap string pyval) (key : string)
  (dflt : pyval) : pyval :=
  default dflt (d !! key).

(** Exceptions, and the outcome of a call that may raise. *)
Inductive exn :=
| HTTPException (code : nat) (description : string)
| TypeError
| ValueError
| OtherError (name : string).

Inductive outcome (A : Type) :=
| Return (a : A)
| Raise (e : exn).
Arguments Return {A} a.
Arguments Raise {A} e.

(** [bool(x)] where the class of [x] has a say. [object_truth] is the truth
    test of an object that is not of a built-in type, by its description:
    for a pandas DataFrame or Series, or a numpy array of several elements,
    it raises [ValueError]. *)
Definition truth_value (object_truth : string -> outcome bool) (v : pyval)
  : outcome bool :=
  match v with
  | PyObject descr => object_truth descr
  | _ => Return (truthy v)
  end.

(** [x or y] with that truth test. *)
Definition py_or_tested (object_truth : string -> outcome bool)
  (x y : pyval) : outcome pyval :=
  match truth_value object_truth x with
  | Return b => Return (if b then x else y)
  | Raise e => Raise e
  end.

(** The objects the cells of object columns hold, read at an address; and
    a cell as a reader of the frame sees it, its object looked up. *)
Inductive cell_value :=
| ValueNull
| ValueInt (z : Z)
| ValueFloat (f : pyfloat)
| ValueStr (s : string)
| ValueObject (v : option pyval).

Definition read_cell (held : list pyval) (c : cell) : cell_value :=
  match c with
  | CellNull => ValueNull
  | CellInt z => ValueInt z
  | CellFloat f => ValueFloat f
  | CellStr s => ValueStr s
  | CellObject address => ValueObject (held !! address)
  end.

(** The contents of a frame: its labels, and its rows with every cell
    read. *)
Definition read_frame (held : list pyval) (d : DataFrame)
  : list string * list (list cell_value) :=
  (df_columns d, map (map (read_cell held)) (df_rows d)).

(** The frame holds scalars only. *)
Definition scalar_cell (c : cell) : bool :=
  match c with
  | CellObject _ => false
  | _ => true
  end.

Definition scalar_frame (d : DataFrame) : bool :=
  forallb (forallb scalar_cell) (df_rows d).

(** The result of a query, [Any] in the source. [ResInt] and [ResFloat] are
    instances of Python's [int] and [float] (a [numpy.float64] is one of
    [float]); [ResNumpyInt] is a numpy integer such as [numpy.int64], which
    is not an instance of [int]; [ResObject] is an object of any other
    type, carried with what [str()] gives for it. *)
Inductive result_value :=
| ResDataFrame (df : DataFrame)
| ResSeries (s : Series)
| ResBool (b : bool)
| ResInt (z : Z)
| ResFloat (f : pyfloat)
| ResStr (s : string)
| ResNumpyInt (z : Z)
| ResObject (str_form : string).

(** ** utils/session_manager.py *)

(** The records the [add_*] methods append. *)
Record CleaningEntry := mkCleaningEntry {
  ce_timestamp : string; ce_action : string; ce_details : string
}.
Record QueryEntry := mkQueryEntry {
  qe_timestamp : string; qe_query : string;
  qe_result : result_value; qe_explanation : string
}.
Record ChartEntry := mkChartEntry {
  ch_timestamp : string; ch_chart : pyval; ch_type : string; ch_title : string
}.
Record InsightEntry := mkInsightEntry {
  in_timestamp : string; in_text : string; in_category : string
}.

(** [SessionState]. A dataframe slot holds the address of a dataframe
    object, or [None]. *)
Record SessionState := mkSessionState {
  raw_dataframe : option loc;
  cleaned_dataframe : option loc;
  current_dataframe : option loc;
  dataset_metadata : gmap string pyval;
  cleaning_log : list CleaningEntry;
  query_history : list QueryEntry;
  generated_charts : list ChartEntry;
  insights : list InsightEntry;
  agent_status : gmap string bool;
  uploaded_file_info : gmap string pyval;
  dataset_preview : gmap string pyval;
  cleaning_summary : gmap string pyval;
  last_query_result : gmap string pyval;
  chart_payloads : list (gmap string pyval);
  report_status : gmap string pyval
}.

(** [SessionState()] *)
Definition SessionState_new : SessionState := {|
  raw_dataframe := None;
  cleaned_dataframe := None;
  current_dataframe := None;
  dataset_metadata := ∅;
  cleaning_log := [];
  query_history := [];
  generated_charts := [];
  insights := [];
  agent_status :=
    <["input_complete" := false]>
      (<["cleaning_complete" := false]> (<["nlq_ready" := false]> ∅));
  uploaded_file_info := ∅;
  dataset_preview := ∅;
  cleaning_summary := ∅;
  last_query_result := ∅;
  chart_payloads := [];
  report_status := ∅
|}.

(** The process: the dataframe objects, the [SessionState] objects, and the
    class attribute [SessionManager._sessions], which maps a session id to
    the address of its state object. *)
Record World := mkWorld {
  frames : list DataFrame;
  objects : list SessionState;
  _sessions : gmap string loc
}.

Definition World_empty : World :=
  {| frames := []; objects := []; _sessions := ∅ |}.

(** An instance of [SessionManager]: [self.session_id] and [self.state], the
    latter the address of a state object. *)
Record SessionManager := mkSessionManager {
  session_id : string;
  state : loc
}.

(** *** Field updates of a state object *)

Definition set_raw_dataframe (v : option loc) (st : SessionState) :=
  {| raw_dataframe := v;
     cleaned_dataframe := cleaned_dataframe st;
     current_dataframe := current_dataframe st;
     dataset_metadata := dataset_metadata st;
     cleaning_log := cleaning_log st;
     query_history := query_history st;
     generated_charts := generated_charts st;
     insights := insights st;
     agent_status := agent_status st;
     uploaded_file_info := uploaded_file_info st;
     dataset_preview := dataset_preview st;
     cleaning_summary := cleaning_summary st;
     last_query_result := last_query_result st;
     chart_payloads := chart_payloads st;
     report_status := report_status st |}.

Definition set_cleaned_dataframe (v : option loc) (st : SessionState) :=
  {| raw_dataframe := raw_dataframe st;
     cleaned_dataframe := v;
     current_dataframe := current_dataframe st;
     dataset_metadata := dataset_metadata st;
     cleaning_log := cleaning_log st;
     query_history := query_history st;
     generated_charts := generated_charts st;
     insights := insights st;
     agent_status := agent_status st;
     uploaded_file_info := uploaded_file_info st;
     dataset_preview := dataset_preview st;
     cleaning_summary := cleaning_summary st;
     last_query_result := last_query_result st;
     chart_payloads := chart_payloads st;
     report_status := report_status st |}.

Definition set_current_dataframe (v : option loc) (st : SessionState) :=
  {| raw_dataframe := raw_dataframe st;
     cleaned_dataframe := cleaned_dataframe st;
     current_dataframe := v;
     dataset_metadata := dataset_metadata st;
     cleaning_log := cleaning_log st;
     query_history := query_history st;
     generated_charts := generated_charts st;
     insights := insights st;
     agent_status := agent_status st;
     uploaded_file_info := uploaded_file_info st;
     dataset_preview := dataset_preview st;
     cleaning_summary := cleaning_summary st;
     last_query_result := last_query_result st;
     chart_payloads := chart_payloads st;
     report_status := report_status st |}.

Definition set_dataset_metadata (v : gmap string pyval) (st : SessionState) :=
  {| raw_dataframe := raw_dataframe st;
     cleaned_dataframe := cleaned_dataframe st;
     current_dataframe := current_dataframe st;
     dataset_metadata := v;
     cleaning_log := cleaning_log st;
     query_history := query_history st;
     generated_charts := generated_charts st;
     insights := insights st;
     agent_status := agent_status st;
     uploaded_file_info := uploaded_file_info st;
     dataset_preview := dataset_preview st;
     cleaning_summary := cleaning_summary st;
     last_query_result := last_query_result st;
     chart_payloads := chart_payloads st;
     report_status := report_status st |}.

Definition set_cleaning_log (v : list CleaningEntry) (st : SessionState) :=
  {| raw_dataframe := raw_dataframe st;
     cleaned_dataframe := cleaned_dataframe st;
     current_dataframe := current_dataframe st;
     dataset_metadata := dataset_metadata st;
     cleaning_log := v;
     query_history := query_history st;
     generated_charts := generated_charts st;
     insights := insights st;
     agent_status := agent_status st;
     uploaded_file_info := uploaded_file_info st;
     dataset_preview := dataset_preview st;
     cleaning_summary := cleaning_summary st;
     last_query_result := last_query_result st;
     chart_payloads := chart_payloads st;
     report_status := report_status st |}.

Definition set_query_history (v : list QueryEntry) (st : SessionState) :=
  {| raw_dataframe := raw_dataframe st;
     cleaned_dataframe := cleaned_dataframe st;
     current_dataframe := current_dataframe st;
     dataset_metadata := dataset_metadata st;
     cleaning_log := cleaning_log st;
     query_history := v;
     generated_charts := generated_charts st;
     insights := insights st;
     agent_status := agent_status st;
     uploaded_file_info := uploaded_file_info st;
     dataset_preview := dataset_preview st;
     cleaning_summary := cleaning_summary st;
     last_query_result := last_query_result st;
     chart_payloads := chart_payloads st;
     report_status := report_status st |}.

Definition set_generated_charts (v : list ChartEntry) (st : SessionState) :=
  {| raw_dataframe := raw_dataframe st;
     cleaned_dataframe := cleaned_dataframe st;
     current_dataframe := current_dataframe st;
     dataset_metadata := dataset_metadata st;
     cleaning_log := cleaning_log st;
     query_history := query_history st;
     generated_charts := v;
     insights := insights st;
     agent_status := agent_status st;
     uploaded_file_info := uploaded_file_info st;
     dataset_preview := dataset_preview st;
     cleaning_summary := cleaning_summary st;
     last_query_result := last_query_result st;
     chart_payloads := chart_payloads st;
     report_status := report_status st |}.

Definition set_insights (v : list InsightEntry) (st : SessionState) :=
  {| raw_dataframe := raw_dataframe st;
     cleaned_dataframe := cleaned_dataframe st;
     current_dataframe := current_dataframe st;
     dataset_metadata := dataset_metadata st;
     cleaning_log := cleaning_log st;
     query_history := query_history st;
     generated_charts := generated_charts st;
     insights := v;
     agent_status := agent_status st;
     uploaded_file_info := uploaded_file_info st;
     dataset_preview := dataset_preview st;
     cleaning_summary := cleaning_summary st;
     last_query_result := last_query_result st;
     chart_payloads := chart_payloads st;
     report_status := report_status st |}.

Definition set_agent_status (v : gmap string bool) (st : SessionState) :=
  {| raw_dataframe := raw_dataframe st;
     cleaned_dataframe := cleaned_dataframe st;
     current_dataframe := current_dataframe st;
     dataset_metadata := dataset_metadata st;
     cleaning_log := cleaning_log st;
     query_history := query_history st;
     generated_charts := generated_charts st;
     insights := insights st;
     agent_status := v;
     uploaded_file_info := uploaded_file_info st;
     dataset_preview := dataset_preview st;
     cleaning_summary := cleaning_summary st;
     last_query_result := last_query_result st;
     chart_payloads := chart_payloads st;
     report_status := report_status st |}.

Definition set_uploaded_file_info (v : gmap string pyval) (st : SessionState) :=
  {| raw_dataframe := raw_dataframe st;
     cleaned_dataframe := cleaned_dataframe st;
     current_dataframe := current_dataframe st;
     dataset_metadata := dataset_metadata st;
     cleaning_log := cleaning_log st;
     query_history := query_history st;
     generated_charts := generated_charts st;
     insights := insights st;
     agent_status := agent_status st;
     uploaded_file_info := v;
     dataset_preview := dataset_preview st;
     cleaning_summary := cleaning_summary st;
     last_query_result := last_query_result st;
     chart_payloads := chart_payloads st;
     report_status := report_status st |}.

(** The five assignments of a successful web upload, in one step:
    [dataset_preview], [cleaning_summary], [last_query_result],
    [chart_payloads], [report_status]. *)
Definition set_caches (preview summary result : gmap string pyval)
  (payloads : list (gmap string pyval)) (report : gmap string pyval)
  (st : SessionState) :=
  {| raw_dataframe := raw_dataframe st;
     cleaned_dataframe := cleaned_dataframe st;
     current_dataframe := current_dataframe st;
     dataset_metadata := dataset_metadata st;
     cleaning_log := cleaning_log st;
     query_history := query_history st;
     generated_charts := generated_charts st;
     insights := insights st;
     agent_status := agent_status st;
     uploaded_file_info := uploaded_file_info st;
     dataset_preview := preview;
     cleaning_summary := summary;
     last_query_result := result;
     chart_payloads := payloads;
     report_status := report |}.

(** *** class SessionManager *)

Module SM.

(** Allocate a new state object; its address is the next free one. *)
Definition alloc_state (st : SessionState) (w : World) : loc * World :=
  (length (objects w),
   {| frames := frames w;
      objects := objects w ++ [st];
      _sessions := _sessions w |}).

(** [SessionManager._sessions[session_id] = <object at l>] *)
Definition bind_session (session_id : string) (l : loc) (w : World) : World :=
  {| frames := frames w;
     objects := objects w;
     _sessions := <[session_id := l]> (_sessions w) |}.

(** An in-place change of the state object at [l]. *)
Definition update_state (l : loc) (f : SessionState -> SessionState)
  (w : World) : World :=
  {| frames := frames w;
     objects := alter f l (objects w);
     _sessions := _sessions w |}.

(** [self.state], dereferenced. *)
Definition read_state (self : SessionManager) (w : World)
  : option SessionState :=
  objects w !! state self.

(** The state object the registry holds for an id. *)
Definition session_state (session_id : string) (w : World)
  : option SessionState :=
  l ← _sessions w !! session_id; objects w !! l.

Definition has_session (session_id : string) (w : World) : bool :=
  match _sessions w !! session_id with
  | Some _ => true
  | None => false
  end.

(** [SessionManager(session_id)]. The last lookup is
    [SessionManager._sessions[session_id]], a [KeyError] on a missing key. *)
Definition __init__ (session_id : string) (w : World)
  : outcome SessionManager * World :=
  let w1 :=
    if negb (has_session session_id w) then
      let '(l, w') := alloc_state SessionState_new w in
      bind_session session_id l w'
    else w in
  match _sessions w1 !! session_id with
  | Some l => (Return {| session_id := session_id; state := l |}, w1)
  | None => (Raise (OtherError "KeyError"), w1)
  end.

(** [create_session()], with [uuid] the value of [uuid.uuid4().hex]. *)
Definition create_session (uuid : string) (w : World) : string * World :=
  let '(l, w') := alloc_state SessionState_new w in
  (uuid, bind_session uuid l w').

Definition delete_session (session_id : string) (w : World) : World :=
  {| frames := frames w;
     objects := objects w;
     _sessions := delete session_id (_sessions w) |}.

(** [df.copy()]: a new dataframe object with the labels and cells of the
    one at [df]. The cells are copied as they are: the copy of an object
    cell refers to the same Python object, which is not copied. [None] when
    [df] is not the address of a dataframe. *)
Definition df_copy (df : loc) (w : World) : option (loc * World) :=
  d ← frames w !! df;
  Some (length (frames w),
        {| frames := frames w ++ [d];
           objects := objects w;
           _sessions := _sessions w |}).

(** [set_dataframe(df, df_type)]: one copy for the named slot, a second
    one for [current_dataframe]. *)
Definition set_dataframe (self : SessionManager) (df : loc)
  (df_type : string) (w : World) : option World :=
  w1 ← (if String.eqb df_type "raw" then
          '(c, w') ← df_copy df w;
          Some (update_state (state self) (set_raw_dataframe (Some c)) w')
        else if String.eqb df_type "cleaned" then
          '(c, w') ← df_copy df w;
          Some (update_state (state self) (set_cleaned_dataframe (Some c)) w')
        else Some w);
  '(c, w2) ← df_copy df w1;
  Some (update_state (state self) (set_current_dataframe (Some c)) w2).

(** The slot [get_dataframe(df_type)] reads. *)
Definition dataframe_slot (df_type : string) (st : SessionState)
  : option loc :=
  if String.eqb df_type "raw" then raw_dataframe st
  else if String.eqb df_type "cleaned" then cleaned_dataframe st
  else current_dataframe st.

(** [get_dataframe(df_type)]: the outer [option] is [None] only for a
    handle without a state object. *)
Definition get_dataframe (self : SessionManager) (df_type : string)
  (w : World) : option (option loc) :=
  dataframe_slot df_type <$> read_state self w.

(** The contents of the dataframe [get_dataframe(df_type)] returns. *)
Definition read_dataframe (self : SessionManager) (df_type : string)
  (w : World) : option DataFrame :=
  slot ← get_dataframe self df_type w; l ← slot; frames w !! l.

(** What a reader finds in the dataframe [get_dataframe(df_type)] returns,
    [held] being the objects that cells hold. *)
Definition read_content (held : list pyval) (self : SessionManager)
  (df_type : string) (w : World)
  : option (list string * list (list cell_value)) :=
  read_frame held <$> read_dataframe self df_type w.

(** An in-place change of the dataframe object at [df], as the caller of
    [set_dataframe] may do to its own dataframe. *)
Definition mutate_frame (df : loc) (f : DataFrame -> DataFrame)
  (w : World) : World :=
  {| frames := alter f df (frames w);
     objects := objects w;
     _sessions := _sessions w |}.

(** [now] is [datetime.now().strftime('%Y-%m-%d %H:%M:%S')]. *)
Definition add_cleaning_log (self : SessionManager)
  (now action details : string) (w : World) : World :=
  update_state (state self)
    (fun st => set_cleaning_log
       (cleaning_log st ++
          [{| ce_timestamp := now; ce_action := action;
              ce_details := details |}]) st) w.

Definition add_query (self : SessionManager) (now query : string)
  (result : result_value) (explanation : string) (w : World) : World :=
  update_state (state self)
    (fun st => set_query_history
       (query_history st ++
          [{| qe_timestamp := now; qe_query := query; qe_result := result;
              qe_explanation := explanation |}]) st) w.

Definition add_chart (self : SessionManager) (now : string)
  (chart_obj : pyval) (chart_type title : string) (w : World) : World :=
  update_state (state self)
    (fun st => set_generated_charts
       (generated_charts st ++
          [{| ch_timestamp := now; ch_chart := chart_obj;
              ch_type := chart_type; ch_title := title |}]) st) w.

Definition add_insight (self : SessionManager) (now insight : string)
  (category : string) (w : World) : World :=
  update_state (state self)
    (fun st => set_insights
       (insights st ++
          [{| in_timestamp := now; in_text := insight;
              in_category := category |}]) st) w.

Definition set_metadata (self : SessionManager) (key : string)
  (value : pyval) (w : World) : World :=
  update_state (state self)
    (fun st => set_dataset_metadata (<[key := value]> (dataset_metadata st)) st)
    w.

Definition get_metadata (self : SessionManager) (key : string) (w : World)
  : option pyval :=
  (fun st => dict_get (dataset_metadata st) key) <$> read_state self w.

Definition update_agent_status (self : SessionManager) (agent : string)
  (status : bool) (w : World) : World :=
  update_state (state self)
    (fun st => set_agent_status (<[agent := status]> (agent_status st)) st) w.

Definition set_file_info (self : SessionManager) (info : gmap string pyval)
  (w : World) : World :=
  update_state (state self) (set_uploaded_file_info info) w.

Definition get_file_info (self : SessionManager) (w : World)
  : option (gmap string pyval) :=
  uploaded_file_info <$> read_state self w.

(** [reset_session()]: a new state object is bound to the id in the
    registry, and [self.state] is set to it; the result is [self] after
    the call. *)
Definition reset_session (self : SessionManager) (w : World)
  : outcome SessionManager * World :=
  let '(l, w') := alloc_state SessionState_new w in
  let w1 := bind_session (session_id self) l w' in
  match _sessions w1 !! session_id self with
  | Some l' =>
      (Return {| session_id := session_id self; state := l' |}, w1)
  | None => (Raise (OtherError "KeyError"), w1)
  end.

(** The dict [get_summary()] returns, by its keys. *)
Record Summary := mkSummary {
  has_data : bool;
  rows : nat;
  columns : nat;
  cleaning_operations : nat;
  queries_executed : nat;
  charts_generated : nat;
  insights_count : nat
}.

Definition get_summary (self : SessionManager) (w : World)
  : option Summary :=
  st ← read_state self w;
  let df := current_dataframe st ≫= (fun l => frames w !! l) in
  Some {| has_data := bool_decide (is_Some df);
          rows := from_option (fun d => length (df_rows d)) 0 df;
          columns := from_option (fun d => length (df_columns d)) 0 df;
          cleaning_operations := length (cleaning_log st);
          queries_executed := length (query_history st);
          charts_generated := length (generated_charts st);
          insights_count := length (insights st) |}.

(** The calls of the class, for statements about all of them. *)
Inductive op :=
| OpInit (session_id : string)
| OpCreateSession (uuid : string)
| OpDeleteSession (session_id : string)
| OpHasSession (session_id : string)
| OpSetDataframe (self : SessionManager) (df : loc) (df_type : string)
| OpGetDataframe (self : SessionManager) (df_type : string)
| OpAddCleaningLog (self : SessionManager) (now action details : string)
| OpAddQuery (self : SessionManager) (now query : string)
    (result : result_value) (explanation : string)
| OpAddChart (self : SessionManager) (now : string) (chart_obj : pyval)
    (chart_type title : string)
| OpAddInsight (self : SessionManager) (now insight category : string)
| OpSetMetadata (self : SessionManager) (key : string) (value : pyval)
| OpGetMetadata (self : SessionManager) (key : string)
| OpUpdateAgentStatus (self : SessionManager) (agent : string)
    (status : bool)
| OpSetFileInfo (self : SessionManager) (info : gmap string pyval)
| OpGetFileInfo (self : SessionManager)
| OpResetSession (self : SessionManager)
| OpGetSummary (self : SessionManager).

(** The world after a call; a call that only reads leaves it as it is. *)
Definition run (o : op) (w : World) : World :=
  match o with
  | OpInit session_id => snd (__init__ session_id w)
  | OpCreateSession uuid => snd (create_session uuid w)
  | OpDeleteSession session_id => delete_session session_id w
  | OpSetDataframe self df df_type =>
      default w (set_dataframe self df df_type w)
  | OpAddCleaningLog self now action details =>
      add_cleaning_log self now action details w
  | OpAddQuery self now query result explanation =>
      add_query self now query result explanation w
  | OpAddChart self now chart_obj chart_type title =>
      add_chart self now chart_obj chart_type title w
  | OpAddInsight self now insight category =>
      add_insight self now insight category w
  | OpSetMetadata self key value => set_metadata self key value w
  | OpUpdateAgentStatus self agent status =>
      update_agent_status self agent status w
  | OpSetFileInfo self info => set_file_info self info w
  | OpResetSession self => snd (reset_session self w)
  | OpHasSession _ | OpGetDataframe _ _ | OpGetMetadata _ _
  | OpGetFileInfo _ | OpGetSummary _ => w
  end.

Definition is_reset (o : op) : bool :=
  match o with OpResetSession _ => true | _ => false end.

(** [uuid.uuid4()] gives an id that is not in use. *)
Definition uuid_unused (o : op) (w : World) : Prop :=
  match o with
  | OpCreateSession uuid => _sessions w !! uuid = None
  | _ => True
  end.

End SM.

(** ** app.py *)

Module App.

(** [not session_id] for [session_id] read with [.get]: [None] or the
    empty string. *)
Definition id_missing (session_id : option string) : bool :=
  match session_id with
  | None => true
  | Some s => String.eqb s ""
  end.

(** [ensure_web_session()]. [cookie] is
    [flask_session.get(SESSION_COOKIE_KEY)] and [uuid] what
    [create_session] draws if it is called; the second component of the
    result is the cookie after the call. *)
Definition ensure_web_session (cookie : option string) (uuid : string)
  (w : World) : outcome SessionManager * option string * World :=
  let '(session_id, cookie', w1) :=
    if id_missing cookie || negb (SM.has_session (default "" cookie) w) then
      let '(created, w') := SM.create_session uuid w in
      (created, Some created, w')
    else (default "" cookie, cookie, w) in
  let '(r, w2) := SM.__init__ session_id w1 in
  (r, cookie', w2).

(** [get_session_or_abort()], [header] being
    [request.headers.get("X-Session-Id")]. *)
Definition get_session_or_abort (header : option string) (w : World)
  : outcome SessionManager * World :=
  if id_missing header || negb (SM.has_session (default "" header) w) then
    (Raise (HTTPException 400 "Missing or invalid session id"), w)
  else SM.__init__ (default "" header) w.

(** [resolve_session_from_request()] *)
Definition resolve_session_from_request (header cookie : option string)
  (w : World) : outcome SessionManager * World :=
  if negb (id_missing header) && SM.has_session (default "" header) w then
    SM.__init__ (default "" header) w
  else if negb (id_missing cookie) && SM.has_session (default "" cookie) w
  then SM.__init__ (default "" cookie) w
  else (Raise (HTTPException 400 "Missing or invalid session id"), w).

(** *** History normalizer *)

(** The [summary] dict, by its ["type"]. *)
Inductive result_summary :=
| SummaryDataframe (rows : nat) (columns : list string)
| SummarySeries (length : nat) (name : option string)
| SummaryScalar (value : result_value)
| SummaryText (value : string).

(** The value under the key ["type"]. *)
Definition summary_type (s : result_summary) : string :=
  match s with
  | SummaryDataframe _ _ => "dataframe"
  | SummarySeries _ _ => "series"
  | SummaryScalar _ => "scalar"
  | SummaryText _ => "text"
  end.

Definition is_DataFrame (r : result_value) : bool :=
  match r with ResDataFrame _ => true | _ => false end.

Definition is_Series (r : result_value) : bool :=
  match r with ResSeries _ => true | _ => false end.

(** [isinstance(result, (int, float))]; [bool] is a subclass of [int]. *)
Definition is_int_or_float (r : result_value) : bool :=
  match r with
  | ResBool _ | ResInt _ | ResFloat _ => true
  | _ => false
  end.

(** [str(result)] for a result that reaches the [else] branch: a string
    is its own [str], a numpy integer prints in decimal, any other object
    carries its [str]. The remaining results never reach that branch. *)
Definition py_str (r : result_value) : string :=
  match r with
  | ResStr s => s
  | ResNumpyInt z => pretty z
  | ResObject str_form => str_form
  | _ => ""
  end.

(** The [if / elif / elif / else] chain of the loop body. *)
Definition summarize (result : result_value) : result_summary :=
  match result with
  | ResDataFrame df => SummaryDataframe (length (df_rows df)) (df_columns df)
  | _ =>
    match result with
    | ResSeries s => SummarySeries (length (series_values s)) (series_name s)
    | _ =>
      if is_int_or_float result then SummaryScalar result
      else SummaryText (py_str result)
    end
  end.

Record HistoryItem := mkHistoryItem {
  hi_timestamp : string;
  hi_query : string;
  hi_explanation : string;
  hi_result_summary : result_summary
}.

Definition history_item (item : QueryEntry) : HistoryItem :=
  {| hi_timestamp := qe_timestamp item;
     hi_query := qe_query item;
     hi_explanation := qe_explanation item;
     hi_result_summary := summarize (qe_result item) |}.

(** [serialize_history(session)] on the state object of the session. *)
Definition serialize_history (st : SessionState) : list HistoryItem :=
  history_item <$> query_history st.

(** *** Chart payloads *)

(** [{"data": [], "layout": {}}] *)
Definition empty_figure : pyval :=
  PyDict (<["data" := PyList []]> (<["layout" := PyDict ∅]> ∅)).

Section charts.

(** [json.dumps(_, cls=PlotlyJSONEncoder)], of plotly and the standard
    library; and the truth test of an object that is not of a built-in
    type, as its class defines it. *)
Variable json_dumps : pyval -> outcome string.
Variable object_truth : string -> outcome bool.

(** The [try / except TypeError] block. *)
Definition encode_figure (figure : pyval) : outcome string :=
  match json_dumps figure with
  | Raise TypeError => json_dumps empty_figure
  | r => r
  end.

(** The loop, [serialized] being the list built so far. The figure is
    [chart.get("figure") or {}], whose truth test stands before the [try]. *)
Fixpoint serialize_loop (charts serialized : list (gmap string pyval))
  : outcome (list (gmap string pyval)) :=
  match charts with
  | [] => Return serialized
  | chart :: rest =>
      match py_or_tested object_truth (dict_get chart "figure") (PyDict ∅) with
      | Raise e => Raise e
      | Return figure =>
          match encode_figure figure with
          | Return figure_json =>
              serialize_loop rest
                (serialized ++ [<["figure_json" := PyStr figure_json]> chart])
          | Raise e => Raise e
          end
      end
  end.

(** [serialize_chart_payloads(charts)]; [None] is a [charts] that is
    [None]. *)
Definition serialize_chart_payloads
  (charts : option (list (gmap string pyval)))
  : outcome (list (gmap string pyval)) :=
  serialize_loop (default [] charts) [].

End charts.

(** *** Upload routes *)

(** The dict an agent's [execute] returns. *)
Record AgentResult := mkAgentResult {
  success : bool;
  message : string;
  preview : option (gmap string pyval)
}.

(** [request.files.get("file")]: the filename and the bytes to read. *)
Definition FileStorage : Type := string * list Byte.byte.

Definition file_missing (file_storage : option FileStorage) : bool :=
  match file_storage with
  | None => true
  | Some (filename, _) => String.eqb filename ""
  end.

(** What a web route answers: the messages it flashed, with their
    category, and the step it redirects to. *)
Record WebResponse := mkWebResponse {
  flashed : list (string * string);
  redirect_step : string
}.

Section upload.

(** [InputAgent(session).execute(file_bytes, filename, size)], of the
    package [agents]. *)
Variable InputAgent_execute :
  SessionManager -> list Byte.byte -> string -> nat -> World ->
  AgentResult * World.

(** [upload_step()], the route [POST /upload]. *)
Definition upload_step (cookie : option string) (uuid : string)
  (file_storage : option FileStorage) (w : World)
  : outcome WebResponse * option string * World :=
  match ensure_web_session cookie uuid w with
  | (Raise e, cookie', w1) => (Raise e, cookie', w1)
  | (Return session, cookie', w1) =>
      if file_missing file_storage then
        (Return {| flashed :=
                     [("Please select a file to upload.", "error")];
                   redirect_step := "upload" |}, cookie', w1)
      else
        let '(filename, file_bytes) := default ("", []) file_storage in
        let '(result, w2) :=
          InputAgent_execute session file_bytes filename
            (length file_bytes) w1 in
        if negb (success result) then
          (Return {| flashed := [(message result, "error")];
                     redirect_step := "upload" |}, cookie', w2)
        else
          (Return {| flashed := [(message result, "success")];
                     redirect_step := "upload" |}, cookie',
           SM.update_state (state session)
             (set_caches (default ∅ (preview result)) ∅ ∅ [] ∅) w2)
  end.

(** [upload_file()], the route [POST /api/upload]. *)
Definition upload_file (header : option string)
  (file_storage : option FileStorage) (w : World)
  : outcome AgentResult * World :=
  match get_session_or_abort header w with
  | (Raise e, w1) => (Raise e, w1)
  | (Return session, w1) =>
      if file_missing file_storage then
        (Raise (HTTPException 400 "File is required"), w1)
      else
        let '(filename, file_bytes) := default ("", []) file_storage in
        let '(result, w2) :=
          InputAgent_execute session file_bytes filename
            (length file_bytes) w1 in
        if negb (success result) then
          (Raise (HTTPException 400 (message result)), w2)
        else (Return result, w2)
  end.

End upload.

(** Modelled from the spec: the upload agent, [InputAgent.execute] of the
    package [agents], which is not among the sources. On success the
    upload stage "sets input-complete, assigns rawDataset and
    currentDataset" and returns [{success, message, preview?}]; reading
    the file is left to [read_file]. *)
Definition spec_InputAgent_execute
  (read_file : string -> list Byte.byte -> option DataFrame)
  (session : SessionManager) (file_bytes : list Byte.byte)
  (filename : string) (size : nat) (w : World) : AgentResult * World :=
  match read_file filename file_bytes with
  | None =>
      ({| success := false; message := "Could not read file";
          preview := None |}, w)
  | Some d =>
      let df := length (frames w) in
      let w1 := {| frames := frames w ++ [d];
                   objects := objects w;
                   _sessions := _sessions w |} in
      let w2 := default w1 (SM.set_dataframe session df "raw" w1) in
      let w3 := SM.update_agent_status session "input_complete" true w2 in
      ({| success := true; message := "File uploaded";
          preview := Some (<["rows" := PyInt (Z.of_nat (length (df_rows d)))]> ∅) |},
       w3)
  end.

End App.

(** ** Notions the statements use *)

(** The four histories of [st'] extend those of [st] at the end. *)
Definition lists_extend (st st' : SessionState) : Prop :=
  cleaning_log st `prefix_of` cleaning_log st'
  /\ query_history st `prefix_of` query_history st'
  /\ generated_charts st `prefix_of` generated_charts st'
  /\ insights st `prefix_of` insights st'.

(** Every state object of [w] is still there in [w'], its histories
    extended at the end. *)
Definition objects_extend (w w' : World) : Prop :=
  forall l st, objects w !! l = Some st ->
    exists st', objects w' !! l = Some st' /\ lists_extend st st'.

(** The state [SessionState()] gives, as a reader sees it. *)
Definition is_reset_state (st : SessionState) : Prop :=
  cleaning_log st = [] /\ query_history st = []
  /\ generated_charts st = [] /\ insights st = []
  /\ current_dataframe st = None.

(** What an [add_*] call does to the state object of its handle: one record
    at the end of its list, [st] being the state before. *)
Definition appended (o : SM.op) (st : SessionState) : option SessionState :=
  match o with
  | SM.OpAddCleaningLog _ now action details =>
      Some (set_cleaning_log
              (cleaning_log st ++
                 [{| ce_timestamp := now; ce_action := action;
                     ce_details := details |}]) st)
  | SM.OpAddQuery _ now query result explanation =>
      Some (set_query_history
              (query_history st ++
                 [{| qe_timestamp := now; qe_query := query;
                     qe_result := result; qe_explanation := explanation |}])
              st)
  | SM.OpAddChart _ now chart_obj chart_type title =>
      Some (set_generated_charts
              (generated_charts st ++
                 [{| ch_timestamp := now; ch_chart := chart_obj;
                     ch_type := chart_type; ch_title := title |}]) st)
  | SM.OpAddInsight _ now insight category =>
      Some (set_insights
              (insights st ++
                 [{| in_timestamp := now; in_text := insight;
                     in_category := category |}]) st)
  | _ => None
  end.

(** The handle of a call made through one. *)
Definition op_handle (o : SM.op) : option SessionManager :=
  match o with
  | SM.OpSetDataframe self _ _ | SM.OpGetDataframe self _
  | SM.OpAddCleaningLog self _ _ _ | SM.OpAddQuery self _ _ _ _
  | SM.OpAddChart self _ _ _ _ | SM.OpAddInsight self _ _ _
  | SM.OpSetMetadata self _ _ | SM.OpGetMetadata self _
  | SM.OpUpdateAgentStatus self _ _ | SM.OpSetFileInfo self _
  | SM.OpGetFileInfo self | SM.OpResetSession self
  | SM.OpGetSummary self => Some self
  | _ => None
  end.

(** The figure the loop of [serialize_chart_payloads] encodes for a chart,
    [chart.get("figure") or {}], or the exception of its truth test. *)
Definition figure_of (object_truth : string -> outcome bool)
  (chart : gmap string pyval) : outcome pyval :=
  py_or_tested object_truth (dict_get chart "figure") (PyDict ∅).

(** The truth test of the figure of the chart returns, and the encoder
    returns a text for the figure or raises [TypeError]. *)
Definition encodes_or_type_error (json_dumps : pyval -> outcome string)
  (object_truth : string -> outcome bool) (chart : gmap string pyval)
  : Prop :=
  match figure_of object_truth chart with
  | Return figure =>
      match json_dumps figure with
      | Return _ | Raise TypeError => True
      | Raise _ => False
      end
  | Raise _ => False
  end.

(** The entry for a chart: the chart with ["figure_json"] set to the text of
    its figure, or to [placeholder] where the encoder raised. *)
Definition entry_for (json_dumps : pyval -> outcome string)
  (object_truth : string -> outcome bool) (placeholder : string)
  (chart : gmap string pyval) : gmap string pyval :=
  <["figure_json" :=
      PyStr (match figure_of object_truth chart with
             | Return figure =>
                 match json_dumps figure with
                 | Return figure_json => figure_json
                 | Raise _ => placeholder
                 end
             | Raise _ => placeholder
             end)]> chart.

(** ** Scenarios *)

Module Scenario.

(** A session ["s1"] and two handles for it. *)
Definition w_created : World := snd (SM.create_session "s1" World_empty).
Definition h1 : SessionManager := {| session_id := "s1"; state := 0 |}.
Definition h2 : SessionManager := {| session_id := "s1"; state := 0 |}.

Definition a_log_entry : CleaningEntry :=
  {| ce_timestamp := "2024-01-01 10:00:00";
     ce_action := "remove_duplicates";
     ce_details := "3 rows removed" |}.

(** One cleaning record is logged, then the session is reset through [h1]. *)
Definition w_logged : World :=
  SM.add_cleaning_log h2 "2024-01-01 10:00:00" "remove_duplicates"
    "3 rows removed" w_created.
Definition w_after_reset : World := snd (SM.reset_session h1 w_logged).

(** A dataframe at address 0, for a caller of [set_dataframe]. *)
Definition tiny_df : DataFrame :=
  {| df_columns := ["region"; "sales"];
     df_rows := [[CellStr "north"; CellInt 10]; [CellStr "south"; CellInt 7]] |}.
Definition w_with_frame : World :=
  {| frames := [tiny_df];
     objects := objects w_created;
     _sessions := _sessions w_created |}.

(** A dataframe with an object column: the cell of ["tags"] refers to the
    list at address 0 of the objects cells hold. [list_append] is what
    [df.at[0, "tags"].append(item)] does to that list, in place. *)
Definition tagged_df : DataFrame :=
  {| df_columns := ["id"; "tags"];
     df_rows := [[CellInt 1; CellObject 0]] |}.
Definition held_tags : list pyval := [PyList [PyStr "new"]].
Definition list_append (item : pyval) (v : pyval) : pyval :=
  match v with
  | PyList items => PyList (items ++ [item])
  | _ => v
  end.
Definition w_with_tagged : World :=
  {| frames := [tagged_df];
     objects := objects w_created;
     _sessions := _sessions w_created |}.
Definition w_tagged_stored : World :=
  default World_empty (SM.set_dataframe h1 0 "raw" w_with_tagged).

(** The float [3.14]. *)
Definition float_3_14 : pyfloat := Float64 0x40091EB851EB851F.

(** A series of length 1 named ["total"]. *)
Definition total_series : Series :=
  {| series_name := Some "total"; series_values := [CellInt 17] |}.

(** A history with one boolean result. *)
Definition bool_entry : QueryEntry :=
  {| qe_timestamp := "2024-01-01 10:05:00";
     qe_query := "is any sale above 9";
     qe_result := ResBool true;
     qe_explanation := "compares the maximum with 9" |}.
Definition st_bool_history : SessionState :=
  set_query_history [bool_entry] SessionState_new.

(** An encoder that cannot encode [PyObject] values: a dict that contains
    itself makes [json.dumps] raise [ValueError] ("Circular reference
    detected"), any other object [TypeError]; the text it returns is of no
    interest here. *)
Definition demo_dumps (v : pyval) : outcome string :=
  match v with
  | PyObject "dict that contains itself" => Raise ValueError
  | PyObject _ => Raise TypeError
  | PyDict _ => Return "{...}"
  | _ => Return "..."
  end.

(** The truth test of objects: a pandas DataFrame raises [ValueError]
    ("The truth value of a DataFrame is ambiguous"), any other object here
    is true. *)
Definition demo_truth (descr : string) : outcome bool :=
  match descr with
  | "a DataFrame" => Raise ValueError
  | _ => Return true
  end.

Definition chart_ok : gmap string pyval :=
  <["title" := PyStr "Sales by region"]>
    (<["figure" := PyDict (<["data" := PyList []]> ∅)]> ∅).
Definition chart_unencodable : gmap string pyval :=
  <["title" := PyStr "Trend"]> (<["figure" := PyObject "a Figure"]> ∅).
Definition chart_frame_figure : gmap string pyval :=
  <["title" := PyStr "Table"]> (<["figure" := PyObject "a DataFrame"]> ∅).
Definition chart_circular : gmap string pyval :=
  <["title" := PyStr "Loop"]>
    (<["figure" := PyObject "dict that contains itself"]> ∅).

(** Session ["s1"] after the web routes filled its caches: a cleaning
    summary, a query result, one chart payload and a report status. *)
Definition stale_summary : gmap string pyval :=
  <["duplicates_removed" := PyInt 3]> ∅.
Definition stale_result : gmap string pyval :=
  <["success" := PyBool true]> ∅.
Definition stale_report : gmap string pyval :=
  <["filename" := PyStr "report_1.pdf"]> ∅.
Definition w_cached : World :=
  SM.update_state 0
    (set_caches ∅ stale_summary stale_result [chart_ok] stale_report)
    w_created.

(** An upload of a file that reads as [tiny_df]. *)
Definition a_file : App.FileStorage := ("sales.csv", []).
Definition demo_agent :=
  App.spec_InputAgent_execute (fun _ _ => Some tiny_df).

End Scenario.

(** ** More of Python's strings *)

Module PyStrMore.

(** [s.split(sep)] for a separator of one character. *)
Fixpoint split (sep : ascii) (s : string) : list string :=
  match s with
  | EmptyString => [EmptyString]
  | String c r =>
      if Ascii.eqb c sep then EmptyString :: split sep r
      else match split sep r with
           | piece :: pieces => String c piece :: pieces
           | [] => [String c EmptyString]
           end
  end.

(** [sep.join(items)] *)
Fixpoint join (sep : string) (items : list string) : string :=
  match items with
  | [] => EmptyString
  | [item] => item
  | item :: rest => item +:+ sep +:+ join sep rest
  end.

(** The string does not begin, or end, with a whitespace character. *)
Definition starts_clean (s : string) : Prop :=
  match s with
  | EmptyString => True
  | String c _ => PyStr.is_space c = false
  end.

Fixpoint ends_clean (s : string) : Prop :=
  match s with
  | EmptyString => True
  | String c EmptyString => PyStr.is_space c = false
  | String _ r => ends_clean r
  end.


End PyStrMore.

(** ** utils/validators.py, class DataValidator *)

Module DataValidator.
Import PyStr PyStrMore.

Section pathlib.

(** [Path(filename).suffix], of pathlib. *)
Variable path_suffix : string -> string.

Definition validate_file_extension (filename : string)
  (allowed_extensions : list string) : bool * string :=
  let file_ext := lower (path_suffix filename) in
  if negb (bool_decide (file_ext ∈ allowed_extensions)) then
    (false, "Invalid file type. Allowed: " +:+ join ", " allowed_extensions)
  else (true, "Valid file extension").

End pathlib.

(** [df.empty]: some axis has length 0. *)
Definition df_empty (df : DataFrame) : bool :=
  (length (df_columns df) =? 0) || (length (df_rows df) =? 0).

(** [validate_dataframe(df)], [None] being a [df] that is [None]. *)
Definition validate_dataframe (df : option DataFrame) : bool * string :=
  match df with
  | None => (false, "DataFrame is None")
  | Some df =>
      if df_empty df then (false, "DataFrame is empty")
      else if length (df_columns df) =? 0 then (false, "No columns found")
      else if length (df_rows df) =? 0 then (false, "No rows found")
      else (true, "DataFrame is valid")
  end.

(** The dict [detect_data_issues] returns, by its keys. *)
Record DataIssues := mkDataIssues {
  missing_values : gmap string nat;
  duplicates : nat;
  data_types : gmap string string;
  warnings : list string
}.

(** [{k: v for k, v in items}]: of two pairs with one key the later wins. *)
Definition dict_of {V : Type} (items : list (string * V)) : gmap string V :=
  foldl (fun d kv => <[kv.1 := kv.2]> d) ∅ items.

(** [sum(d.values())] *)
Definition sum_values (d : gmap string nat) : nat :=
  map_fold (fun _ v acc => v + acc) 0 d.

(** [df[col]] selects by label: the positions of the columns labelled
    [col], and the values of the column at a position. *)
Fixpoint positions_from (i : nat) (col : string) (cols : list string)
  : list nat :=
  match cols with
  | [] => []
  | c :: rest =>
      if String.eqb c col then i :: positions_from (S i) col rest
      else positions_from (S i) col rest
  end.

Definition label_positions (df : DataFrame) (col : string) : list nat :=
  positions_from 0 col (df_columns df).

Definition column_at (df : DataFrame) (i : nat) : list cell :=
  map (fun row => default CellNull (row !! i)) (df_rows df).

(** What [df[col].nunique()] is: a number where [df[col]] is a Series, a
    Series of numbers where the label [col] is repeated and [df[col]] is a
    DataFrame. *)
Inductive nunique_result :=
| NuniqueCount (n : nat)
| NuniqueSeries (counts : list nat).

Section pandas.

(** What pandas computes on the frame: [df.isnull().sum().items()],
    [df.duplicated().sum()] (which raises [TypeError] on a cell that holds
    an unhashable object), [df.dtypes.items()] with [str(dtype)], and
    [Series.nunique()] on the values of one column (which raises likewise). *)
Variable isnull_sum : DataFrame -> list (string * nat).
Variable duplicated_sum : DataFrame -> outcome nat.
Variable dtypes_items : DataFrame -> list (string * string).
Variable series_nunique : list cell -> outcome nat.

(** [DataFrame.nunique()] on the columns at the given positions. *)
Fixpoint nunique_each (df : DataFrame) (positions : list nat)
  : outcome (list nat) :=
  match positions with
  | [] => Return []
  | i :: rest =>
      match series_nunique (column_at df i) with
      | Raise e => Raise e
      | Return n =>
          match nunique_each df rest with
          | Raise e => Raise e
          | Return counts => Return (n :: counts)
          end
      end
  end.

(** [df[col].nunique()] *)
Definition nunique (df : DataFrame) (col : string) : outcome nunique_result :=
  match label_positions df col with
  | [] => Raise (OtherError "KeyError")
  | [i] =>
      match series_nunique (column_at df i) with
      | Raise e => Raise e
      | Return n => Return (NuniqueCount n)
      end
  | positions =>
      match nunique_each df positions with
      | Raise e => Raise e
      | Return counts => Return (NuniqueSeries counts)
      end
  end.

(** The test [df[col].nunique() == len(df) and len(df) > 100] of the [if]:
    on a Series the comparison gives a Series, and the truth test of a
    Series raises [ValueError]. *)
Definition id_test (df : DataFrame) (col : string) : outcome bool :=
  match nunique df col with
  | Raise e => Raise e
  | Return (NuniqueCount n) =>
      Return ((n =? length (df_rows df)) && (100 <? length (df_rows df)))
  | Return (NuniqueSeries _) => Raise ValueError
  end.

(** The [for col in df.columns] loop, [warnings] being the list so far. *)
Fixpoint id_warnings (df : DataFrame) (cols : list string)
  (warnings : list string) : outcome (list string) :=
  match cols with
  | [] => Return warnings
  | col :: rest =>
      match id_test df col with
      | Raise e => Raise e
      | Return true =>
          id_warnings df rest
            (warnings
             ++ ["Column '" +:+ col +:+ "' has unique values (possible ID field)"])
      | Return false => id_warnings df rest warnings
      end
  end.

Definition detect_data_issues (df : DataFrame) : outcome DataIssues :=
  let missing :=
    dict_of (List.filter (fun kv => 0 <? kv.2) (isnull_sum df)) in
  match duplicated_sum df with
  | Raise e => Raise e
  | Return dups =>
      let w_missing :=
        if 0 <? size missing then
          ["Found " +:+ pretty (sum_values missing)
           +:+ " missing values across " +:+ pretty (size missing)
           +:+ " columns"]
        else [] in
      let w_duplicates :=
        if 0 <? dups then ["Found " +:+ pretty dups +:+ " duplicate rows"]
        else [] in
      match id_warnings df (df_columns df) (w_missing ++ w_duplicates) with
      | Raise e => Raise e
      | Return warnings =>
          Return {| missing_values := missing;
                    duplicates := dups;
                    data_types := dict_of (dtypes_items df);
                    warnings := warnings |}
      end
  end.

End pandas.

End DataValidator.

(** ** app.py, the other helpers and routes *)

Module AppRoutes.
Import PyStr PyStrMore App.

(** [STAGE_TABS], each tab by its key and label. *)
Definition STAGE_TABS : list (string * string) :=
  [ ("upload", "Upload"); ("clean", "Clean"); ("query", "Ask");
    ("visualize", "Visualize"); ("report", "Report") ].

(** [bool(x)] *)
Definition py_bool (x : pyval) : pyval := PyBool (truthy x).

Definition build_cleaning_payload (payload : gmap string pyval)
  : gmap string pyval :=
  <["clean_missing" :=
      py_bool (dict_get_default payload "clean_missing" (PyBool false))]>
  (<["missing_strategy" := dict_get payload "missing_strategy"]>
  (<["missing_columns" :=
       py_or (dict_get payload "missing_columns") (PyList [])]>
  (<["clean_duplicates" :=
       py_bool (dict_get_default payload "clean_duplicates" (PyBool true))]>
  (<["duplicate_strategy" :=
       py_or (dict_get payload "duplicate_strategy") (PyStr "drop")]> ∅)))).

Definition build_chart_payload (payload : gmap string pyval)
  : gmap string pyval :=
  <["chart_type" := dict_get payload "chart_type"]>
  (<["x_col" := dict_get payload "x_col"]>
  (<["y_col" := dict_get payload "y_col"]> ∅)).

(** What a web route answers: the message it flashed with its category,
    and the [step] argument of the redirect, if it has one. *)
Record Redirect := mkRedirect {
  flash : string * string;
  step : option string
}.


(** *** Error handlers *)



(** [x or y] on texts that may be [None]. *)
Definition text_or (x : option string) (y : string) : string :=
  if id_missing x then y else default "" x.


(** *** Session routes *)

(** [reset_web_session()], the route [POST /session/reset]: the cookie is
    dropped before [ensure_web_session] runs. *)
Definition reset_web_session (cookie : option string) (uuid : string)
  (w : World) : outcome Redirect * option string * World :=
  match ensure_web_session None uuid w with
  | (Raise e, cookie', w1) => (Raise e, cookie', w1)
  | (Return _, cookie', w1) =>
      (Return {| flash := ("Session reinitialized", "success");
                 step := None |}, cookie', w1)
  end.

(** [reset_data_step()], the route [POST /reset]. *)
Definition reset_data_step (cookie : option string) (uuid : string)
  (w : World) : outcome Redirect * option string * World :=
  match ensure_web_session cookie uuid w with
  | (Raise e, cookie', w1) => (Raise e, cookie', w1)
  | (Return session, cookie', w1) =>
      match SM.reset_session session w1 with
      | (Raise e, w2) => (Raise e, cookie', w2)
      | (Return _, w2) =>
          (Return {| flash := ("Session data cleared.", "success");
                     step := Some "upload" |}, cookie', w2)
      end
  end.

(** [reset_session()], the route [POST /api/reset]: the body is
    [{"success": True}]. *)
Definition reset_session (header : option string) (w : World)
  : outcome (gmap string pyval) * World :=
  match get_session_or_abort header w with
  | (Raise e, w1) => (Raise e, w1)
  | (Return session, w1) =>
      match SM.reset_session session w1 with
      | (Raise e, w2) => (Raise e, w2)
      | (Return _, w2) => (Return (<["success" := PyBool true]> ∅), w2)
      end
  end.

(** [get_summary()], the route [GET /api/summary]; [None] only for a handle
    without a state object. *)
Definition get_summary (header : option string) (w : World)
  : outcome (option SM.Summary) * World :=
  match get_session_or_abort header w with
  | (Raise e, w1) => (Raise e, w1)
  | (Return session, w1) => (Return (SM.get_summary session w1), w1)
  end.

(** *** Cleaning *)

(** The dict the cleaning agent's [execute] returns. *)
Record CleaningResult := mkCleaningResult {
  cl_success : bool;
  cl_message : string;
  cl_summary : option (gmap string pyval)
}.

(** The [missing_columns] entry of the payload of [clean_step]:
    [[col.strip() for col in (value or "").split(",") if col.strip()]]. *)
Definition form_columns (value : option string) : list string :=
  List.filter (fun col => negb (String.eqb col ""))
    (strip <$> split "," (text_or value "")).


Section cleaning.

(** [CleaningAgent(session).execute(payload)], of the package [agents]. *)
Variable CleaningAgent_execute :
  SessionManager -> gmap string pyval -> World -> CleaningResult * World.


(** [clean_data()], the route [POST /api/clean]; [body] is what
    [request.get_json(silent=True)] gives, [PyNone] without a JSON body.
    Only a dict has [.get]. *)
Definition clean_data (header : option string) (body : pyval) (w : World)
  : outcome CleaningResult * World :=
  match get_session_or_abort header w with
  | (Raise e, w1) => (Raise e, w1)
  | (Return session, w1) =>
      match py_or body (PyDict ∅) with
      | PyDict payload =>
          let '(result, w2) :=
            CleaningAgent_execute session (build_cleaning_payload payload)
              w1 in
          if negb (cl_success result) then
            (Raise (HTTPException 400 (cl_message result)), w2)
          else (Return result, w2)
      | _ => (Raise (OtherError "AttributeError"), w1)
      end
  end.

End cleaning.

(** *** Queries *)

(** The dict the query agent's [execute] returns: the dict itself, with
    its entries [success] and [message] read out. *)
Record NLQResult := mkNLQResult {
  nlq_success : bool;
  nlq_message : string;
  nlq_dict : gmap string pyval
}.

Section queries.

(** [NLQAgent(session).execute(query_text)], of the package [agents]. *)
Variable NLQAgent_execute :
  SessionManager -> string -> World -> NLQResult * World.


(** [run_query()], the route [POST /api/query]. Only a dict has [.get] and
    only a string has [.strip]. *)
Definition run_query (header : option string) (body : pyval) (w : World)
  : outcome NLQResult * World :=
  match get_session_or_abort header w with
  | (Raise e, w1) => (Raise e, w1)
  | (Return session, w1) =>
      match py_or body (PyDict ∅) with
      | PyDict payload =>
          match py_or (dict_get payload "query") (PyStr "") with
          | PyStr text =>
              let query_text := strip text in
              if String.eqb query_text "" then
                (Raise (HTTPException 400 "Query text is required"), w1)
              else
                let '(result, w2) :=
                  NLQAgent_execute session query_text w1 in
                if negb (nlq_success result) then
                  (Raise (HTTPException 400 (nlq_message result)), w2)
                else (Return result, w2)
          | _ => (Raise (OtherError "AttributeError"), w1)
          end
      | _ => (Raise (OtherError "AttributeError"), w1)
      end
  end.

End queries.

(** [query_history()], the route [GET /api/history]; [None] only for a
    handle without a state object. *)
Definition query_history_route (header : option string) (w : World)
  : outcome (option (list HistoryItem)) * World :=
  match get_session_or_abort header w with
  | (Raise e, w1) => (Raise e, w1)
  | (Return session, w1) =>
      (Return (serialize_history <$> SM.read_state session w1), w1)
  end.

(** *** Charts *)

(** The dict the visualization agent's [execute] returns. *)
Record VisualizationResult := mkVisualizationResult {
  viz_success : bool;
  viz_message : string;
  viz_charts : option (list (gmap string pyval))
}.


Section charts.

(** [VisualizationAgent(session).execute(auto=True)] and
    [.execute(chart_type=.., x_col=.., y_col=.., auto=False)], of the
    package [agents]. *)
Variable VisualizationAgent_auto :
  SessionManager -> World -> VisualizationResult * World.
Variable VisualizationAgent_custom :
  SessionManager -> pyval -> pyval -> pyval -> World ->
  VisualizationResult * World.




(** [custom_visualize()], the route [POST /api/visualize/custom]. *)
Definition custom_visualize (header : option string) (body : pyval)
  (w : World) : outcome VisualizationResult * World :=
  match get_session_or_abort header w with
  | (Raise e, w1) => (Raise e, w1)
  | (Return session, w1) =>
      match py_or body (PyDict ∅) with
      | PyDict payload =>
          let chart_payload := build_chart_payload payload in
          if negb (truthy (dict_get chart_payload "chart_type"))
             || negb (truthy (dict_get chart_payload "x_col")) then
            (Raise (HTTPException 400 "Chart type and X column are required"),
             w1)
          else
            let '(result, w2) :=
              VisualizationAgent_custom session
                (dict_get chart_payload "chart_type")
                (dict_get chart_payload "x_col")
                (dict_get chart_payload "y_col") w1 in
            if negb (viz_success result) then
              (Raise (HTTPException 400 (viz_message result)), w2)
            else (Return result, w2)
      | _ => (Raise (OtherError "AttributeError"), w1)
      end
  end.

End charts.

(** One entry of the answer of [list_charts]. *)
Record ChartInfo := mkChartInfo {
  ci_title : string;
  ci_type : string;
  ci_timestamp : string
}.

(** [list_charts()], the route [GET /api/charts]. *)
Definition list_charts (header : option string) (w : World)
  : outcome (option (list ChartInfo)) * World :=
  match get_session_or_abort header w with
  | (Raise e, w1) => (Raise e, w1)
  | (Return session, w1) =>
      (Return
         ((fun st =>
             (fun chart =>
                {| ci_title := ch_title chart;
                   ci_type := ch_type chart;
                   ci_timestamp := ch_timestamp chart |})
             <$> generated_charts st) <$> SM.read_state session w1), w1)
  end.

(** *** Dashboard *)

(** The dict [build_dashboard_context] returns, by its keys. *)
Record DashboardContext := mkDashboardContext {
  ctx_stage_tabs : list (string * string);
  ctx_current_step : string;
  ctx_summary : SM.Summary;
  ctx_file_info : gmap string pyval;
  ctx_dataset_preview : gmap string pyval;
  ctx_cleaning_needs : pyval;
  ctx_cleaning_summary : gmap string pyval;
  ctx_query_result : gmap string pyval;
  ctx_history : list HistoryItem;
  ctx_chart_payloads : list (gmap string pyval);
  ctx_report_status : gmap string pyval;
  ctx_flash_messages : list (string * string)
}.

Section dashboard.

(** [CleaningAgent(session).get_cleaning_needs()] of the package [agents],
    [json.dumps] with plotly's encoder, the truth test of objects, and what
    [get_flashed_messages(with_categories=True)] returns. *)
Variable get_cleaning_needs : SessionManager -> World -> pyval.
Variable json_dumps : pyval -> outcome string.
Variable object_truth : string -> outcome bool.
Variable flashed_messages : list (string * string).

(** [build_dashboard_context(session, current_step)]; [None] only for a
    handle without a state object. *)
Definition build_dashboard_context (session : SessionManager)
  (current_step : string) (w : World)
  : option (outcome DashboardContext) :=
  let valid_steps := fst <$> STAGE_TABS in
  let current_step :=
    if negb (bool_decide (current_step ∈ valid_steps)) then
      default "" (fst <$> head STAGE_TABS)
    else current_step in
  summary ← SM.get_summary session w;
  st ← SM.read_state session w;
  let cleaning_needs := get_cleaning_needs session w in
  Some
    match serialize_chart_payloads json_dumps object_truth
            (Some (chart_payloads st)) with
    | Raise e => Raise e
    | Return payloads =>
        Return
          {| ctx_stage_tabs := STAGE_TABS;
             ctx_current_step := current_step;
             ctx_summary := summary;
             ctx_file_info := uploaded_file_info st;
             ctx_dataset_preview := dataset_preview st;
             ctx_cleaning_needs := cleaning_needs;
             ctx_cleaning_summary := cleaning_summary st;
             ctx_query_result := last_query_result st;
             ctx_history := serialize_history st;
             ctx_chart_payloads := payloads;
             ctx_report_status := report_status st;
             ctx_flash_messages := flashed_messages |}
    end.

End dashboard.

End AppRoutes.

(** ** More notions the statements use *)

(** [st'] is [st] but for its three dataframe slots. *)
Definition same_but_slots (st st' : SessionState) : Prop :=
  dataset_metadata st' = dataset_metadata st
  /\ cleaning_log st' = cleaning_log st
  /\ query_history st' = query_history st
  /\ generated_charts st' = generated_charts st
  /\ insights st' = insights st
  /\ agent_status st' = agent_status st
  /\ uploaded_file_info st' = uploaded_file_info st
  /\ dataset_preview st' = dataset_preview st
  /\ cleaning_summary st' = cleaning_summary st
  /\ last_query_result st' = last_query_result st
  /\ chart_payloads st' = chart_payloads st
  /\ report_status st' = report_status st.

(** A session id a request can present: given, not empty, and registered
    with the state object at [l]. *)
Definition presents (x : option string) (id : string) (l : loc) (w : World)
  : Prop :=
  x = Some id /\ id <> "" /\ _sessions w !! id = Some l.

(** No usable session id: none given, an empty one, or one that is not
    registered. *)
Definition presents_none (x : option string) (w : World) : Prop :=
  forall id, x = Some id -> id = "" \/ _sessions w !! id = None.

(** A summary with its four counters raised by the given amounts. *)
Definition bump (cleaning queries charts notes : nat) (s : SM.Summary)
  : SM.Summary :=
  {| SM.has_data := SM.has_data s;
     SM.rows := SM.rows s;
     SM.columns := SM.columns s;
     SM.cleaning_operations := SM.cleaning_operations s + cleaning;
     SM.queries_executed := SM.queries_executed s + queries;
     SM.charts_generated := SM.charts_generated s + charts;
     SM.insights_count := SM.insights_count s + notes |}.

(** Two characters that are equal, or an ASCII capital and its small
    letter; two strings that are equal up to the case of ASCII letters. *)
Definition is_ascii_capital (c : ascii) : bool :=
  let n := nat_of_ascii c in (65 <=? n) && (n <=? 90).

Definition small_of (c : ascii) : ascii := ascii_of_nat (nat_of_ascii c + 32).

Definition same_letter (a b : ascii) : bool :=
  Ascii.eqb a b
  || (is_ascii_capital a && Ascii.eqb b (small_of a))
  || (is_ascii_capital b && Ascii.eqb a (small_of b)).

Fixpoint equal_ignoring_case (s t : string) : bool :=
  match s, t with
  | EmptyString, EmptyString => true
  | String a s', String b t' => same_letter a b && equal_ignoring_case s' t'
  | _, _ => false
  end.

(** * Properties *)

(** ** Strings *)

Module PyStrFacts.
Import PyStr.

Lemma lower_append (a b : string) : lower (a +:+ b) = lower a +:+ lower b.
Proof.
  induction a as [|x a IH]; simpl; [reflexivity |].
  rewrite IH. reflexivity.
Qed.

Lemma prefix_true_iff (p s : string) :
  String.prefix p s = true <-> exists post, s = p +:+ post.
Proof.
  revert s. induction p as [|c p IH]; intros s.
  - split; [intros _; by exists s | intros _; by destruct s].
  - destruct s as [|d s]; simpl.
    + split; [done | intros [post H]; discriminate].
    + destruct (Ascii.ascii_dec c d) as [->|Hne].
      * rewrite IH. split; intros [post H]; exists post.
        -- by rewrite H.
        -- by injection H.
      * split; [done | intros [post H]; injection H; congruence].
Qed.

Lemma lower_char_small_of (c : ascii) :
  is_ascii_capital c = true ->
  PyStr.lower_char (small_of c) = PyStr.lower_char c.
Proof.
  destruct c as [[] [] [] [] [] [] [] []]; try discriminate; reflexivity.
Qed.

Lemma lower_char_same_letter (a b : ascii) :
  same_letter a b = true -> lower_char a = lower_char b.
Proof.
  unfold same_letter. rewrite !orb_true_iff, !andb_true_iff.
  intros [[H | [Hc H]] | [Hc H]]; apply Ascii.eqb_eq in H; subst.
  - reflexivity.
  - by rewrite lower_char_small_of.
  - by rewrite lower_char_small_of.
Qed.

(** [lower] does not tell apart strings that differ by the case of ASCII
    letters only. *)
Lemma lower_equal_ignoring_case (s t : string) :
  equal_ignoring_case s t = true -> lower s = lower t.
Proof.
  revert t. induction s as [|a s IH]; intros [|b t]; simpl; try done.
  rewrite andb_true_iff. intros [Hab Hst].
  by rewrite (lower_char_same_letter _ _ Hab), (IH _ Hst).
Qed.

Lemma contains_nil (sub : string) :
  contains sub "" = String.prefix sub "".
Proof. simpl. apply orb_false_r. Qed.

Lemma contains_cons (sub : string) (c : ascii) (s : string) :
  contains sub (String c s) = String.prefix sub (String c s) || contains sub s.
Proof. reflexivity. Qed.

Lemma contains_true_iff (sub s : string) :
  contains sub s = true <-> occurs sub s.
Proof.
  unfold occurs. induction s as [|c s IH].
  - rewrite contains_nil, prefix_true_iff. split.
    + intros [post H]. by exists EmptyString, post.
    + intros [pre [post H]]. destruct pre as [|x pre]; [by exists post | discriminate].
  - rewrite contains_cons, orb_true_iff, IH, prefix_true_iff. split.
    + intros [[post H] | [pre [post H]]].
      * by exists EmptyString, post.
      * exists (String c pre), post. simpl. by rewrite H.
    + intros [pre [post H]]. destruct pre as [|x pre].
      * left. by exists post.
      * right. exists pre, post. simpl in H. by injection H.
Qed.

Lemma contains_false_iff (sub s : string) :
  contains sub s = false <-> ~ occurs sub s.
Proof.
  rewrite <- contains_true_iff. destruct (contains sub s); split; congruence.
Qed.

End PyStrFacts.

(** ** Query validation *)

Module QueryValidatorFacts.
Import PyStr QueryValidator PyStrFacts.

Lemma strip_empty : strip "" = "".
Proof. reflexivity. Qed.

(** C4, as stated, fails: a query of three characters of which two are
    trailing blanks is accepted, and its trimmed length is 1. *)
Lemma validate_query_untrimmed_counterexample :
  fst (validate_query "a  ") = true
  /\ String.length (strip "a  ") = 1
  /\ ~ (3 <= String.length (strip "a  ") <= 500).
Proof. repeat split; try reflexivity. simpl. lia. Qed.

(** C4, amended: [validate_query] accepts a query exactly when it is not
    blank (its trimmed form is not empty) and its own length, not the
    trimmed one, is between 3 and 500 inclusive; ["ab"] is rejected and
    ["abc"] accepted. *)
Theorem validate_query_ok_iff (query : string) :
  (fst (validate_query query) = true
   <-> strip query <> "" /\ 3 <= String.length query <= 500)
  /\ fst (validate_query "ab") = false
  /\ fst (validate_query "abc") = true.
Proof.
  split; [| split; reflexivity].
  unfold validate_query.
  destruct (String.eqb_spec query "") as [->|Hq]; simpl.
  { split; [done | intros [H _]; by destruct H]. }
  destruct (String.eqb_spec (strip query) "") as [Hs|Hs]; simpl.
  { split; [done | intros [H _]; by destruct H]. }
  destruct (Nat.ltb_spec (String.length query) 3) as [H3|H3]; simpl.
  { split; [done | lia]. }
  destruct (Nat.ltb_spec 500 (String.length query)) as [H5|H5]; simpl.
  { split; [done | lia]. }
  split; [intros _; split; [done | lia] | done].
Qed.

(** The loop rejects with the first keyword of the list that occurs. *)
Lemma scan_keywords_spec (keywords : list string) (q : string) :
  (exists before keyword after,
      keywords = before ++ keyword :: after
      /\ Forall (fun k => ~ occurs k q) before
      /\ occurs keyword q
      /\ scan_keywords keywords q = (false, danger_message keyword))
  \/ (Forall (fun k => ~ occurs k q) keywords
      /\ scan_keywords keywords q = (true, "Query is safe")).
Proof.
  induction keywords as [|k rest IH]; simpl.
  - right. split; [constructor | reflexivity].
  - destruct (contains k q) eqn:Hk.
    + left. exists [], k, rest. repeat split; [constructor | by apply contains_true_iff].
    + apply contains_false_iff in Hk.
      destruct IH as [(before & keyword & after & -> & Hb & Ho & Hs) | [Hall Hs]].
      * left. exists (k :: before), keyword, after.
        repeat split; [by constructor | done | done].
      * right. split; [by constructor | done].
Qed.

(** C7: [is_safe_query] lowers the query and scans the fixed deny-list
    (ten keywords, in the order of the source) for a keyword occurring in it
    as a substring. It rejects exactly when some keyword of the list occurs
    in the lowered query, and the message is then the fixed text
    "Query contains potentially dangerous operation: " followed by, between
    quotes, the first keyword of the list that occurs; otherwise it answers
    "Query is safe". The scan ignores the case of letters: a query that
    differs from [query] by the case of ASCII letters only gets the same
    answer. A query with a block that lowers to ["drop table"] is rejected
    with that keyword named, as ["DROP TABLE users"] is. *)
Theorem is_safe_query_scan (query : string) :
  (fst (is_safe_query query) = false
   <-> exists keyword,
         keyword ∈ dangerous_keywords /\ occurs keyword (lower query))
  /\ ((exists before keyword after,
         dangerous_keywords = before ++ keyword :: after
         /\ Forall (fun k => ~ occurs k (lower query)) before
         /\ keyword ∈ dangerous_keywords
         /\ occurs keyword (lower query)
         /\ is_safe_query query
            = (false,
               "Query contains potentially dangerous operation: '"
               +:+ keyword +:+ "'")
         /\ occurs keyword (snd (is_safe_query query)))
      \/ ((forall keyword,
             keyword ∈ dangerous_keywords -> ~ occurs keyword (lower query))
          /\ is_safe_query query = (true, "Query is safe")))
  /\ (forall pre hit post,
        query = pre +:+ hit +:+ post ->
        lower hit = "drop table" ->
        is_safe_query query
        = (false,
           "Query contains potentially dangerous operation: 'drop table'"))
  /\ (forall other,
        equal_ignoring_case query other = true ->
        is_safe_query other = is_safe_query query)
  /\ (forall pre hit post,
        query = pre +:+ hit +:+ post ->
        equal_ignoring_case hit "drop table" = true ->
        is_safe_query query
        = (false,
           "Query contains potentially dangerous operation: 'drop table'"))
  /\ dangerous_keywords
     = [ "drop table"; "delete from"; "truncate"; "insert into";
         "update set"; "exec"; "system"; "os."; "eval("; "exec(" ]
  /\ is_safe_query "DROP TABLE users"
     = (false, "Query contains potentially dangerous operation: 'drop table'")
  /\ is_safe_query "please Delete From sales"
     = (false, "Query contains potentially dangerous operation: 'delete from'")
  /\ is_safe_query "average sales by region" = (true, "Query is safe").
Proof.
  assert (Hdrop : forall pre hit post,
            query = pre +:+ hit +:+ post ->
            lower hit = "drop table" ->
            is_safe_query query
            = (false,
               "Query contains potentially dangerous operation: 'drop table'")).
  { intros pre hit post -> Hl. unfold is_safe_query.
    assert (Hdt : occurs "drop table" (lower (pre +:+ hit +:+ post))).
    { exists (lower pre), (lower post). by rewrite !lower_append, Hl. }
    apply contains_true_iff in Hdt.
    change dangerous_keywords with ("drop table" :: tail dangerous_keywords).
    simpl scan_keywords. by rewrite Hdt. }
  split; [| split; [| split; [exact Hdrop | split; [| split; [| done]]]]].
  - unfold is_safe_query.
    destruct (scan_keywords_spec dangerous_keywords (lower query))
      as [(before & keyword & after & Heq & Hb & Ho & Hs) | [Hall Hs]].
    + rewrite Hs. simpl. split; [intros _ | done]. exists keyword.
      split; [| done]. rewrite Heq. apply elem_of_app. right. by left.
    + rewrite Forall_forall in Hall. rewrite Hs. simpl. split; [done |].
      intros (keyword & Hin & Ho). by destruct (Hall keyword Hin).
  - unfold is_safe_query.
    destruct (scan_keywords_spec dangerous_keywords (lower query))
      as [(before & keyword & after & Heq & Hb & Ho & Hs) | [Hall Hs]].
    + left. exists before, keyword, after.
      split; [done | split; [done | split; [| split; [done | split]]]].
      * rewrite Heq. apply elem_of_app. right. by left.
      * exact Hs.
      * rewrite Hs. simpl.
        by exists "Query contains potentially dangerous operation: '", "'".
    + right. rewrite Forall_forall in Hall. by split.
  - intros other H. unfold is_safe_query.
    by rewrite (lower_equal_ignoring_case _ _ H).
  - intros pre hit post Hq H. apply (Hdrop pre hit post Hq).
    by rewrite (lower_equal_ignoring_case _ _ H).
Qed.

(** The message names the keyword between quotes, after a fixed text. *)
Lemma danger_message_names (keyword : string) :
  occurs keyword (danger_message keyword).
Proof.
  by exists "Query contains potentially dangerous operation: '", "'".
Qed.

Example is_safe_query_drop_table :
  is_safe_query "DROP TABLE users" = (false, danger_message "drop table").
Proof. reflexivity. Qed.

Example is_safe_query_plain :
  is_safe_query "average sales by region" = (true, "Query is safe").
Proof. reflexivity. Qed.

End QueryValidatorFacts.

(** ** Session store *)

Module SessionFacts.
Import Scenario.

Lemma has_session_false (id : string) (w : World) :
  SM.has_session id w = false <-> _sessions w !! id = None.
Proof.
  unfold SM.has_session. destruct (_sessions w !! id); split; congruence.
Qed.

Lemma has_session_true (id : string) (w : World) :
  SM.has_session id w = true <-> is_Some (_sessions w !! id).
Proof.
  unfold SM.has_session. destruct (_sessions w !! id); split; done.
Qed.

(** The constructor on an id that is registered: the handle refers to the
    registered state object and nothing changes. *)
Lemma init_present (id : string) (l : loc) (w : World) :
  _sessions w !! id = Some l ->
  SM.__init__ id w = (Return {| session_id := id; state := l |}, w).
Proof.
  intros H. unfold SM.__init__, SM.has_session. rewrite H. simpl.
  by rewrite H.
Qed.

(** The constructor on an id that is not registered: a new state object is
    allocated and registered under the id. *)
Lemma init_absent (id : string) (w : World) :
  _sessions w !! id = None ->
  SM.__init__ id w
  = (Return {| session_id := id; state := length (objects w) |},
     SM.bind_session id (length (objects w))
       (snd (SM.alloc_state SessionState_new w))).
Proof.
  intros H. unfold SM.__init__, SM.has_session. rewrite H. simpl.
  by rewrite lookup_insert_eq.
Qed.

Lemma session_state_bind_alloc (id : string) (st : SessionState) (w : World) :
  SM.session_state id
    (SM.bind_session id (length (objects w)) (snd (SM.alloc_state st w)))
  = Some st.
Proof.
  unfold SM.session_state. simpl. rewrite lookup_insert_eq. simpl.
  by rewrite lookup_app_r, Nat.sub_diag.
Qed.

(** C1, as stated, fails: on the empty store, where ["ghost"] was never
    created, [has_session] is false and yet constructing a [SessionManager]
    for ["ghost"] returns a handle, after which the id is registered with a
    fresh [SessionState]. *)
Lemma init_registers_counterexample :
  SM.has_session "ghost" World_empty = false
  /\ fst (SM.__init__ "ghost" World_empty)
     = Return {| session_id := "ghost"; state := 0 |}
  /\ SM.has_session "ghost" (snd (SM.__init__ "ghost" World_empty)) = true
  /\ SM.session_state "ghost" (snd (SM.__init__ "ghost" World_empty))
     = Some SessionState_new.
Proof. repeat split; reflexivity. Qed.

(** C1, amended: for a session id that is not in the registry,
    [has_session] returns false, and [get_session_or_abort] (the header
    path) aborts with HTTP 400 "Missing or invalid session id" and leaves
    the store as it was. The constructor [SessionManager(session_id)] itself
    does not fail on such an id: it registers a fresh [SessionState] under it
    and returns a handle bound to that state. *)
Theorem absent_session_resolution (id : string) (w : World) :
  _sessions w !! id = None ->
  SM.has_session id w = false
  /\ App.get_session_or_abort (Some id) w
     = (Raise (HTTPException 400 "Missing or invalid session id"), w)
  /\ (exists self w',
        SM.__init__ id w = (Return self, w')
        /\ session_id self = id
        /\ SM.has_session id w' = true
        /\ SM.session_state id w' = Some SessionState_new
        /\ SM.read_state self w' = Some SessionState_new
        /\ objects w' = objects w ++ [SessionState_new]).
Proof.
  intros H. assert (Hh : SM.has_session id w = false) by by apply has_session_false.
  split; [done | split].
  - unfold App.get_session_or_abort. simpl. rewrite Hh. simpl.
    by rewrite orb_true_r.
  - eexists _, _. split; [by apply init_absent |].
    repeat split; simpl.
    + apply has_session_true. unfold SM.bind_session. simpl.
      rewrite lookup_insert_eq. by eexists.
    + apply session_state_bind_alloc.
    + unfold SM.read_state. simpl. by rewrite lookup_app_r, Nat.sub_diag.
Qed.

Lemma absent_session_resolution_witness :
  _sessions World_empty !! "ghost" = None
  /\ SM.has_session "ghost" World_empty = false
  /\ App.get_session_or_abort (Some "ghost") World_empty
     = (Raise (HTTPException 400 "Missing or invalid session id"), World_empty).
Proof.
  split; [reflexivity |].
  destruct (absent_session_resolution "ghost" World_empty) as (H1 & H2 & _);
    [reflexivity | by split].
Defined.

(** *** Histories only grow *)

Lemma lists_extend_refl (st : SessionState) : lists_extend st st.
Proof. by repeat split. Qed.

Lemma lists_extend_trans (a b c : SessionState) :
  lists_extend a b -> lists_extend b c -> lists_extend a c.
Proof.
  intros (H1 & H2 & H3 & H4) (K1 & K2 & K3 & K4).
  repeat split; etrans; eauto.
Qed.

Lemma objects_extend_refl (w : World) : objects_extend w w.
Proof. intros l st H. exists st. split; [done | apply lists_extend_refl]. Qed.

Lemma objects_extend_trans (a b c : World) :
  objects_extend a b -> objects_extend b c -> objects_extend a c.
Proof.
  intros Hab Hbc l st H.
  destruct (Hab l st H) as (st1 & H1 & E1).
  destruct (Hbc l st1 H1) as (st2 & H2 & E2).
  exists st2. split; [done | by eapply lists_extend_trans].
Qed.

Lemma objects_extend_same (w w' : World) :
  objects w' = objects w -> objects_extend w w'.
Proof.
  intros E l st H. exists st. rewrite E. split; [done | apply lists_extend_refl].
Qed.

Lemma objects_extend_alloc (st0 : SessionState) (w : World) :
  objects_extend w (snd (SM.alloc_state st0 w)).
Proof.
  intros l st H. exists st. simpl.
  split; [by apply lookup_app_l_Some | apply lists_extend_refl].
Qed.

Lemma objects_extend_update (l0 : loc) (f : SessionState -> SessionState)
  (w : World) :
  (forall st, lists_extend st (f st)) ->
  objects_extend w (SM.update_state l0 f w).
Proof.
  intros Hf l st H. simpl.
  destruct (decide (l0 = l)) as [->|Hne].
  - exists (f st). split; [| apply Hf].
    by rewrite list_lookup_alter_eq, H.
  - exists st. split; [| apply lists_extend_refl].
    by rewrite list_lookup_alter_ne.
Qed.

(** A field update that leaves the four histories, or adds at their end. *)
Ltac lists_kept :=
  intros ?; unfold lists_extend; simpl; repeat split;
  first [ done | by apply prefix_app_r ].

Lemma df_copy_some (df : loc) (d : DataFrame) (w : World) :
  frames w !! df = Some d ->
  SM.df_copy df w
  = Some (length (frames w),
          {| frames := frames w ++ [d]; objects := objects w;
             _sessions := _sessions w |}).
Proof. intros H. unfold SM.df_copy. by rewrite H. Qed.

Lemma df_copy_inv (df c : loc) (w w' : World) :
  SM.df_copy df w = Some (c, w') ->
  exists d, frames w !! df = Some d
    /\ c = length (frames w)
    /\ w' = {| frames := frames w ++ [d]; objects := objects w;
               _sessions := _sessions w |}.
Proof.
  unfold SM.df_copy. destruct (frames w !! df) as [d|]; simpl; [|done].
  intros [= <- <-]. by exists d.
Qed.

Lemma set_dataframe_frame (self : SessionManager) (df : loc)
  (df_type : string) (w w' : World) :
  SM.set_dataframe self df df_type w = Some w' ->
  objects_extend w w' /\ _sessions w' = _sessions w.
Proof.
  unfold SM.set_dataframe. intros H.
  assert (Hcopy : forall c v v', SM.df_copy df v = Some (c, v') ->
            objects_extend v v' /\ _sessions v' = _sessions v).
  { intros c v v' Hc. apply df_copy_inv in Hc as (d & _ & _ & ->).
    split; [by apply objects_extend_same | done]. }
  assert (Hstep : exists w1, objects_extend w w1 /\ _sessions w1 = _sessions w
            /\ (SM.df_copy df w1 ≫= (fun '(c, w2) =>
                  Some (SM.update_state (state self)
                          (set_current_dataframe (Some c)) w2))) = Some w').
  { destruct (String.eqb df_type "raw").
    - destruct (SM.df_copy df w) as [[c v]|] eqn:Hc; simpl in H; [|done].
      destruct (Hcopy _ _ _ Hc) as [E S].
      eexists. split; [| split; [| exact H]].
      + eapply objects_extend_trans; [exact E |].
        apply objects_extend_update. lists_kept.
      + done.
    - destruct (String.eqb df_type "cleaned").
      + destruct (SM.df_copy df w) as [[c v]|] eqn:Hc; simpl in H; [|done].
        destruct (Hcopy _ _ _ Hc) as [E S].
        eexists. split; [| split; [| exact H]].
        * eapply objects_extend_trans; [exact E |].
          apply objects_extend_update. lists_kept.
        * done.
      + exists w. split; [apply objects_extend_refl | split; [done | exact H]]. }
  destruct Hstep as (w1 & E1 & S1 & H1).
  destruct (SM.df_copy df w1) as [[c v]|] eqn:Hc; simpl in H1; [|done].
  injection H1 as <-.
  destruct (Hcopy _ _ _ Hc) as [E S].
  split; [| simpl; congruence].
  eapply objects_extend_trans; [exact E1 |].
  eapply objects_extend_trans; [exact E |].
  apply objects_extend_update. lists_kept.
Qed.

(** No call removes a state object or shortens one of its histories. *)
Lemma run_objects_extend (o : SM.op) (w : World) :
  objects_extend w (SM.run o w).
Proof.
  destruct o as [sid|uuid|sid|sid|self df df_type|self df_type|self now a d|self now q r e|self now c t ti|self now i c|self k v|self k|self a b|self info|self|self|self];
    simpl; try apply objects_extend_refl;
    try (apply objects_extend_update; lists_kept).
  - unfold SM.__init__. destruct (SM.has_session sid w); simpl.
    + destruct (_sessions w !! sid); apply objects_extend_refl.
    + destruct (_ !! sid); simpl; apply objects_extend_alloc.
  - apply objects_extend_alloc.
  - by apply objects_extend_same.
  - destruct (SM.set_dataframe self df df_type w) as [w'|] eqn:H; simpl.
    + by apply set_dataframe_frame in H as [? _].
    + apply objects_extend_refl.
  - unfold SM.reset_session. simpl. rewrite lookup_insert_eq. simpl.
    apply objects_extend_alloc.
Qed.

(** Except for a reset, a call leaves a registered id bound to the same
    state object, or (deletion) removes the id. *)
Lemma run_sessions (o : SM.op) (w : World) (id : string) (l : loc) :
  SM.is_reset o = false -> SM.uuid_unused o w ->
  _sessions w !! id = Some l ->
  _sessions (SM.run o w) !! id = Some l \/ _sessions (SM.run o w) !! id = None.
Proof.
  intros Hr Hu H.
  destruct o as [sid|uuid|sid|sid|self df df_type|self df_type|self now a d|self now q r e|self now c t ti|self now i c|self k v|self k|self a b|self info|self|self|self];
    simpl in *; try (by left); try done.
  - unfold SM.__init__, SM.has_session.
    destruct (_sessions w !! sid) as [l'|] eqn:E; simpl.
    + rewrite E. by left.
    + rewrite lookup_insert_eq. simpl. left.
      rewrite lookup_insert_ne; [done | congruence].
  - left. rewrite lookup_insert_ne; [done | congruence].
  - destruct (decide (sid = id)) as [->|Hne].
    + right. apply lookup_delete_eq.
    + left. by rewrite lookup_delete_ne.
  - destruct (SM.set_dataframe self df df_type w) as [w'|] eqn:E; simpl.
    + apply set_dataframe_frame in E as [_ ->]. by left.
    + by left.
Qed.

Lemma session_state_some (id : string) (w : World) (st : SessionState) :
  SM.session_state id w = Some st
  <-> exists l, _sessions w !! id = Some l /\ objects w !! l = Some st.
Proof.
  unfold SM.session_state. destruct (_sessions w !! id) as [l|]; simpl.
  - split; [intros H; by exists l | by intros (l' & [= <-] & H)].
  - split; [done | by intros (l' & ? & _)].
Qed.

(** C8: a call of the session manager other than [reset_session] keeps the
    four histories of a session as a prefix of their new value, seen from
    the registry (for an id still registered after the call) and seen
    through any handle; and an [add_*] call puts exactly one record at the
    end of its list and changes nothing else of the state object. *)
Theorem histories_append_only (o : SM.op) (w : World) :
  SM.is_reset o = false -> SM.uuid_unused o w ->
  (forall id st st',
      SM.session_state id w = Some st ->
      SM.session_state id (SM.run o w) = Some st' ->
      lists_extend st st')
  /\ (forall self st,
        SM.read_state self w = Some st ->
        exists st', SM.read_state self (SM.run o w) = Some st'
                    /\ lists_extend st st')
  /\ (forall self st st1,
        op_handle o = Some self ->
        SM.read_state self w = Some st ->
        appended o st = Some st1 ->
        SM.read_state self (SM.run o w) = Some st1).
Proof.
  intros Hr Hu. split; [| split].
  - intros id st st' (l & E & Hst)%session_state_some
           (l' & E' & Hst')%session_state_some.
    destruct (run_sessions o w id l Hr Hu E) as [E2 | E2]; [| congruence].
    assert (l' = l) as -> by congruence.
    destruct (run_objects_extend o w l st Hst) as (st2 & H2 & Hext).
    assert (st2 = st') as <- by congruence. exact Hext.
  - intros self st H. by apply run_objects_extend.
  - intros self st st1 Hh Hst Ha. unfold SM.read_state in *.
    destruct o; simpl in *; try done;
      injection Hh as <-; injection Ha as <-;
      by rewrite list_lookup_alter_eq, Hst.
Qed.

Lemma histories_append_only_witness :
  SM.is_reset
    (SM.OpAddCleaningLog Scenario.h2 "2024-01-01 10:00:00"
       "remove_duplicates" "3 rows removed") = false
  /\ SM.uuid_unused
       (SM.OpAddCleaningLog Scenario.h2 "2024-01-01 10:00:00"
          "remove_duplicates" "3 rows removed") Scenario.w_created
  /\ (forall self st,
        SM.read_state self Scenario.w_created = Some st ->
        exists st', SM.read_state self Scenario.w_logged = Some st'
                    /\ lists_extend st st').
Proof.
  split; [reflexivity | split; [exact I |]].
  apply (histories_append_only
           (SM.OpAddCleaningLog Scenario.h2 "2024-01-01 10:00:00"
              "remove_duplicates" "3 rows removed") Scenario.w_created);
    [reflexivity | exact I].
Defined.

(** *** Reset *)

Lemma reset_session_eq (self : SessionManager) (w : World) :
  SM.reset_session self w
  = (Return {| session_id := session_id self; state := length (objects w) |},
     SM.bind_session (session_id self) (length (objects w))
       (snd (SM.alloc_state SessionState_new w))).
Proof.
  unfold SM.reset_session. simpl. by rewrite lookup_insert_eq.
Qed.

(** C2, as stated, fails: [h2] is a handle of session ["s1"] obtained before
    the session is reset through [h1]; one cleaning record was logged. After
    the reset the registry holds the reset state for ["s1"], and reading
    through [h2] still gives the logged record. *)
Lemma reset_stale_handle_counterexample :
  SM.__init__ "s1" Scenario.w_created = (Return Scenario.h2, Scenario.w_created)
  /\ SM.reset_session Scenario.h1 Scenario.w_logged
     = (Return {| session_id := "s1"; state := 1 |}, Scenario.w_after_reset)
  /\ SM.session_state "s1" Scenario.w_after_reset = Some SessionState_new
  /\ (cleaning_log <$> SM.read_state Scenario.h2 Scenario.w_after_reset)
     = Some [Scenario.a_log_entry]
  /\ (cleaning_log <$> SM.read_state Scenario.h2 Scenario.w_after_reset)
     <> Some [].
Proof. repeat split; try reflexivity. discriminate. Qed.

(** C2, amended: [reset_session] binds a new [SessionState()] to the id and
    rebinds the handle it is called on. Through that handle, and through any
    handle constructed for the id afterwards, the reset state is read: the
    four histories empty and [current_dataframe] null. Any other handle
    obtained before the reset keeps referring to the state object it had,
    and reads what it read before. *)
Theorem reset_session_handles (self : SessionManager) (w : World) :
  exists self' w',
    SM.reset_session self w = (Return self', w')
    /\ session_id self' = session_id self
    /\ SM.read_state self' w' = Some SessionState_new
    /\ SM.session_state (session_id self) w' = Some SessionState_new
    /\ SM.__init__ (session_id self) w' = (Return self', w')
    /\ is_reset_state SessionState_new
    /\ (forall other st,
          SM.read_state other w = Some st ->
          SM.read_state other w' = Some st).
Proof.
  eexists _, _. split; [apply reset_session_eq |].
  split; [done |]. split.
  { unfold SM.read_state. simpl. by rewrite lookup_app_r, Nat.sub_diag. }
  split; [apply session_state_bind_alloc |]. split.
  { apply init_present. simpl. apply lookup_insert_eq. }
  split; [by repeat split |].
  intros other st H. unfold SM.read_state in *. simpl.
  by apply lookup_app_l_Some.
Qed.

(** *** Dataframe slots *)

Lemma read_state_update (self : SessionManager)
  (f : SessionState -> SessionState) (w : World) :
  SM.read_state self (SM.update_state (state self) f w)
  = f <$> SM.read_state self w.
Proof. unfold SM.read_state. simpl. apply list_lookup_alter_eq. Qed.

(** A slot that holds another object than [df] reads the same after any
    in-place change of [df]. *)
Lemma slot_unaffected (self : SessionManager) (ty : string) (w : World)
  (c df : loc) (d : DataFrame) (f : DataFrame -> DataFrame) :
  SM.get_dataframe self ty w = Some (Some c) ->
  c <> df ->
  frames w !! c = Some d ->
  SM.read_dataframe self ty (SM.mutate_frame df f w) = Some d.
Proof.
  intros Hg Hne Hc. unfold SM.read_dataframe.
  assert (Hg' : SM.get_dataframe self ty (SM.mutate_frame df f w)
                = Some (Some c)) by exact Hg.
  rewrite Hg'. simpl. rewrite list_lookup_alter_ne; [done | congruence].
Qed.

Lemma lookup_snoc_last (F : list DataFrame) (d : DataFrame) :
  (F ++ [d]) !! length F = Some d.
Proof. by rewrite lookup_app_r, Nat.sub_diag. Qed.

(** A frame of scalars reads the same whatever the objects are. *)
Lemma read_frame_scalar (held held' : list pyval) (d : DataFrame) :
  scalar_frame d = true -> read_frame held' d = read_frame held d.
Proof.
  unfold scalar_frame, read_frame. intros H. f_equal.
  induction (df_rows d) as [|row rows IH]; [done |].
  simpl in H. apply andb_true_iff in H as [Hrow Hrows].
  simpl. rewrite (IH Hrows). f_equal.
  clear -Hrow. induction row as [|c row IH]; [done |].
  simpl in Hrow. apply andb_true_iff in Hrow as [Hc Hrow].
  simpl. rewrite (IH Hrow). f_equal. by destruct c.
Qed.

(** C9, as stated, fails for a dataframe with an object column. The copies
    [set_dataframe] stores are made by [df.copy()], which copies the cells
    and not the Python objects the cells refer to: the caller's dataframe
    and the stored copy hold the same list, and after the caller appends to
    that list, in place, [get_dataframe("raw")] returns a dataframe whose
    cell reads [["new", "late"]] where it read [["new"]]. *)
Lemma set_dataframe_shares_objects_counterexample :
  SM.set_dataframe h1 0 "raw" w_with_tagged = Some w_tagged_stored
  /\ frames w_tagged_stored !! 0 = Some tagged_df
  /\ SM.get_dataframe h1 "raw" w_tagged_stored = Some (Some 1)
  /\ SM.read_content held_tags h1 "raw" w_tagged_stored
     = Some (["id"; "tags"],
             [[ValueInt 1; ValueObject (Some (PyList [PyStr "new"]))]])
  /\ alter (list_append (PyStr "late")) 0 held_tags
     = [PyList [PyStr "new"; PyStr "late"]]
  /\ SM.read_content (alter (list_append (PyStr "late")) 0 held_tags)
       h1 "raw" w_tagged_stored
     = Some (["id"; "tags"],
             [[ValueInt 1;
               ValueObject (Some (PyList [PyStr "new"; PyStr "late"]))]])
  /\ SM.read_content (alter (list_append (PyStr "late")) 0 held_tags)
       h1 "current" w_tagged_stored
     = Some (["id"; "tags"],
             [[ValueInt 1;
               ValueObject (Some (PyList [PyStr "new"; PyStr "late"]))]])
  /\ SM.read_content (alter (list_append (PyStr "late")) 0 held_tags)
       h1 "raw" w_tagged_stored
     <> SM.read_content held_tags h1 "raw" w_tagged_stored.
Proof. repeat split; try reflexivity. discriminate. Qed.

(** C9, amended: [set_dataframe] succeeds on a dataframe [df] and stores
    copies made by [df.copy()]: the slot [current_dataframe], and the slot
    named by [df_type] (["raw"], ["cleaned"]), hold new dataframe objects,
    other than [df], with the labels and cells [df] had. Whatever is done
    in place to the dataframe [df] afterwards (labels, rows, cells
    replaced), [get_dataframe] for these slots still returns a dataframe
    with those labels and cells. Python objects that cells refer to are
    not copied: what is read in such a cell is the object as it is at the
    time of reading. Where all cells are scalars, the values read from
    the stored dataframes are those [df] had, whatever happens afterwards
    to [df] and to any object. *)
Theorem set_dataframe_copies (self : SessionManager) (df : loc)
  (df_type : string) (w : World) (st : SessionState) (d : DataFrame) :
  SM.read_state self w = Some st ->
  frames w !! df = Some d ->
  exists w',
    SM.set_dataframe self df df_type w = Some w'
    /\ frames w' !! df = Some d
    /\ forall ty, ty = "current" \/ ty = df_type ->
         (exists c, SM.get_dataframe self ty w' = Some (Some c)
                    /\ c <> df /\ frames w' !! c = Some d)
         /\ (forall f,
               SM.read_dataframe self ty (SM.mutate_frame df f w') = Some d)
         /\ (forall held f,
               SM.read_content held self ty (SM.mutate_frame df f w')
               = Some (read_frame held d))
         /\ (forall held held' f,
               scalar_frame d = true ->
               SM.read_content held' self ty (SM.mutate_frame df f w')
               = SM.read_content held self ty w'
               /\ SM.read_content held self ty w'
                  = Some (read_frame held d)).
Proof.
  intros Hst Hd. pose proof (lookup_lt_Some _ _ _ Hd) as Hlt.
  assert (Hslot : forall w' ty,
    (exists c, SM.get_dataframe self ty w' = Some (Some c)
               /\ c <> df /\ frames w' !! c = Some d) ->
    (exists c, SM.get_dataframe self ty w' = Some (Some c)
               /\ c <> df /\ frames w' !! c = Some d)
    /\ (forall f,
          SM.read_dataframe self ty (SM.mutate_frame df f w') = Some d)
    /\ (forall held f,
          SM.read_content held self ty (SM.mutate_frame df f w')
          = Some (read_frame held d))
    /\ (forall held held' f,
          scalar_frame d = true ->
          SM.read_content held' self ty (SM.mutate_frame df f w')
          = SM.read_content held self ty w'
          /\ SM.read_content held self ty w' = Some (read_frame held d))).
  { intros w' ty (c & Hg & Hne & Hc).
    assert (Hm : forall f,
              SM.read_dataframe self ty (SM.mutate_frame df f w') = Some d)
      by (intros f; by eapply slot_unaffected).
    assert (Hr : SM.read_dataframe self ty w' = Some d).
    { unfold SM.read_dataframe. rewrite Hg. simpl. exact Hc. }
    split; [by exists c |]. split; [exact Hm |]. split.
    - intros held f. unfold SM.read_content. by rewrite Hm.
    - intros held held' f Hs. unfold SM.read_content. rewrite Hm, Hr. simpl.
      by rewrite (read_frame_scalar held held' d Hs). }
  unfold SM.read_state in Hst. unfold SM.set_dataframe.
  destruct (String.eqb_spec df_type "raw") as [->|Hraw];
    [| destruct (String.eqb_spec df_type "cleaned") as [->|Hcl]].
  - rewrite (df_copy_some _ _ _ Hd). simpl.
    erewrite df_copy_some by (simpl; by apply lookup_app_l_Some). simpl.
    eexists. split; [reflexivity |]. split.
    { simpl. by do 2 apply lookup_app_l_Some. }
    intros ty [-> | ->]; apply Hslot;
      unfold SM.get_dataframe, SM.read_state; simpl;
      rewrite !list_lookup_alter_eq, Hst; simpl.
    + exists (length (frames w ++ [d])). split; [done |].
      split; [rewrite length_app; simpl; lia | apply lookup_snoc_last].
    + exists (length (frames w)). split; [done |].
      split; [lia |]. apply lookup_app_l_Some, lookup_snoc_last.
  - rewrite (df_copy_some _ _ _ Hd). simpl.
    erewrite df_copy_some by (simpl; by apply lookup_app_l_Some). simpl.
    eexists. split; [reflexivity |]. split.
    { simpl. by do 2 apply lookup_app_l_Some. }
    intros ty [-> | ->]; apply Hslot;
      unfold SM.get_dataframe, SM.read_state; simpl;
      rewrite !list_lookup_alter_eq, Hst; simpl.
    + exists (length (frames w ++ [d])). split; [done |].
      split; [rewrite length_app; simpl; lia | apply lookup_snoc_last].
    + exists (length (frames w)). split; [done |].
      split; [lia |]. apply lookup_app_l_Some, lookup_snoc_last.
  - simpl. rewrite (df_copy_some _ _ _ Hd). simpl.
    eexists. split; [reflexivity |]. split.
    { simpl. by apply lookup_app_l_Some. }
    assert (Hcur : forall ty, ty = "current" \/ ty = df_type ->
              SM.dataframe_slot ty = current_dataframe).
    { intros ty [-> | ->]; [reflexivity |]. unfold SM.dataframe_slot.
      destruct (String.eqb_spec df_type "raw"); [done |].
      by destruct (String.eqb_spec df_type "cleaned"). }
    intros ty Hty. apply Hslot.
    unfold SM.get_dataframe, SM.read_state. rewrite (Hcur ty Hty). simpl.
    rewrite list_lookup_alter_eq, Hst. simpl.
    exists (length (frames w)). split; [done |].
    split; [lia | apply lookup_snoc_last].
Qed.

Lemma set_dataframe_copies_witness :
  SM.read_state Scenario.h1 Scenario.w_with_frame = Some SessionState_new
  /\ frames Scenario.w_with_frame !! 0 = Some Scenario.tiny_df
  /\ (forall f,
        SM.read_dataframe Scenario.h1 "raw"
          (SM.mutate_frame 0 f
             (default World_empty
                (SM.set_dataframe Scenario.h1 0 "raw" Scenario.w_with_frame)))
        = Some Scenario.tiny_df)
  /\ (forall held f,
        SM.read_content held Scenario.h1 "raw"
          (SM.mutate_frame 0 f
             (default World_empty
                (SM.set_dataframe Scenario.h1 0 "raw" Scenario.w_with_frame)))
        = Some (["region"; "sales"],
                [[ValueStr "north"; ValueInt 10];
                 [ValueStr "south"; ValueInt 7]])).
Proof.
  split; [reflexivity | split; [reflexivity |]].
  destruct (set_dataframe_copies Scenario.h1 0 "raw" Scenario.w_with_frame
              SessionState_new Scenario.tiny_df) as (w' & -> & _ & H);
    [reflexivity | reflexivity |].
  destruct (H "raw" (or_intror eq_refl)) as (_ & Hf & Hc & _).
  split; [exact Hf | exact Hc].
Defined.

Example scenario_handles :
  SM.__init__ "s1" w_created = (Return h1, w_created)
  /\ SM.__init__ "s1" w_created = (Return h2, w_created).
Proof. split; reflexivity. Qed.

End SessionFacts.

(** ** History normalizer *)

Module NormalizerFacts.
Import App.

(** C6, as stated, fails on "numeric scalar": the third test is
    [isinstance(result, (int, float))], and a numpy integer, such as the
    [numpy.int64] that [df["sales"].sum()] gives, is a number but no instance
    of [int] or [float]; it is summarized as text, by its [str]. *)
Lemma summarize_numpy_int_counterexample :
  summarize (ResNumpyInt 17) = SummaryText "17"
  /\ summary_type (summarize (ResNumpyInt 17)) = "text"
  /\ summarize (ResNumpyInt 17) <> SummaryScalar (ResNumpyInt 17)
  /\ summarize (ResInt 17) = SummaryScalar (ResInt 17).
Proof. repeat split; try reflexivity. discriminate. Qed.

(** C6, amended: the normalizer gives one summary for every result, by the
    first test that holds, in the order dataframe, series, instance of
    [int] or [float], else text: a dataframe gives its row count and column
    names, a series its length and name, an [int], a [float] or a [bool]
    itself, anything else its [str]: a string itself, a numpy integer its
    decimal form. So the scalar [3.14] gives [scalar 3.14], the string
    ["ok"] gives [text "ok"], and [serialize_history] gives one item per
    history entry, in order, with the entry's timestamp, query and
    explanation. *)
Theorem summarize_classifies :
  (forall df, summarize (ResDataFrame df)
              = SummaryDataframe (length (df_rows df)) (df_columns df))
  /\ (forall s, summarize (ResSeries s)
                = SummarySeries (length (series_values s)) (series_name s))
  /\ (forall r, is_DataFrame r = false -> is_Series r = false ->
                is_int_or_float r = true -> summarize r = SummaryScalar r)
  /\ (forall r, is_DataFrame r = false -> is_Series r = false ->
                is_int_or_float r = false ->
                summarize r = SummaryText (py_str r))
  /\ (forall r, summary_type (summarize r)
                = if is_DataFrame r then "dataframe"
                  else if is_Series r then "series"
                  else if is_int_or_float r then "scalar" else "text")
  /\ summarize (ResDataFrame Scenario.tiny_df)
     = SummaryDataframe 2 ["region"; "sales"]
  /\ summarize (ResSeries Scenario.total_series)
     = SummarySeries 1 (Some "total")
  /\ summarize (ResFloat Scenario.float_3_14)
     = SummaryScalar (ResFloat Scenario.float_3_14)
  /\ summarize (ResStr "ok") = SummaryText "ok"
  /\ (forall st, length (serialize_history st) = length (query_history st))
  /\ (forall st i,
        serialize_history st !! i
        = (fun item =>
             {| hi_timestamp := qe_timestamp item;
                hi_query := qe_query item;
                hi_explanation := qe_explanation item;
                hi_result_summary := summarize (qe_result item) |})
          <$> query_history st !! i)
  /\ (forall z, summarize (ResInt z) = SummaryScalar (ResInt z))
  /\ (forall f, summarize (ResFloat f) = SummaryScalar (ResFloat f))
  /\ (forall b, summarize (ResBool b) = SummaryScalar (ResBool b))
  /\ (forall s, summarize (ResStr s) = SummaryText s)
  /\ (forall z, summarize (ResNumpyInt z) = SummaryText (pretty z))
  /\ (forall str_form, summarize (ResObject str_form) = SummaryText str_form)
  /\ (forall r, summary_type (summarize r) = "scalar"
                <-> (exists z, r = ResInt z) \/ (exists f, r = ResFloat f)
                    \/ (exists b, r = ResBool b))
  /\ (forall r, summary_type (summarize r) = "dataframe"
                <-> exists df, r = ResDataFrame df)
  /\ (forall r, summary_type (summarize r) = "series"
                <-> exists s, r = ResSeries s).
Proof.
  repeat match goal with |- _ /\ _ => split end; try reflexivity.
  - by intros [].
  - by intros [].
  - by intros [].
  - intros st. unfold serialize_history. apply length_fmap.
  - intros st i. unfold serialize_history. apply list_lookup_fmap.
  - intros r. split.
    + destruct r; simpl; try discriminate; eauto.
    + by intros [[? ->] | [[? ->] | [? ->]]].
  - intros r. split.
    + destruct r; simpl; try discriminate; eauto.
    + by intros [? ->].
  - intros r. split.
    + destruct r; simpl; try discriminate; eauto.
    + by intros [? ->].
Qed.

(** C10: a history entry whose result is a Python boolean is summarized as
    a scalar holding that boolean, not as text. *)
Theorem serialize_history_bool (st : SessionState) (i : nat)
  (item : QueryEntry) (b : bool) :
  query_history st !! i = Some item ->
  qe_result item = ResBool b ->
  exists h,
    serialize_history st !! i = Some h
    /\ hi_result_summary h = SummaryScalar (ResBool b)
    /\ summary_type (hi_result_summary h) = "scalar".
Proof.
  intros Hi Hb. exists (history_item item). split.
  - unfold serialize_history. by rewrite list_lookup_fmap, Hi.
  - unfold history_item. simpl. by rewrite Hb.
Qed.

Lemma serialize_history_bool_witness :
  query_history Scenario.st_bool_history !! 0 = Some Scenario.bool_entry
  /\ qe_result Scenario.bool_entry = ResBool true
  /\ exists h,
       serialize_history Scenario.st_bool_history !! 0 = Some h
       /\ hi_result_summary h = SummaryScalar (ResBool true)
       /\ summary_type (hi_result_summary h) = "scalar".
Proof.
  split; [reflexivity | split; [reflexivity |]].
  apply (serialize_history_bool Scenario.st_bool_history 0
           Scenario.bool_entry true); reflexivity.
Defined.

End NormalizerFacts.

(** ** Chart payloads *)

Module ChartFacts.
Import App.

Section encoder.

Variable json_dumps : pyval -> outcome string.
Variable object_truth : string -> outcome bool.
Variable placeholder : string.
Hypothesis placeholder_encodes : json_dumps empty_figure = Return placeholder.

Lemma encode_figure_ok (chart : gmap string pyval) :
  encodes_or_type_error json_dumps object_truth chart ->
  exists figure figure_json,
    figure_of object_truth chart = Return figure
    /\ encode_figure json_dumps figure = Return figure_json
    /\ entry_for json_dumps object_truth placeholder chart
       = <["figure_json" := PyStr figure_json]> chart.
Proof.
  unfold encodes_or_type_error, encode_figure, entry_for.
  destruct (figure_of object_truth chart) as [figure|e]; [| done].
  destruct (json_dumps figure) as [j | []] eqn:Hj; try done; intros _.
  - exists figure, j. by rewrite Hj.
  - exists figure, placeholder. by rewrite Hj.
Qed.

Lemma encode_figure_raises (figure : pyval) (e : exn) :
  json_dumps figure = Raise e -> e <> TypeError ->
  encode_figure json_dumps figure = Raise e.
Proof.
  unfold encode_figure. intros -> He. by destruct e.
Qed.

(** What stops the loop at a chart: the truth test of its figure raises,
    or the encoder raises something else than [TypeError]. *)
Lemma chart_raises (chart : gmap string pyval)
  (rest serialized : list (gmap string pyval)) (e : exn) :
  figure_of object_truth chart = Raise e
  \/ (exists figure,
        figure_of object_truth chart = Return figure
        /\ json_dumps figure = Raise e /\ e <> TypeError) ->
  serialize_loop json_dumps object_truth (chart :: rest) serialized = Raise e.
Proof.
  unfold figure_of. simpl. intros [-> | (figure & -> & Hr & He)]; [done |].
  by rewrite (encode_figure_raises _ _ Hr He).
Qed.

Lemma serialize_loop_ok (charts serialized : list (gmap string pyval)) :
  Forall (encodes_or_type_error json_dumps object_truth) charts ->
  serialize_loop json_dumps object_truth charts serialized
  = Return (serialized
            ++ (entry_for json_dumps object_truth placeholder <$> charts)).
Proof.
  revert serialized. induction charts as [|chart rest IH]; intros serialized H.
  - simpl. by rewrite app_nil_r.
  - apply Forall_cons in H as [Hc Hrest].
    destruct (encode_figure_ok chart Hc) as (figure & j & Hf & Hj & Hentry).
    unfold figure_of in Hf. simpl. rewrite Hf, Hj, (IH _ Hrest), Hentry.
    by rewrite <- app_assoc.
Qed.

Lemma serialize_loop_raises
  (before : list (gmap string pyval)) (chart : gmap string pyval)
  (after serialized : list (gmap string pyval)) (e : exn) :
  Forall (encodes_or_type_error json_dumps object_truth) before ->
  figure_of object_truth chart = Raise e
  \/ (exists figure,
        figure_of object_truth chart = Return figure
        /\ json_dumps figure = Raise e /\ e <> TypeError) ->
  serialize_loop json_dumps object_truth (before ++ chart :: after) serialized
  = Raise e.
Proof.
  revert serialized. induction before as [|b before IH];
    intros serialized H Hr.
  - by apply chart_raises.
  - apply Forall_cons in H as [Hb Hrest].
    destruct (encode_figure_ok b Hb) as (figure & j & Hf & Hj & _).
    unfold figure_of in Hf. simpl. rewrite Hf, Hj. by apply IH.
Qed.

End encoder.

(** C5, as stated, fails, in two ways. With an encoder that raises
    [ValueError] on a figure (a dict that contains itself), the call raises
    [ValueError] for the whole list; no placeholder is substituted and the
    chart before it is lost with the rest. And a figure that is a pandas
    DataFrame fails before the encoder is reached: its truth test, in
    [chart.get("figure") or {}], raises [ValueError] outside the [try]. *)
Lemma serialize_value_error_counterexample :
  Scenario.demo_dumps (PyObject "dict that contains itself") = Raise ValueError
  /\ serialize_chart_payloads Scenario.demo_dumps Scenario.demo_truth
       (Some [Scenario.chart_ok; Scenario.chart_circular])
     = Raise ValueError
  /\ Scenario.demo_truth "a DataFrame" = Raise ValueError
  /\ serialize_chart_payloads Scenario.demo_dumps Scenario.demo_truth
       (Some [Scenario.chart_ok; Scenario.chart_frame_figure])
     = Raise ValueError.
Proof. repeat split; reflexivity. Qed.

(** C5, amended: [serialize_chart_payloads] returns one entry per chart, in
    order, each the chart itself with one more key, ["figure_json"], and the
    other keys as they were; where encoding the figure raises [TypeError]
    the entry holds the text of the empty figure. The figure encoded is
    [chart.get("figure") or {}]. Nothing else is caught: an exception of
    another kind from the encoder, and any exception of the truth test of
    the figure, which stands before the [try], is raised by the call. *)
Theorem serialize_chart_payloads_type_error
  (json_dumps : pyval -> outcome string)
  (object_truth : string -> outcome bool) (placeholder : string)
  (charts : list (gmap string pyval)) :
  json_dumps App.empty_figure = Return placeholder ->
  (Forall (encodes_or_type_error json_dumps object_truth) charts ->
   serialize_chart_payloads json_dumps object_truth (Some charts)
   = Return (entry_for json_dumps object_truth placeholder <$> charts))
  /\ (forall chart figure,
        figure_of object_truth chart = Return figure ->
        (json_dumps figure = Raise TypeError ->
         entry_for json_dumps object_truth placeholder chart
         = <["figure_json" := PyStr placeholder]> chart)
        /\ (forall figure_json,
              json_dumps figure = Return figure_json ->
              entry_for json_dumps object_truth placeholder chart
              = <["figure_json" := PyStr figure_json]> chart))
  /\ (forall chart key,
        key <> "figure_json" ->
        entry_for json_dumps object_truth placeholder chart !! key
        = chart !! key)
  /\ (forall before chart after e,
        charts = before ++ chart :: after ->
        Forall (encodes_or_type_error json_dumps object_truth) before ->
        figure_of object_truth chart = Raise e
        \/ (exists figure,
              figure_of object_truth chart = Return figure
              /\ json_dumps figure = Raise e /\ e <> TypeError) ->
        serialize_chart_payloads json_dumps object_truth (Some charts)
        = Raise e)
  /\ (forall chart descr,
        chart !! "figure" = Some (PyObject descr) ->
        figure_of object_truth chart
        = match object_truth descr with
          | Return true => Return (PyObject descr)
          | Return false => Return (PyDict ∅)
          | Raise e => Raise e
          end)
  /\ (forall chart,
        (forall descr, chart !! "figure" <> Some (PyObject descr)) ->
        figure_of object_truth chart
        = Return (if truthy (dict_get chart "figure")
                  then dict_get chart "figure" else PyDict ∅))
  /\ serialize_chart_payloads json_dumps object_truth None = Return [].
Proof.
  intros Hp. split; [| split; [| split; [| split; [| split; [| split]]]]].
  - intros H. unfold serialize_chart_payloads. simpl.
    by rewrite (serialize_loop_ok json_dumps object_truth placeholder Hp).
  - intros chart figure Hf. unfold entry_for. rewrite Hf. split.
    + by intros ->.
    + by intros j ->.
  - intros chart key Hk. unfold entry_for. by rewrite lookup_insert_ne.
  - intros before chart after e -> Hb Hr. unfold serialize_chart_payloads.
    simpl.
    by apply (serialize_loop_raises json_dumps object_truth placeholder Hp).
  - intros chart descr H. unfold figure_of, py_or_tested, dict_get.
    rewrite H. simpl. by destruct (object_truth descr) as [[]|].
  - intros chart H. unfold figure_of, py_or_tested, dict_get.
    destruct (chart !! "figure") as [v|] eqn:E; simpl; [| done].
    destruct v; try done. by destruct (H descr).
  - reflexivity.
Qed.

Lemma serialize_chart_payloads_type_error_witness :
  Scenario.demo_dumps App.empty_figure = Return "{...}"
  /\ serialize_chart_payloads Scenario.demo_dumps Scenario.demo_truth
       (Some [Scenario.chart_ok; Scenario.chart_unencodable])
     = Return [ <["figure_json" := PyStr "{...}"]> Scenario.chart_ok;
                <["figure_json" := PyStr "{...}"]> Scenario.chart_unencodable ].
Proof.
  split; [reflexivity |].
  destruct (serialize_chart_payloads_type_error Scenario.demo_dumps
              Scenario.demo_truth "{...}"
              [Scenario.chart_ok; Scenario.chart_unencodable])
    as (H & _); [reflexivity |].
  rewrite H; [reflexivity |].
  apply Forall_cons; split; [exact I |].
  apply Forall_cons; split; [exact I | by apply Forall_nil].
Defined.

End ChartFacts.

(** ** Upload routes *)

Module UploadFacts.
Import App.

Section agent.

Variable agent :
  SessionManager -> list Byte.byte -> string -> nat -> World ->
  AgentResult * World.

(** The web route, on a successful upload, overwrites the preview and
    empties the four caches of the state object of its handle. *)
Lemma upload_step_clears_caches (cookie cookie' : option string)
  (uuid filename : string) (file_bytes : list Byte.byte)
  (w w1 w2 : World) (session : SessionManager) (result : AgentResult)
  (st2 : SessionState) :
  ensure_web_session cookie uuid w = (Return session, cookie', w1) ->
  filename <> "" ->
  agent session file_bytes filename (length file_bytes) w1 = (result, w2) ->
  success result = true ->
  SM.read_state session w2 = Some st2 ->
  exists response w3,
    upload_step agent cookie uuid (Some (filename, file_bytes)) w
    = (Return response, cookie', w3)
    /\ SM.read_state session w3
       = Some (set_caches (default ∅ (preview result)) ∅ ∅ [] ∅ st2)
    /\ (forall st3, SM.read_state session w3 = Some st3 ->
          cleaning_summary st3 = ∅ /\ last_query_result st3 = ∅
          /\ chart_payloads st3 = [] /\ report_status st3 = ∅).
Proof.
  intros He Hf Ha Hs Hst. unfold upload_step. rewrite He. simpl.
  destruct (String.eqb_spec filename "") as [|_]; [done |].
  rewrite Ha, Hs. simpl. eexists _, _. split; [reflexivity |].
  assert (Hr : SM.read_state session
                 (SM.update_state (state session)
                    (set_caches (default ∅ (preview result)) ∅ ∅ [] ∅) w2)
               = Some (set_caches (default ∅ (preview result)) ∅ ∅ [] ∅ st2)).
  { unfold SM.read_state in *. simpl. by rewrite list_lookup_alter_eq, Hst. }
  split; [exact Hr |].
  intros st3. rewrite Hr. by intros [= <-].
Qed.

(** The API route writes nothing itself: after a successful upload the
    store is the one the agent left. *)
Lemma upload_file_leaves_agent_world (header : option string)
  (filename : string) (file_bytes : list Byte.byte)
  (w w1 w2 : World) (session : SessionManager) (result : AgentResult) :
  get_session_or_abort header w = (Return session, w1) ->
  filename <> "" ->
  agent session file_bytes filename (length file_bytes) w1 = (result, w2) ->
  success result = true ->
  upload_file agent header (Some (filename, file_bytes)) w
  = (Return result, w2).
Proof.
  intros He Hf Ha Hs. unfold upload_file. rewrite He. simpl.
  destruct (String.eqb_spec filename "") as [|_]; [done |].
  by rewrite Ha, Hs.
Qed.

End agent.

(** C3, on the API route: session ["s1"] holds a cleaning summary, a query
    result, a chart payload and a report status from earlier steps. A
    successful [POST /api/upload] for it stores the new dataset and leaves
    all four caches as they were, where the web route [POST /upload], on the
    same input, empties them. *)
Theorem api_upload_keeps_stale_caches :
  (exists result w' st',
      upload_file Scenario.demo_agent (Some "s1") (Some Scenario.a_file)
        Scenario.w_cached = (Return result, w')
      /\ success result = true
      /\ SM.session_state "s1" w' = Some st'
      /\ (current_dataframe st' ≫= (fun l => frames w' !! l))
         = Some Scenario.tiny_df
      /\ cleaning_summary st' = Scenario.stale_summary
      /\ last_query_result st' = Scenario.stale_result
      /\ chart_payloads st' = [Scenario.chart_ok]
      /\ report_status st' = Scenario.stale_report)
  /\ (exists response cookie' w' st',
        upload_step Scenario.demo_agent (Some "s1") "0123456789abcdef"
          (Some Scenario.a_file) Scenario.w_cached
        = (Return response, cookie', w')
        /\ flashed response = [("File uploaded", "success")]
        /\ SM.session_state "s1" w' = Some st'
        /\ cleaning_summary st' = ∅
        /\ last_query_result st' = ∅
        /\ chart_payloads st' = []
        /\ report_status st' = ∅).
Proof.
  split.
  - eexists _, _, _. split; [reflexivity |]. repeat split; reflexivity.
  - eexists _, _, _, _. split; [reflexivity |]. repeat split; reflexivity.
Qed.

End UploadFacts.

(** ** Session store, further properties *)

Module StoreFacts.
Import SessionFacts.

(** What [set_dataframe] does to the store, when it succeeds. *)
Lemma set_dataframe_shape (self : SessionManager) (df : loc)
  (df_type : string) (w w' : World) :
  SM.set_dataframe self df df_type w = Some w' ->
  exists d f copies,
    frames w !! df = Some d
    /\ _sessions w' = _sessions w
    /\ objects w' = alter f (state self) (objects w)
    /\ frames w' = frames w ++ copies
    /\ (forall st, same_but_slots st (f st)
                   /\ (df_type <> "raw" -> raw_dataframe (f st) = raw_dataframe st)
                   /\ (df_type <> "cleaned" ->
                       cleaned_dataframe (f st) = cleaned_dataframe st)).
Proof.
  destruct (frames w !! df) as [d|] eqn:Hd.
  2:{ unfold SM.set_dataframe, SM.df_copy. rewrite Hd.
      destruct (String.eqb df_type "raw"); [done |].
      destruct (String.eqb df_type "cleaned"); [done |]. simpl.
      by rewrite Hd. }
  unfold SM.set_dataframe.
  destruct (String.eqb_spec df_type "raw") as [->|Hraw];
    [| destruct (String.eqb_spec df_type "cleaned") as [->|Hcl]].
  - rewrite (df_copy_some _ _ _ Hd). simpl.
    erewrite df_copy_some by (simpl; by apply lookup_app_l_Some). simpl.
    intros [= <-]. eexists d, _, [d; d]. simpl.
    rewrite list_alter_alter_eq, <- app_assoc.
    repeat split; try done.
  - rewrite (df_copy_some _ _ _ Hd). simpl.
    erewrite df_copy_some by (simpl; by apply lookup_app_l_Some). simpl.
    intros [= <-]. eexists d, _, [d; d]. simpl.
    rewrite list_alter_alter_eq, <- app_assoc.
    repeat split; try done.
  - simpl. rewrite (df_copy_some _ _ _ Hd). simpl.
    intros [= <-]. eexists d, _, [d]. simpl.
    repeat split; try done.
Qed.

(** X1: a call made through a handle changes no state object but the one
    of that handle, and a call of the class ([SessionManager(..)],
    [create_session], [delete_session], [has_session]) changes none. *)
Theorem calls_touch_only_own_state (o : SM.op) (w : World) (l : loc)
  (st : SessionState) :
  objects w !! l = Some st ->
  (forall self, op_handle o = Some self -> state self <> l) ->
  objects (SM.run o w) !! l = Some st.
Proof.
  intros Hl Hne.
  destruct o as [sid|uuid|sid|sid|self df df_type|self df_type|self now a d
                |self now q r e|self now c t ti|self now i c|self k v|self k
                |self a b|self info|self|self|self];
    simpl in *; try done;
    try (rewrite list_lookup_alter_ne; [done | by apply Hne]).
  - unfold SM.__init__. destruct (SM.has_session sid w); simpl.
    + by destruct (_sessions w !! sid).
    + destruct (_ !! sid); simpl; by apply lookup_app_l_Some.
  - by apply lookup_app_l_Some.
  - destruct (SM.set_dataframe self df df_type w) as [w'|] eqn:H; simpl;
      [| done].
    apply set_dataframe_shape in H as (d & f & k & _ & _ & -> & _ & _).
    rewrite list_lookup_alter_ne; [done | by apply Hne].
  - rewrite reset_session_eq. simpl. by apply lookup_app_l_Some.
Qed.

Lemma calls_touch_only_own_state_witness :
  objects Scenario.w_created !! 0 = Some SessionState_new
  /\ objects (SM.run (SM.OpAddInsight {| session_id := "s2"; state := 1 |}
                       "2024-01-01 10:00:00" "sales peak in May" "general")
               Scenario.w_created) !! 0
     = Some SessionState_new.
Proof.
  split; [reflexivity |].
  apply (calls_touch_only_own_state
           (SM.OpAddInsight {| session_id := "s2"; state := 1 |}
              "2024-01-01 10:00:00" "sales peak in May" "general")
           Scenario.w_created 0 SessionState_new); [reflexivity |].
  intros self [= <-]. simpl. lia.
Defined.

(** X2: no call of the session manager changes a dataframe object that
    exists: [set_dataframe] only adds copies. *)
Theorem calls_never_change_dataframes (o : SM.op) (w : World) (l : loc)
  (d : DataFrame) :
  frames w !! l = Some d ->
  frames (SM.run o w) !! l = Some d.
Proof.
  intros Hl.
  destruct o as [sid|uuid|sid|sid|self df df_type|self df_type|self now a d'
                |self now q r e|self now c t ti|self now i c|self k v|self k
                |self a b|self info|self|self|self];
    simpl in *; try done.
  - unfold SM.__init__. destruct (SM.has_session sid w); simpl.
    + by destruct (_sessions w !! sid).
    + by destruct (_ !! sid).
  - destruct (SM.set_dataframe self df df_type w) as [w'|] eqn:H; simpl;
      [| done].
    apply set_dataframe_shape in H as (d0 & f & k & _ & _ & _ & -> & _).
    by apply lookup_app_l_Some.
  - by rewrite reset_session_eq.
Qed.

Lemma calls_never_change_dataframes_witness :
  frames Scenario.w_with_frame !! 0 = Some Scenario.tiny_df
  /\ frames (SM.run (SM.OpSetDataframe Scenario.h1 0 "cleaned")
              Scenario.w_with_frame) !! 0
     = Some Scenario.tiny_df.
Proof.
  split; [reflexivity |].
  apply (calls_never_change_dataframes
           (SM.OpSetDataframe Scenario.h1 0 "cleaned")
           Scenario.w_with_frame 0 Scenario.tiny_df).
  reflexivity.
Defined.

(** X3: [create_session] returns the id it drew and registers a new state
    object under it: the id is known, its state is [SessionState()] with no
    dataset and every flag false, a handle constructed for it is bound to
    that state without another registration, and every other id and every
    state object is as before. *)
Theorem create_session_registers_fresh (uuid : string) (w : World) :
  fst (SM.create_session uuid w) = uuid
  /\ SM.has_session uuid (snd (SM.create_session uuid w)) = true
  /\ SM.session_state uuid (snd (SM.create_session uuid w))
     = Some SessionState_new
  /\ current_dataframe SessionState_new = None
  /\ (forall flag status,
        agent_status SessionState_new !! flag = Some status -> status = false)
  /\ SM.__init__ uuid (snd (SM.create_session uuid w))
     = (Return {| session_id := uuid; state := length (objects w) |},
        snd (SM.create_session uuid w))
  /\ (forall other, other <> uuid ->
        _sessions (snd (SM.create_session uuid w)) !! other
        = _sessions w !! other)
  /\ (forall l st, objects w !! l = Some st ->
        objects (snd (SM.create_session uuid w)) !! l = Some st).
Proof.
  simpl. repeat split.
  - apply has_session_true. simpl. rewrite lookup_insert_eq. by eexists.
  - apply session_state_bind_alloc.
  - intros flag status. unfold SessionState_new. simpl.
    rewrite !lookup_insert. repeat case_decide; naive_solver.
  - apply init_present. simpl. apply lookup_insert_eq.
  - intros other Hne. by rewrite lookup_insert_ne.
  - intros l st H. by apply lookup_app_l_Some.
Qed.

(** X4: [delete_session] makes the id unknown and touches no other id; on
    an id that is not registered it changes nothing; a handle obtained
    before still reads its state object; and constructing a
    [SessionManager] for the deleted id afterwards gives an empty session,
    not the deleted one. *)
Theorem delete_session_effects (id : string) (w : World) :
  SM.has_session id (SM.delete_session id w) = false
  /\ (forall other, other <> id ->
        _sessions (SM.delete_session id w) !! other = _sessions w !! other)
  /\ (_sessions w !! id = None -> SM.delete_session id w = w)
  /\ (forall self,
        SM.read_state self (SM.delete_session id w) = SM.read_state self w)
  /\ SM.session_state id (snd (SM.__init__ id (SM.delete_session id w)))
     = Some SessionState_new.
Proof.
  assert (Hgone : _sessions (SM.delete_session id w) !! id = None)
    by (simpl; apply lookup_delete_eq).
  split; [by apply has_session_false |].
  split; [intros other Hne; simpl; by rewrite lookup_delete_ne |].
  split.
  { intros H. destruct w as [F O S]. unfold SM.delete_session. simpl in *.
    by rewrite delete_id. }
  split; [done |].
  rewrite (init_absent _ _ Hgone).
  exact (session_state_bind_alloc id SessionState_new
           (SM.delete_session id w)).
Qed.

(** X5: what [set_metadata] stores under a key, [get_metadata] returns for
    that key, and the other keys read as before; a key never set reads as
    [None], without an error; [get_file_info] returns the dict
    [set_file_info] stored. *)
Theorem metadata_round_trip (self : SessionManager) (key : string)
  (value : pyval) (info : gmap string pyval) (w : World)
  (st : SessionState) :
  SM.read_state self w = Some st ->
  SM.get_metadata self key (SM.set_metadata self key value w) = Some value
  /\ (forall other, other <> key ->
        SM.get_metadata self other (SM.set_metadata self key value w)
        = SM.get_metadata self other w)
  /\ (dataset_metadata st !! key = None ->
        SM.get_metadata self key w = Some PyNone)
  /\ SM.get_file_info self (SM.set_file_info self info w) = Some info
  /\ SM.get_metadata self key (SM.set_file_info self info w)
     = SM.get_metadata self key w.
Proof.
  intros Hst. unfold SM.get_metadata, SM.get_file_info, SM.set_metadata,
    SM.set_file_info. rewrite !read_state_update, Hst. simpl.
  unfold dict_get. repeat split.
  - by rewrite lookup_insert_eq.
  - intros other Hne. by rewrite lookup_insert_ne.
  - by intros ->.
Qed.

Lemma metadata_round_trip_witness :
  SM.read_state Scenario.h1 Scenario.w_created = Some SessionState_new
  /\ SM.get_metadata Scenario.h1 "source"
       (SM.set_metadata Scenario.h1 "source" (PyStr "sales.csv")
          Scenario.w_created)
     = Some (PyStr "sales.csv")
  /\ SM.get_metadata Scenario.h1 "source" Scenario.w_created = Some PyNone.
Proof.
  split; [reflexivity |].
  destruct (metadata_round_trip Scenario.h1 "source" (PyStr "sales.csv") ∅
              Scenario.w_created SessionState_new) as (H1 & _ & H3 & _);
    [reflexivity |].
  split; [exact H1 | by apply H3].
Defined.

(** X6: each [add_*] call raises its own counter of [get_summary] by one
    and leaves the rest of the summary, the dataset entries included. *)
Theorem summary_counts_records (self : SessionManager) (w : World)
  (s : SM.Summary) (now a b : string) (r : result_value) (c : pyval) :
  SM.get_summary self w = Some s ->
  SM.get_summary self (SM.add_cleaning_log self now a b w)
  = Some (bump 1 0 0 0 s)
  /\ SM.get_summary self (SM.add_query self now a r b w)
     = Some (bump 0 1 0 0 s)
  /\ SM.get_summary self (SM.add_chart self now c a b w)
     = Some (bump 0 0 1 0 s)
  /\ SM.get_summary self (SM.add_insight self now a b w)
     = Some (bump 0 0 0 1 s).
Proof.
  unfold SM.get_summary, SM.add_cleaning_log, SM.add_query, SM.add_chart,
    SM.add_insight.
  rewrite !read_state_update.
  destruct (SM.read_state self w) as [st|]; simpl; [| done].
  intros [= <-]. unfold bump. simpl. rewrite !length_app. simpl.
  repeat split; repeat f_equal; lia.
Qed.

Lemma summary_counts_records_witness :
  SM.get_summary Scenario.h1 Scenario.w_created
  = Some {| SM.has_data := false; SM.rows := 0; SM.columns := 0;
            SM.cleaning_operations := 0; SM.queries_executed := 0;
            SM.charts_generated := 0; SM.insights_count := 0 |}
  /\ SM.get_summary Scenario.h1
       (SM.add_query Scenario.h1 "2024-01-01 10:05:00" "total sales"
          (ResInt 17) "sum of the column" Scenario.w_created)
     = Some {| SM.has_data := false; SM.rows := 0; SM.columns := 0;
               SM.cleaning_operations := 0; SM.queries_executed := 1;
               SM.charts_generated := 0; SM.insights_count := 0 |}.
Proof.
  split; [reflexivity |].
  destruct (summary_counts_records Scenario.h1 Scenario.w_created
              {| SM.has_data := false; SM.rows := 0; SM.columns := 0;
                 SM.cleaning_operations := 0; SM.queries_executed := 0;
                 SM.charts_generated := 0; SM.insights_count := 0 |}
              "2024-01-01 10:05:00" "total sales" "sum of the column"
              (ResInt 17) PyNone) as (_ & H & _); [reflexivity |].
  exact H.
Defined.

(** X7: after [set_dataframe(df, 'raw')] (or ['cleaned']) the named slot
    and [current_dataframe] hold two different dataframe objects, each with
    the labels and cells of [df], and [get_dataframe] hands out the stored
    object itself: a change made in place to the dataframe
    [get_dataframe('current')] returned (labels, rows, cells replaced) shows
    in what [get_dataframe('current')] returns next, and not in the named
    slot. The two copies hold the same cells, so a Python object a cell
    refers to is one object for both: what is read in the named slot
    follows the objects, and is sure to stay as it was only where all cells
    are scalars. *)
Theorem set_dataframe_slots_independent (self : SessionManager) (df : loc)
  (df_type : string) (w : World) (st : SessionState) (d : DataFrame) :
  df_type = "raw" \/ df_type = "cleaned" ->
  SM.read_state self w = Some st ->
  frames w !! df = Some d ->
  exists w' c1 c2,
    SM.set_dataframe self df df_type w = Some w'
    /\ SM.get_dataframe self df_type w' = Some (Some c1)
    /\ SM.get_dataframe self "current" w' = Some (Some c2)
    /\ c1 <> c2
    /\ frames w' !! c1 = Some d
    /\ frames w' !! c2 = Some d
    /\ forall f,
         SM.read_dataframe self df_type (SM.mutate_frame c2 f w') = Some d
         /\ SM.read_dataframe self "current" (SM.mutate_frame c2 f w')
            = Some (f d)
         /\ (forall held,
               SM.read_content held self df_type (SM.mutate_frame c2 f w')
               = Some (read_frame held d)
               /\ SM.read_content held self "current"
                    (SM.mutate_frame c2 f w')
                  = Some (read_frame held (f d)))
         /\ (forall held held',
               scalar_frame d = true ->
               SM.read_content held' self df_type (SM.mutate_frame c2 f w')
               = SM.read_content held self df_type w').
Proof.
  intros Hty Hst Hd. unfold SM.read_state in Hst. unfold SM.set_dataframe.
  assert (Hlast : forall F : list DataFrame,
            (F ++ [d]) !! length F = Some d)
    by (intros F; apply lookup_snoc_last).
  assert (Hfirst : (frames w ++ [d]) !! length (frames w) = Some d)
    by apply Hlast.
  assert (Hne : length (frames w ++ [d]) <> length (frames w))
    by (rewrite length_app; simpl; lia).
  destruct Hty as [-> | ->]; simpl;
    rewrite (df_copy_some _ _ _ Hd); simpl;
    (erewrite df_copy_some by (simpl; by apply lookup_app_l_Some)); simpl;
    eexists;
    exists (length (frames w)), (length (frames w ++ [d]));
    (split; [reflexivity |]);
    unfold SM.read_content, SM.read_dataframe, SM.get_dataframe,
      SM.read_state; simpl;
    rewrite !list_lookup_alter_eq, Hst; simpl;
    (split; [done |]); (split; [done |]);
    (split; [lia |]);
    (split; [by apply lookup_app_l_Some |]);
    (split; [by apply Hlast |]);
    intros f;
    rewrite (list_lookup_alter_ne _ _ _ _ Hne), list_lookup_alter_eq, Hlast,
      (lookup_app_l_Some _ _ _ _ Hfirst); simpl;
    (split; [done |]); (split; [done |]); (split; [done |]);
    intros held held' Hs; by rewrite (read_frame_scalar held held' d Hs).
Qed.

Lemma set_dataframe_slots_independent_witness :
  SM.read_state Scenario.h1 Scenario.w_with_frame = Some SessionState_new
  /\ frames Scenario.w_with_frame !! 0 = Some Scenario.tiny_df
  /\ exists w' c1 c2,
       SM.set_dataframe Scenario.h1 0 "raw" Scenario.w_with_frame = Some w'
       /\ SM.get_dataframe Scenario.h1 "raw" w' = Some (Some c1)
       /\ SM.get_dataframe Scenario.h1 "current" w' = Some (Some c2)
       /\ c1 <> c2.
Proof.
  split; [reflexivity | split; [reflexivity |]].
  destruct (set_dataframe_slots_independent Scenario.h1 0 "raw"
              Scenario.w_with_frame SessionState_new Scenario.tiny_df)
    as (w' & c1 & c2 & H1 & H2 & H3 & H4 & _);
    [by left | reflexivity | reflexivity |].
  by exists w', c1, c2.
Defined.

(** The two copies [set_dataframe] stores share the objects their cells
    refer to: an append to the list in the ["tags"] cell shows in the raw
    slot and in the current slot alike. *)
Example set_dataframe_slots_share_objects :
  SM.get_dataframe Scenario.h1 "raw" Scenario.w_tagged_stored = Some (Some 1)
  /\ SM.get_dataframe Scenario.h1 "current" Scenario.w_tagged_stored
     = Some (Some 2)
  /\ SM.read_content Scenario.held_tags Scenario.h1 "raw"
       Scenario.w_tagged_stored
     = Some (["id"; "tags"],
             [[ValueInt 1; ValueObject (Some (PyList [PyStr "new"]))]])
  /\ SM.read_content
       (alter (Scenario.list_append (PyStr "late")) 0 Scenario.held_tags)
       Scenario.h1 "raw" Scenario.w_tagged_stored
     = Some (["id"; "tags"],
             [[ValueInt 1;
               ValueObject (Some (PyList [PyStr "new"; PyStr "late"]))]])
  /\ SM.read_content
       (alter (Scenario.list_append (PyStr "late")) 0 Scenario.held_tags)
       Scenario.h1 "current" Scenario.w_tagged_stored
     = SM.read_content
         (alter (Scenario.list_append (PyStr "late")) 0 Scenario.held_tags)
         Scenario.h1 "raw" Scenario.w_tagged_stored.
Proof. repeat split; reflexivity. Qed.

(** X8: [set_dataframe] writes dataframe slots of its own session only:
    the histories, metadata, flags and caches of the state stay, the
    registry stays, [raw_dataframe] changes only for ['raw'] and
    [cleaned_dataframe] only for ['cleaned']. *)
Theorem set_dataframe_writes_only_its_slots (self : SessionManager)
  (df : loc) (df_type : string) (w w' : World) (st : SessionState) :
  SM.read_state self w = Some st ->
  SM.set_dataframe self df df_type w = Some w' ->
  _sessions w' = _sessions w
  /\ exists st',
       SM.read_state self w' = Some st'
       /\ same_but_slots st st'
       /\ (df_type <> "raw" -> raw_dataframe st' = raw_dataframe st)
       /\ (df_type <> "cleaned" ->
           cleaned_dataframe st' = cleaned_dataframe st).
Proof.
  intros Hst H.
  apply set_dataframe_shape in H as (d & f & k & _ & Hs & Ho & _ & Hf).
  split; [done |]. exists (f st). unfold SM.read_state in *.
  rewrite Ho, list_lookup_alter_eq, Hst. simpl.
  split; [done |]. apply Hf.
Qed.

Lemma set_dataframe_writes_only_its_slots_witness :
  SM.read_state Scenario.h1 Scenario.w_with_frame = Some SessionState_new
  /\ exists w',
       SM.set_dataframe Scenario.h1 0 "cleaned" Scenario.w_with_frame
       = Some w'
       /\ _sessions w' = _sessions Scenario.w_with_frame.
Proof.
  split; [reflexivity |].
  eexists. split; [reflexivity |].
  exact (proj1 (set_dataframe_writes_only_its_slots Scenario.h1 0 "cleaned"
                  Scenario.w_with_frame _ SessionState_new
                  eq_refl eq_refl)).
Defined.

End StoreFacts.

(** ** Session resolution of the routes *)

Module ResolutionFacts.
Import App AppRoutes SessionFacts.

Lemma presents_usable (x : option string) (id : string) (l : loc)
  (w : World) :
  presents x id l w ->
  id_missing x = false
  /\ SM.has_session (default "" x) w = true
  /\ SM.__init__ (default "" x) w
     = (Return {| session_id := id; state := l |}, w).
Proof.
  intros (-> & Hne & Hl). simpl. split; [| split].
  - by destruct (String.eqb_spec id "").
  - apply has_session_true. by eexists.
  - by apply init_present.
Qed.

Lemma presents_none_unusable (x : option string) (w : World) :
  presents_none x w ->
  id_missing x || negb (SM.has_session (default "" x) w) = true.
Proof.
  intros H. destruct x as [id|]; [| done]. simpl.
  destruct (H id eq_refl) as [-> | Hn]; [done |].
  apply has_session_false in Hn. rewrite Hn. apply orb_true_r.
Qed.

Lemma presents_or_none (x : option string) (w : World) :
  (exists id l, presents x id l w) \/ presents_none x w.
Proof.
  destruct x as [id|]; [| right; by intros ? [=]].
  destruct (String.eqb_spec id "") as [->|Hne].
  { right. intros ? [= <-]. by left. }
  destruct (_sessions w !! id) as [l|] eqn:E.
  - left. by exists id, l.
  - right. intros ? [= <-]. by right.
Qed.

Lemma get_session_or_abort_presents (header : option string) (id : string)
  (l : loc) (w : World) :
  presents header id l w ->
  get_session_or_abort header w
  = (Return {| session_id := id; state := l |}, w).
Proof.
  intros (Hm & Hh & Hi)%presents_usable.
  unfold get_session_or_abort. by rewrite Hm, Hh, Hi.
Qed.

Lemma get_session_or_abort_known (id : string) (l : loc) (w : World) :
  id <> "" -> _sessions w !! id = Some l ->
  get_session_or_abort (Some id) w
  = (Return {| session_id := id; state := l |}, w).
Proof. intros Hne Hl. by apply get_session_or_abort_presents. Qed.

Lemma get_session_or_abort_none (header : option string) (w : World) :
  presents_none header w ->
  get_session_or_abort header w
  = (Raise (HTTPException 400 "Missing or invalid session id"), w).
Proof.
  intros H%presents_none_unusable. unfold get_session_or_abort.
  by rewrite H.
Qed.

(** X9: [get_session_or_abort] never changes the store. For a header that
    names a registered session it returns a handle on the registered
    state; for a missing, empty or unknown id it aborts with status 400. *)
Theorem get_session_or_abort_strict (header : option string) (w : World) :
  snd (get_session_or_abort header w) = w
  /\ (forall id l,
        presents header id l w ->
        fst (get_session_or_abort header w)
        = Return {| session_id := id; state := l |})
  /\ (presents_none header w ->
      fst (get_session_or_abort header w)
      = Raise (HTTPException 400 "Missing or invalid session id")).
Proof.
  split; [| split].
  - destruct (presents_or_none header w) as [(id & l & H) | H].
    + by rewrite (get_session_or_abort_presents _ _ _ _ H).
    + by rewrite (get_session_or_abort_none _ _ H).
  - intros id l H. by rewrite (get_session_or_abort_presents _ _ _ _ H).
  - intros H. by rewrite (get_session_or_abort_none _ _ H).
Qed.

(** X10: [resolve_session_from_request] never changes the store. A usable
    header id wins over the cookie; with no usable header id the cookie's
    session is used; with neither the request aborts with status 400. *)
Theorem resolve_session_precedence (header cookie : option string)
  (w : World) :
  snd (resolve_session_from_request header cookie w) = w
  /\ (forall id l,
        presents header id l w ->
        fst (resolve_session_from_request header cookie w)
        = Return {| session_id := id; state := l |})
  /\ (forall id l,
        presents_none header w -> presents cookie id l w ->
        fst (resolve_session_from_request header cookie w)
        = Return {| session_id := id; state := l |})
  /\ (presents_none header w -> presents_none cookie w ->
      fst (resolve_session_from_request header cookie w)
      = Raise (HTTPException 400 "Missing or invalid session id")).
Proof.
  assert (Hoff : forall x, presents_none x w ->
            negb (id_missing x) && SM.has_session (default "" x) w = false).
  { intros x H%presents_none_unusable.
    destruct (id_missing x); [done |]. simpl in *.
    by destruct (SM.has_session (default "" x) w). }
  assert (Hh : forall id l, presents header id l w ->
            resolve_session_from_request header cookie w
            = (Return {| session_id := id; state := l |}, w)).
  { intros id l (Hm & Hs & Hi)%presents_usable.
    unfold resolve_session_from_request. by rewrite Hm, Hs, Hi. }
  assert (Hc : forall id l, presents_none header w -> presents cookie id l w ->
            resolve_session_from_request header cookie w
            = (Return {| session_id := id; state := l |}, w)).
  { intros id l Hn (Hm & Hs & Hi)%presents_usable.
    unfold resolve_session_from_request. by rewrite (Hoff _ Hn), Hm, Hs, Hi. }
  assert (Hn : presents_none header w -> presents_none cookie w ->
            resolve_session_from_request header cookie w
            = (Raise (HTTPException 400 "Missing or invalid session id"), w)).
  { intros H1 H2. unfold resolve_session_from_request.
    by rewrite (Hoff _ H1), (Hoff _ H2). }
  split; [| split; [| split]].
  - destruct (presents_or_none header w) as [(id & l & H) | H].
    { by rewrite (Hh _ _ H). }
    destruct (presents_or_none cookie w) as [(id & l & H') | H'].
    + by rewrite (Hc _ _ H H').
    + by rewrite (Hn H H').
  - intros id l H. by rewrite (Hh _ _ H).
  - intros id l H H'. by rewrite (Hc _ _ H H').
  - intros H H'. by rewrite (Hn H H').
Qed.

Lemma ensure_web_session_known (cookie : option string) (uuid id : string)
  (l : loc) (w : World) :
  presents cookie id l w ->
  ensure_web_session cookie uuid w
  = (Return {| session_id := id; state := l |}, cookie, w).
Proof.
  intros H. pose proof H as (-> & _ & _).
  apply presents_usable in H as (Hm & Hs & Hi).
  unfold ensure_web_session. rewrite Hm, Hs. simpl in *. by rewrite Hi.
Qed.

Lemma ensure_web_session_new (cookie : option string) (uuid : string)
  (w : World) :
  presents_none cookie w ->
  ensure_web_session cookie uuid w
  = (Return {| session_id := uuid; state := length (objects w) |},
     Some uuid,
     SM.bind_session uuid (length (objects w))
       (snd (SM.alloc_state SessionState_new w))).
Proof.
  intros H%presents_none_unusable. unfold ensure_web_session.
  rewrite H. simpl. rewrite init_present with (l := length (objects w)).
  - done.
  - simpl. apply lookup_insert_eq.
Qed.

(** X11: [ensure_web_session] always returns a handle, and the cookie it
    leaves names the session of that handle. With a cookie that names a
    registered session, that session is used and the store is untouched.
    Otherwise a session is created under the new id [uuid]: its state is
    [SessionState()], and no other id, in particular not the unknown one of
    the cookie, is registered or changed. *)
Theorem ensure_web_session_cases (cookie : option string) (uuid : string)
  (w : World) :
  (forall id l,
      presents cookie id l w ->
      ensure_web_session cookie uuid w
      = (Return {| session_id := id; state := l |}, cookie, w))
  /\ (presents_none cookie w ->
      exists w',
        ensure_web_session cookie uuid w
        = (Return {| session_id := uuid; state := length (objects w) |},
           Some uuid, w')
        /\ SM.session_state uuid w' = Some SessionState_new
        /\ objects w' = objects w ++ [SessionState_new]
        /\ forall other, other <> uuid ->
             _sessions w' !! other = _sessions w !! other)
  /\ (exists self w',
        ensure_web_session cookie uuid w
        = (Return self, Some (session_id self), w')
        /\ _sessions w' !! session_id self = Some (state self)).
Proof.
  split; [| split].
  - intros id l H. by apply ensure_web_session_known.
  - intros H. eexists. split; [by apply ensure_web_session_new |].
    split; [apply session_state_bind_alloc |]. split; [done |].
    intros other Hne. simpl. by rewrite lookup_insert_ne.
  - destruct (presents_or_none cookie w) as [(id & l & H) | H].
    + exists {| session_id := id; state := l |}, w.
      rewrite (ensure_web_session_known _ uuid _ _ _ H).
      destruct H as (-> & _ & Hl). by split.
    + exists {| session_id := uuid; state := length (objects w) |}.
      eexists. rewrite (ensure_web_session_new _ _ _ H).
      split; [reflexivity |]. simpl. apply lookup_insert_eq.
Qed.

(** X12: [POST /session/reset] gives the client a new, empty session under
    the new id and deletes nothing: a session that was registered before,
    the one of the dropped cookie included, is still registered with its
    state. *)
Theorem reset_web_session_keeps_old_session (cookie : option string)
  (uuid old : string) (l : loc) (st : SessionState) (w : World) :
  _sessions w !! old = Some l ->
  objects w !! l = Some st ->
  uuid <> old ->
  exists w',
    reset_web_session cookie uuid w
    = (Return {| flash := ("Session reinitialized", "success");
                 step := None |}, Some uuid, w')
    /\ SM.session_state uuid w' = Some SessionState_new
    /\ SM.session_state old w' = Some st.
Proof.
  intros Hl Hst Hne. unfold reset_web_session.
  rewrite ensure_web_session_new by (by intros ? [=]).
  eexists. split; [reflexivity |].
  split; [apply session_state_bind_alloc |].
  apply session_state_some. exists l. simpl.
  split; [by rewrite lookup_insert_ne | by apply lookup_app_l_Some].
Qed.

Lemma reset_web_session_keeps_old_session_witness :
  _sessions Scenario.w_logged !! "s1" = Some 0
  /\ exists w',
       reset_web_session (Some "s1") "0123456789abcdef" Scenario.w_logged
       = (Return {| flash := ("Session reinitialized", "success");
                    step := None |}, Some "0123456789abcdef", w')
       /\ SM.session_state "0123456789abcdef" w' = Some SessionState_new
       /\ (cleaning_log <$> SM.session_state "s1" w')
          = Some [Scenario.a_log_entry].
Proof.
  split; [reflexivity |].
  destruct (reset_web_session_keeps_old_session (Some "s1")
              "0123456789abcdef" "s1" 0
              (set_cleaning_log [Scenario.a_log_entry] SessionState_new)
              Scenario.w_logged)
    as (w' & H1 & H2 & H3); [reflexivity | reflexivity | discriminate |].
  exists w'. split; [exact H1 | split; [exact H2 |]]. by rewrite H3.
Defined.

(** X13: the two reset routes keep the session id. For a request that
    names a registered session, [POST /reset] leaves the cookie as it is
    and [POST /api/reset] answers success; either way the id is then bound
    to a new [SessionState()], the other ids are bound as before and no
    state object is changed. [POST /api/reset] without a usable header id
    aborts with status 400 and changes nothing. *)
Theorem reset_routes_keep_id (id uuid : string) (l : loc) (w : World) :
  id <> "" ->
  _sessions w !! id = Some l ->
  exists w',
    reset_data_step (Some id) uuid w
    = (Return {| flash := ("Session data cleared.", "success");
                 step := Some "upload" |}, Some id, w')
    /\ reset_session (Some id) w
       = (Return (<["success" := PyBool true]> ∅), w')
    /\ SM.session_state id w' = Some SessionState_new
    /\ (forall other, other <> id ->
          _sessions w' !! other = _sessions w !! other)
    /\ (forall l' st, objects w !! l' = Some st ->
          objects w' !! l' = Some st)
    /\ (forall header,
          presents_none header w ->
          reset_session header w
          = (Raise (HTTPException 400 "Missing or invalid session id"), w)).
Proof.
  intros Hne Hl.
  assert (Hp : presents (Some id) id l w) by done.
  pose proof (get_session_or_abort_known _ _ _ Hne Hl) as Hg.
  eexists. split; [| split; [| split; [| split; [| split]]]].
  - unfold reset_data_step.
    rewrite (ensure_web_session_known _ uuid _ _ _ Hp).
    rewrite reset_session_eq. reflexivity.
  - unfold reset_session. rewrite Hg, reset_session_eq. reflexivity.
  - apply session_state_bind_alloc.
  - intros other Ho. simpl. by rewrite lookup_insert_ne.
  - intros l' st H. simpl. by apply lookup_app_l_Some.
  - intros header H. unfold reset_session.
    by rewrite (get_session_or_abort_none _ _ H).
Qed.

Lemma reset_routes_keep_id_witness :
  _sessions Scenario.w_logged !! "s1" = Some 0
  /\ exists w',
       reset_session (Some "s1") Scenario.w_logged
       = (Return (<["success" := PyBool true]> ∅), w')
       /\ SM.session_state "s1" w' = Some SessionState_new.
Proof.
  split; [reflexivity |].
  destruct (reset_routes_keep_id "s1" "0123456789abcdef" 0 Scenario.w_logged)
    as (w' & _ & H2 & H3 & _); [discriminate | reflexivity |].
  by exists w'.
Defined.

End ResolutionFacts.

(** ** Trimming *)

Module StripFacts.
Import PyStr PyStrMore.

Lemma lstrip_starts_clean (s : string) : starts_clean (lstrip s).
Proof.
  induction s as [|c r IH]; simpl; [done |].
  destruct (is_space c) eqn:E; [exact IH | exact E].
Qed.

Lemma rstrip_keeps_start (s : string) :
  starts_clean s -> starts_clean (rstrip s).
Proof.
  destruct s as [|c r]; simpl; [done |]. intros E.
  destruct (rstrip r); [by rewrite E | done].
Qed.

Lemma rstrip_ends_clean (s : string) : ends_clean (rstrip s).
Proof.
  induction s as [|c r IH]; simpl; [done |].
  destruct (rstrip r) as [|c' r'] eqn:E.
  - destruct (is_space c) eqn:Ec; simpl; done.
  - exact IH.
Qed.

Lemma lstrip_id (s : string) : starts_clean s -> lstrip s = s.
Proof. destruct s as [|c r]; simpl; [done |]. by intros ->. Qed.

Lemma rstrip_id (s : string) : ends_clean s -> rstrip s = s.
Proof.
  induction s as [|c r IH]; [done |]. intros H.
  destruct r as [|c' r'].
  - simpl in *. by rewrite H.
  - change (ends_clean (String c' r')) in H.
    change (rstrip (String c (String c' r')))
      with (match rstrip (String c' r') with
            | EmptyString =>
                if is_space c then EmptyString else String c EmptyString
            | String a b => String c (String a b)
            end).
    by rewrite (IH H).
Qed.

(** A trimmed string begins and ends with no whitespace, and trimming it
    again changes nothing. *)
Lemma strip_clean (s : string) :
  starts_clean (strip s) /\ ends_clean (strip s)
  /\ strip (strip s) = strip s.
Proof.
  assert (H1 : starts_clean (strip s))
    by apply rstrip_keeps_start, lstrip_starts_clean.
  assert (H2 : ends_clean (strip s)) by apply rstrip_ends_clean.
  split; [done | split; [done |]].
  unfold strip at 1. by rewrite (lstrip_id _ H1), (rstrip_id _ H2).
Qed.

End StripFacts.

(** ** Routes and helpers of app.py *)

Module RouteFacts.
Import PyStr PyStrMore App AppRoutes SessionFacts ResolutionFacts StripFacts.

Lemma py_or_dict (payload : gmap string pyval) :
  py_or (PyDict payload) (PyDict ∅) = PyDict payload.
Proof.
  unfold py_or. simpl. case_bool_decide as H; simpl; [| done].
  apply map_size_empty_iff in H. by rewrite H.
Qed.

(** X14: [POST /api/query] for a registered session. A body that is JSON
    but not an object (and not empty), or a [query] entry that is not a
    string (and not empty), raises [AttributeError], which no 4xx answer
    covers. A missing body, a missing [query] or a [query] of whitespace
    only is refused with status 400 without running the agent and without
    touching the store. Otherwise the agent gets the trimmed query, which
    is not empty and has no whitespace at either end, and its failure is
    answered with status 400 and its message. *)
Theorem run_query_guards
  (agent : SessionManager -> string -> World -> NLQResult * World)
  (id : string) (l : loc) (body : pyval) (w : World) :
  id <> "" ->
  _sessions w !! id = Some l ->
  (truthy body = true -> (forall payload, body <> PyDict payload) ->
   run_query agent (Some id) body w
   = (Raise (OtherError "AttributeError"), w))
  /\ (forall payload,
        py_or body (PyDict ∅) = PyDict payload ->
        truthy (dict_get payload "query") = true ->
        (forall text, dict_get payload "query" <> PyStr text) ->
        run_query agent (Some id) body w
        = (Raise (OtherError "AttributeError"), w))
  /\ (forall payload text,
        py_or body (PyDict ∅) = PyDict payload ->
        py_or (dict_get payload "query") (PyStr "") = PyStr text ->
        strip text = "" ->
        run_query agent (Some id) body w
        = (Raise (HTTPException 400 "Query text is required"), w))
  /\ (forall payload text,
        py_or body (PyDict ∅) = PyDict payload ->
        py_or (dict_get payload "query") (PyStr "") = PyStr text ->
        strip text <> "" ->
        starts_clean (strip text) /\ ends_clean (strip text)
        /\ run_query agent (Some id) body w
           = (if nlq_success
                   (agent {| session_id := id; state := l |}
                      (strip text) w).1
              then Return (agent {| session_id := id; state := l |}
                             (strip text) w).1
              else Raise (HTTPException 400
                            (nlq_message
                               (agent {| session_id := id; state := l |}
                                  (strip text) w).1)),
              (agent {| session_id := id; state := l |}
                 (strip text) w).2)).
Proof.
  intros Hne Hl. unfold run_query.
  rewrite (get_session_or_abort_known _ _ _ Hne Hl).
  split; [| split; [| split]].
  - intros Ht Hnd. unfold py_or. rewrite Ht.
    destruct body; try done. by destruct (Hnd d).
  - intros payload -> Ht Hns. unfold py_or at 1. rewrite Ht.
    destruct (dict_get payload "query"); try done. by destruct (Hns s).
  - intros payload text -> -> Hs.
    destruct (String.eqb_spec (strip text) ""); done.
  - intros payload text -> -> Hs.
    destruct (strip_clean text) as (H1 & H2 & _).
    split; [done | split; [done |]].
    destruct (String.eqb_spec (strip text) ""); [done |].
    destruct (agent _ (strip text) w) as [result w2]. simpl.
    by destruct (nlq_success result).
Qed.

Lemma run_query_guards_witness :
  _sessions Scenario.w_created !! "s1" = Some 0
  /\ run_query (fun _ _ w => ({| nlq_success := true; nlq_message := "ok";
                                 nlq_dict := ∅ |}, w))
       (Some "s1") (PyList [PyInt 1]) Scenario.w_created
     = (Raise (OtherError "AttributeError"), Scenario.w_created)
  /\ run_query (fun _ _ w => ({| nlq_success := true; nlq_message := "ok";
                                 nlq_dict := ∅ |}, w))
       (Some "s1") (PyDict (<["query" := PyStr "   "]> ∅)) Scenario.w_created
     = (Raise (HTTPException 400 "Query text is required"),
        Scenario.w_created).
Proof.
  split; [reflexivity |].
  split.
  - destruct (run_query_guards
                (fun _ _ w => ({| nlq_success := true; nlq_message := "ok";
                                  nlq_dict := ∅ |}, w))
                "s1" 0 (PyList [PyInt 1]) Scenario.w_created)
      as (H & _); [discriminate | reflexivity |].
    apply H; [reflexivity | discriminate].
  - reflexivity.
Defined.

(** X15: [POST /api/visualize/custom] for a registered session and a JSON
    object. Unless both [chart_type] and [x_col] are given and not empty,
    the request is refused with status 400 without running the agent and
    without touching the store. Otherwise the agent gets the three entries
    as they are in the body ([y_col] as [None] when absent), and its
    failure is answered with status 400 and its message. *)
Theorem custom_visualize_guard
  (agent : SessionManager -> pyval -> pyval -> pyval -> World ->
           VisualizationResult * World)
  (id : string) (l : loc) (payload : gmap string pyval) (w : World) :
  id <> "" ->
  _sessions w !! id = Some l ->
  (truthy (dict_get payload "chart_type") = false
   \/ truthy (dict_get payload "x_col") = false ->
   custom_visualize agent (Some id) (PyDict payload) w
   = (Raise (HTTPException 400 "Chart type and X column are required"), w))
  /\ (truthy (dict_get payload "chart_type") = true ->
      truthy (dict_get payload "x_col") = true ->
      custom_visualize agent (Some id) (PyDict payload) w
      = (if viz_success
              (agent {| session_id := id; state := l |}
                 (dict_get payload "chart_type") (dict_get payload "x_col")
                 (dict_get payload "y_col") w).1
         then Return (agent {| session_id := id; state := l |}
                        (dict_get payload "chart_type")
                        (dict_get payload "x_col")
                        (dict_get payload "y_col") w).1
         else Raise (HTTPException 400
                       (viz_message
                          (agent {| session_id := id; state := l |}
                             (dict_get payload "chart_type")
                             (dict_get payload "x_col")
                             (dict_get payload "y_col") w).1)),
         (agent {| session_id := id; state := l |}
            (dict_get payload "chart_type") (dict_get payload "x_col")
            (dict_get payload "y_col") w).2)).
Proof.
  intros Hne Hl. unfold custom_visualize.
  rewrite (get_session_or_abort_known _ _ _ Hne Hl), py_or_dict.
  assert (Hc : dict_get (build_chart_payload payload) "chart_type"
               = dict_get payload "chart_type") by done.
  assert (Hx : dict_get (build_chart_payload payload) "x_col"
               = dict_get payload "x_col") by done.
  assert (Hy : dict_get (build_chart_payload payload) "y_col"
               = dict_get payload "y_col") by done.
  rewrite Hc, Hx, Hy. split.
  - intros [-> | ->]; [done | by rewrite orb_true_r].
  - intros -> ->. simpl.
    destruct (agent _ _ _ _ w) as [result w2]. simpl.
    by destruct (viz_success result).
Qed.

Lemma custom_visualize_guard_witness :
  _sessions Scenario.w_created !! "s1" = Some 0
  /\ custom_visualize
       (fun _ _ _ _ w => ({| viz_success := true; viz_message := "ok";
                             viz_charts := None |}, w))
       (Some "s1") (PyDict (<["chart_type" := PyStr "bar"]> ∅))
       Scenario.w_created
     = (Raise (HTTPException 400 "Chart type and X column are required"),
        Scenario.w_created).
Proof.
  split; [reflexivity |].
  destruct (custom_visualize_guard
              (fun _ _ _ _ w => ({| viz_success := true; viz_message := "ok";
                                    viz_charts := None |}, w))
              "s1" 0 (<["chart_type" := PyStr "bar"]> ∅) Scenario.w_created)
    as (H & _); [discriminate | reflexivity |].
  apply H. by right.
Defined.







Example form_columns_example :
  form_columns (Some " price , ,qty,") = ["price"; "qty"]
  /\ form_columns None = [].
Proof. split; reflexivity. Qed.


Lemma truthy_py_bool (x : pyval) : truthy (py_bool x) = truthy x.
Proof. reflexivity. Qed.

Lemma py_or_py_or (x y : pyval) :
  truthy y = false -> py_or (py_or x y) y = py_or x y.
Proof.
  intros Hy. unfold py_or. destruct (truthy x) eqn:Hx.
  - by rewrite Hx.
  - by rewrite Hy.
Qed.

Lemma py_or_truthy (x y : pyval) :
  truthy y = true -> truthy (py_or x y) = true.
Proof. intros Hy. unfold py_or. by destruct (truthy x) eqn:Hx. Qed.

(** X18: [build_cleaning_payload] gives a dict with exactly its five keys,
    whatever else the request holds; the two switches are booleans and the
    duplicate strategy is never empty; building from a built payload changes
    nothing. An absent [clean_duplicates] counts as true, while one given
    as [null] counts as false. *)
Theorem build_cleaning_payload_normalizes (payload : gmap string pyval) :
  build_cleaning_payload (build_cleaning_payload payload)
  = build_cleaning_payload payload
  /\ dom (build_cleaning_payload payload)
     = ({["clean_missing"; "missing_strategy"; "missing_columns";
          "clean_duplicates"; "duplicate_strategy"]} : gset string)
  /\ (exists b1 b2,
        build_cleaning_payload payload !! "clean_missing" = Some (PyBool b1)
        /\ build_cleaning_payload payload !! "clean_duplicates"
           = Some (PyBool b2))
  /\ truthy (dict_get (build_cleaning_payload payload) "duplicate_strategy")
     = true
  /\ (payload !! "clean_duplicates" = None ->
      build_cleaning_payload payload !! "clean_duplicates"
      = Some (PyBool true))
  /\ (payload !! "clean_duplicates" = Some PyNone ->
      build_cleaning_payload payload !! "clean_duplicates"
      = Some (PyBool false))
  /\ (payload !! "clean_missing" = None ->
      build_cleaning_payload payload !! "clean_missing"
      = Some (PyBool false)).
Proof.
  split; [| split; [| split; [| split; [| split; [| split]]]]].
  - unfold build_cleaning_payload at 1.
    assert (H1 : dict_get_default (build_cleaning_payload payload)
                   "clean_missing" (PyBool false)
                 = py_bool (dict_get_default payload "clean_missing"
                              (PyBool false))) by done.
    assert (H2 : dict_get (build_cleaning_payload payload) "missing_strategy"
                 = dict_get payload "missing_strategy") by done.
    assert (H3 : dict_get (build_cleaning_payload payload) "missing_columns"
                 = py_or (dict_get payload "missing_columns") (PyList []))
      by done.
    assert (H4 : dict_get_default (build_cleaning_payload payload)
                   "clean_duplicates" (PyBool true)
                 = py_bool (dict_get_default payload "clean_duplicates"
                              (PyBool true))) by done.
    assert (H5 : dict_get (build_cleaning_payload payload)
                   "duplicate_strategy"
                 = py_or (dict_get payload "duplicate_strategy")
                     (PyStr "drop")) by done.
    rewrite H1, H2, H3, H4, H5.
    rewrite py_or_py_or by done.
    assert (H6 : forall x, py_or (py_or x (PyStr "drop")) (PyStr "drop")
                           = py_or x (PyStr "drop")).
    { intros x. unfold py_or. destruct (truthy x) eqn:Hx; [by rewrite Hx |].
      done. }
    by rewrite H6.
  - unfold build_cleaning_payload. rewrite !dom_insert_L, dom_empty_L.
    set_solver.
  - by eexists _, _.
  - assert (H5 : dict_get (build_cleaning_payload payload)
                   "duplicate_strategy"
                 = py_or (dict_get payload "duplicate_strategy")
                     (PyStr "drop")) by done.
    rewrite H5. by apply py_or_truthy.
  - intros H. unfold build_cleaning_payload, dict_get_default.
    rewrite H. done.
  - intros H. unfold build_cleaning_payload, dict_get_default.
    rewrite H. done.
  - intros H. unfold build_cleaning_payload, dict_get_default.
    rewrite H. done.
Qed.


Lemma serialize_loop_length (json_dumps : pyval -> outcome string)
  (object_truth : string -> outcome bool)
  (charts serialized out : list (gmap string pyval)) :
  serialize_loop json_dumps object_truth charts serialized = Return out ->
  length out = length serialized + length charts.
Proof.
  revert serialized. induction charts as [|chart rest IH];
    intros serialized; simpl.
  - intros [= <-]. lia.
  - destruct (py_or_tested object_truth _ _) as [figure|e]; [| done].
    destruct (encode_figure json_dumps figure) as [figure_json|e]; [| done].
    intros H%IH. rewrite length_app in H. simpl in H. lia.
Qed.

(** X20: when [build_dashboard_context] returns, the step it shows is one
    of the five stage keys: the requested one if that is a stage key,
    ["upload"] otherwise. The query counter of its summary is the number of
    history items it lists, and it lists one chart payload per payload of
    the session. *)
Theorem dashboard_context_consistent
  (needs : SessionManager -> World -> pyval)
  (json_dumps : pyval -> outcome string)
  (object_truth : string -> outcome bool)
  (flashed : list (string * string))
  (session : SessionManager) (current_step : string) (w : World)
  (ctx : DashboardContext) :
  build_dashboard_context needs json_dumps object_truth flashed session
    current_step w
  = Some (Return ctx) ->
  ctx_current_step ctx ∈ (fst <$> STAGE_TABS)
  /\ (current_step ∈ (fst <$> STAGE_TABS) ->
      ctx_current_step ctx = current_step)
  /\ (current_step ∉ (fst <$> STAGE_TABS) ->
      ctx_current_step ctx = "upload")
  /\ SM.queries_executed (ctx_summary ctx) = length (ctx_history ctx)
  /\ exists st,
       SM.read_state session w = Some st
       /\ length (ctx_chart_payloads ctx) = length (chart_payloads st)
       /\ ctx_history ctx = serialize_history st.
Proof.
  unfold build_dashboard_context, SM.get_summary.
  destruct (SM.read_state session w) as [st|]; simpl; [| done].
  unfold serialize_chart_payloads. simpl.
  destruct (serialize_loop json_dumps object_truth (chart_payloads st) [])
    as [payloads|e] eqn:Hs; [| done].
  intros [= <-]. simpl. apply serialize_loop_length in Hs. simpl in Hs.
  split; [| split; [| split; [| split]]].
  - case_bool_decide as Hin; simpl; [done |]. set_solver.
  - intros Hin. by rewrite bool_decide_true.
  - intros Hin. by rewrite bool_decide_false.
  - unfold serialize_history. by rewrite length_fmap.
  - by exists st.
Qed.

Lemma dashboard_context_consistent_witness :
  exists ctx,
    build_dashboard_context (fun _ _ => PyNone) Scenario.demo_dumps
      Scenario.demo_truth [] Scenario.h1 "settings" Scenario.w_cached
    = Some (Return ctx)
    /\ ctx_current_step ctx = "upload"
    /\ length (ctx_chart_payloads ctx) = 1.
Proof.
  eexists. split; [reflexivity |].
  destruct (dashboard_context_consistent (fun _ _ => PyNone)
              Scenario.demo_dumps Scenario.demo_truth [] Scenario.h1
              "settings" Scenario.w_cached _ eq_refl) as (_ & _ & H & _).
  split; [| reflexivity]. apply H.
  apply (proj1 (bool_decide_eq_false _)). reflexivity.
Defined.



(** X26: [POST /api/clean] for a registered session. A body that is JSON
    but not an object (and not empty) raises [AttributeError]. Without a
    body, or with an empty object, the cleaning agent is run with the
    defaults: no missing-value cleaning, no columns, duplicates dropped. *)
Theorem clean_data_defaults
  (agent : SessionManager -> gmap string pyval -> World ->
           CleaningResult * World)
  (id : string) (l : loc) (body : pyval) (w : World) :
  id <> "" ->
  _sessions w !! id = Some l ->
  (truthy body = true -> (forall payload, body <> PyDict payload) ->
   clean_data agent (Some id) body w
   = (Raise (OtherError "AttributeError"), w))
  /\ (truthy body = false ->
      clean_data agent (Some id) body w
      = clean_data agent (Some id) (PyDict ∅) w)
  /\ build_cleaning_payload ∅
     = <["clean_missing" := PyBool false]>
       (<["missing_strategy" := PyNone]>
       (<["missing_columns" := PyList []]>
       (<["clean_duplicates" := PyBool true]>
       (<["duplicate_strategy" := PyStr "drop"]> ∅))))
  /\ clean_data agent (Some id) (PyDict ∅) w
     = (if cl_success
             (agent {| session_id := id; state := l |}
                (build_cleaning_payload ∅) w).1
        then Return (agent {| session_id := id; state := l |}
                       (build_cleaning_payload ∅) w).1
        else Raise (HTTPException 400
                      (cl_message
                         (agent {| session_id := id; state := l |}
                            (build_cleaning_payload ∅) w).1)),
        (agent {| session_id := id; state := l |}
           (build_cleaning_payload ∅) w).2).
Proof.
  intros Hne Hl. unfold clean_data.
  rewrite (get_session_or_abort_known _ _ _ Hne Hl).
  split; [| split; [| split]].
  - intros Ht Hnd. unfold py_or. rewrite Ht.
    destruct body; try done. by destruct (Hnd d).
  - intros Hf. unfold py_or at 1. rewrite Hf. by rewrite py_or_dict.
  - reflexivity.
  - rewrite py_or_dict.
    destruct (agent _ (build_cleaning_payload ∅) w) as [result w2]. simpl.
    by destruct (cl_success result).
Qed.

Lemma clean_data_defaults_witness :
  _sessions Scenario.w_created !! "s1" = Some 0
  /\ clean_data
       (fun _ payload w =>
          ({| cl_success := true; cl_message := "cleaned";
              cl_summary := Some payload |}, w))
       (Some "s1") PyNone Scenario.w_created
     = (Return {| cl_success := true; cl_message := "cleaned";
                  cl_summary := Some (build_cleaning_payload ∅) |},
        Scenario.w_created).
Proof.
  split; [reflexivity |].
  destruct (clean_data_defaults
              (fun _ payload w =>
                 ({| cl_success := true; cl_message := "cleaned";
                     cl_summary := Some payload |}, w))
              "s1" 0 PyNone Scenario.w_created)
    as (_ & H & _ & H'); [discriminate | reflexivity |].
  rewrite (H eq_refl). exact H'.
Defined.

(** X27: the reading API routes ([GET /api/summary], [/api/history],
    [/api/charts]) never change the store, and without a usable session id
    they abort with status 400. For a registered session [/api/charts]
    lists one entry per generated chart, in order, and [/api/history] one
    item per query. *)
Theorem reading_routes_leave_store (header : option string) (w : World) :
  snd (get_summary header w) = w
  /\ snd (query_history_route header w) = w
  /\ snd (list_charts header w) = w
  /\ (presents_none header w ->
      fst (get_summary header w)
      = Raise (HTTPException 400 "Missing or invalid session id")
      /\ fst (query_history_route header w)
         = Raise (HTTPException 400 "Missing or invalid session id")
      /\ fst (list_charts header w)
         = Raise (HTTPException 400 "Missing or invalid session id"))
  /\ (forall id l st,
        presents header id l w -> objects w !! l = Some st ->
        (exists charts,
            fst (list_charts header w) = Return (Some charts)
            /\ length charts = length (generated_charts st)
            /\ ci_title <$> charts = ch_title <$> generated_charts st)
        /\ (exists items,
              fst (query_history_route header w) = Return (Some items)
              /\ length items = length (query_history st)
              /\ hi_query <$> items = qe_query <$> query_history st)).
Proof.
  unfold get_summary, query_history_route, list_charts.
  destruct (presents_or_none header w) as [(id & l & Hp) | Hn].
  - pose proof Hp as (-> & Hne & Hl).
    rewrite (get_session_or_abort_known _ _ _ Hne Hl). simpl.
    split; [done |]. split; [done |]. split; [done |]. split.
    { intros Hnone. destruct (Hnone id eq_refl) as [? | ?]; congruence. }
    intros id' l' st (Hid & _ & Hl') Hst.
    injection Hid as <-. assert (l' = l) as -> by congruence.
    unfold SM.read_state. simpl. rewrite Hst. simpl. split.
    + eexists. split; [reflexivity |].
      rewrite length_fmap. split; [done |].
      by rewrite <- list_fmap_compose.
    + eexists. split; [reflexivity |].
      unfold serialize_history. rewrite length_fmap. split; [done |].
      by rewrite <- list_fmap_compose.
  - rewrite (get_session_or_abort_none _ _ Hn). simpl.
    split; [done |]. split; [done |]. split; [done |]. split; [done |].
    intros id l st (-> & Hne & Hl) _.
    destruct (Hn id eq_refl) as [? | ?]; congruence.
Qed.


End RouteFacts.

(** ** Validators, further properties *)

Module ValidatorFacts.
Import PyStr PyStrMore QueryValidator DataValidator PyStrFacts
  QueryValidatorFacts.

Lemma lower_char_idempotent (c : ascii) :
  lower_char (lower_char c) = lower_char c.
Proof. destruct c as [[] [] [] [] [] [] [] []]; reflexivity. Qed.

Lemma lower_idempotent (s : string) : lower (lower s) = lower s.
Proof.
  induction s as [|c r IH]; simpl; [done |].
  by rewrite lower_char_idempotent, IH.
Qed.

(** X21: [validate_file_extension] accepts a file exactly when the
    lower-cased suffix of its name is an entry of the allow-list. The
    entries are compared as they are, so an entry with an upper-case letter
    admits no file; and two names whose suffixes differ only in case get the
    same answer. *)
Theorem validate_file_extension_lowercase (path_suffix : string -> string)
  (filename : string) (allowed_extensions : list string) :
  (fst (validate_file_extension path_suffix filename allowed_extensions)
   = true
   <-> lower (path_suffix filename) ∈ allowed_extensions)
  /\ (forall ext,
        ext ∈ allowed_extensions -> lower ext <> ext ->
        lower (path_suffix filename) <> ext)
  /\ (forall other,
        lower (path_suffix other) = lower (path_suffix filename) ->
        validate_file_extension path_suffix other allowed_extensions
        = validate_file_extension path_suffix filename allowed_extensions)
  /\ (fst (validate_file_extension path_suffix filename allowed_extensions)
      = false ->
      snd (validate_file_extension path_suffix filename allowed_extensions)
      = "Invalid file type. Allowed: " +:+ join ", " allowed_extensions).
Proof.
  unfold validate_file_extension. split; [| split; [| split]].
  - case_bool_decide; simpl; split; done.
  - intros ext _ Hne Heq. apply Hne. rewrite <- Heq. apply lower_idempotent.
  - by intros other ->.
  - by case_bool_decide.
Qed.

(** X22: [validate_dataframe] accepts exactly a dataframe with at least
    one column and one row. A dataframe without columns or without rows is
    always reported as "DataFrame is empty": the answers "No columns found"
    and "No rows found" are never given. *)
Theorem validate_dataframe_verdicts (df : option DataFrame) :
  (fst (validate_dataframe df) = true
   <-> exists d, df = Some d /\ df_columns d <> [] /\ df_rows d <> [])
  /\ snd (validate_dataframe df) <> "No columns found"
  /\ snd (validate_dataframe df) <> "No rows found"
  /\ (forall d, df = Some d -> df_columns d = [] \/ df_rows d = [] ->
        validate_dataframe df = (false, "DataFrame is empty")).
Proof.
  destruct df as [d|]; simpl.
  2:{ split; [| done]. split; [done | by intros (? & ? & _)]. }
  unfold df_empty. destruct d as [cols rows]. simpl.
  destruct cols as [|c cs], rows as [|r rs]; simpl;
    (split;
     [split; [try done; intros _; by eexists
             | intros (? & [= <-] & ? & ?); done] |]);
    (split; [done |]); (split; [done |]);
    intros ? [= <-] [? | ?]; done.
Qed.

Lemma dict_of_from_items {V : Type} (items : list (string * V))
  (d : gmap string V) (key : string) (v : V) :
  foldl (fun d kv => <[kv.1 := kv.2]> d) d items !! key = Some v ->
  d !! key = Some v \/ (key, v) ∈ items.
Proof.
  revert d. induction items as [|[k x] rest IH]; intros d; simpl; [by left |].
  intros [H | H]%IH.
  - destruct (decide (k = key)) as [->|Hne].
    + rewrite lookup_insert_eq in H. injection H as ->. right. by left.
    + rewrite lookup_insert_ne in H by done. by left.
  - right. by right.
Qed.

(** *** The loop over the columns *)

Lemma positions_from_nonempty (i : nat) (col : string) (cols : list string) :
  col ∈ cols -> positions_from i col cols <> [].
Proof.
  revert i. induction cols as [|c cols IH]; intros i Hin; simpl.
  - by apply elem_of_nil in Hin.
  - destruct (String.eqb_spec c col) as [->|Hne]; [done |].
    apply elem_of_cons in Hin as [-> | Hin]; [done | by apply IH].
Qed.

Lemma positions_from_absent (i : nat) (col : string) (cols : list string) :
  col ∉ cols -> positions_from i col cols = [].
Proof.
  revert i. induction cols as [|c cols IH]; intros i Hin; simpl; [done |].
  apply not_elem_of_cons in Hin as [Hne Hin].
  destruct (String.eqb_spec c col) as [->|_]; [done | by apply IH].
Qed.

Lemma positions_from_length (i j : nat) (col : string) (cols : list string) :
  length (positions_from i col cols) = length (positions_from j col cols).
Proof.
  revert i j. induction cols as [|c cols IH]; intros i j; simpl; [done |].
  destruct (String.eqb c col); simpl; by rewrite (IH (S i) (S j)).
Qed.

(** Distinct labels: every label selects one column. *)
Lemma positions_from_NoDup (i : nat) (col : string) (cols : list string) :
  NoDup cols -> length (positions_from i col cols) <= 1.
Proof.
  intros H. revert i. induction H as [|c cols Hc _ IH]; intros i; simpl.
  - lia.
  - destruct (String.eqb_spec c col) as [->|_]; [| apply IH].
    rewrite (positions_from_absent _ _ _ Hc). simpl. lia.
Qed.

Lemma NoDup_positions (cols : list string) :
  Forall (fun col => length (positions_from 0 col cols) <= 1) cols ->
  NoDup cols.
Proof.
  induction cols as [|c cols IH]; intros H; [by apply NoDup_nil |].
  apply Forall_cons in H as [Hc Hrest]. apply NoDup_cons. split.
  - intros Hin. simpl in Hc. rewrite String.eqb_refl in Hc. simpl in Hc.
    pose proof (positions_from_nonempty 1 c cols Hin).
    destruct (positions_from 1 c cols); [done | simpl in Hc; lia].
  - apply IH. eapply Forall_impl; [exact Hrest |].
    intros col Hcol. simpl in Hcol.
    rewrite (positions_from_length 0 1).
    destruct (String.eqb c col); simpl in Hcol; lia.
Qed.

Lemma first_failing {A : Type} (p : A -> bool) (l : list A) :
  Forall (fun x => p x = true) l
  \/ exists before x after,
       l = before ++ x :: after
       /\ Forall (fun x => p x = true) before /\ p x = false.
Proof.
  induction l as [|x l IH]; [left; by apply Forall_nil |].
  destruct (p x) eqn:Hx.
  - destruct IH as [H | (before & y & after & -> & Hb & Hy)].
    + left. by apply Forall_cons.
    + right. exists (x :: before), y, after.
      split; [done |]. split; [by apply Forall_cons | done].
  - right. exists [], x, l. split; [done |]. split; [by apply Forall_nil | done].
Qed.

Section loop.

Variable series_nunique : list cell -> outcome nat.
Variable df : DataFrame.

(** A label that selects one column is tested; with 100 rows or fewer
    the test fails. *)
Lemma id_test_one (col : string) (i n : nat) :
  label_positions df col = [i] ->
  series_nunique (column_at df i) = Return n ->
  id_test series_nunique df col
  = Return ((n =? length (df_rows df)) && (100 <? length (df_rows df))).
Proof. unfold id_test, nunique. by intros -> ->. Qed.

(** What a test that returns says of the label. *)
Lemma id_test_returns (col : string) (b : bool) :
  id_test series_nunique df col = Return b ->
  length (label_positions df col) = 1
  /\ (length (df_rows df) <= 100 -> b = false).
Proof.
  unfold id_test, nunique.
  destruct (label_positions df col) as [|i [|j rest]]; [done | |].
  - destruct (series_nunique (column_at df i)) as [n|e]; [| done].
    intros [= <-]. split; [done |]. intros Hle.
    destruct (Nat.ltb_spec 100 (length (df_rows df))); [lia |].
    apply andb_false_r.
  - by destruct (nunique_each series_nunique df (i :: j :: rest)).
Qed.

(** A repeated label: the test raises. *)
Lemma id_test_repeated (col : string) :
  1 < length (label_positions df col) ->
  (forall i, exists n, series_nunique (column_at df i) = Return n) ->
  id_test series_nunique df col = Raise ValueError.
Proof.
  intros Hlen Hall. unfold id_test, nunique.
  assert (Heach : forall ps, exists counts,
            nunique_each series_nunique df ps = Return counts).
  { induction ps as [|i ps [counts IH]]; simpl; [by eexists |].
    destruct (Hall i) as [n ->]. rewrite IH. by eexists. }
  destruct (label_positions df col) as [|i [|j rest]];
    [simpl in Hlen; lia | simpl in Hlen; lia |].
  by destruct (Heach (i :: j :: rest)) as [counts ->].
Qed.

Lemma id_warnings_returns (cols warnings out : list string) :
  id_warnings series_nunique df cols warnings = Return out ->
  Forall (fun col => length (label_positions df col) = 1) cols
  /\ length out <= length warnings + length cols
  /\ (length (df_rows df) <= 100 -> out = warnings).
Proof.
  revert warnings. induction cols as [|col cols IH]; intros warnings; simpl.
  - intros [= <-]. split; [by apply Forall_nil |]. split; [lia | done].
  - destruct (id_test series_nunique df col) as [b|e] eqn:Ht; [| done].
    destruct (id_test_returns col b Ht) as [Hone Hsmall].
    destruct b; intros (Hall & Hlen & Hsame)%IH.
    + split; [by apply Forall_cons |]. split.
      * rewrite length_app in Hlen. simpl in Hlen. lia.
      * intros Hle. by specialize (Hsmall Hle).
    + split; [by apply Forall_cons |]. split; [lia | done].
Qed.

Lemma id_warnings_total (cols warnings : list string) :
  (forall i, exists n, series_nunique (column_at df i) = Return n) ->
  Forall (fun col => length (label_positions df col) = 1) cols ->
  exists out, id_warnings series_nunique df cols warnings = Return out.
Proof.
  intros Hall. revert warnings.
  induction cols as [|col cols IH]; intros warnings H; simpl; [by eexists |].
  apply Forall_cons in H as [Hone Hrest].
  destruct (label_positions df col) as [|i [|j rest]] eqn:Hp; try done.
  destruct (Hall i) as [n Hn]. rewrite (id_test_one col i n Hp Hn).
  destruct ((n =? length (df_rows df)) && (100 <? length (df_rows df)));
    by apply IH.
Qed.

Lemma id_warnings_raises (before : list string) (col : string)
  (after warnings : list string) (e : exn) :
  (forall i, exists n, series_nunique (column_at df i) = Return n) ->
  Forall (fun col => length (label_positions df col) = 1) before ->
  id_test series_nunique df col = Raise e ->
  id_warnings series_nunique df (before ++ col :: after) warnings = Raise e.
Proof.
  intros Hall Hb He. revert warnings.
  induction before as [|b before IH]; intros warnings; simpl.
  - by rewrite He.
  - apply Forall_cons in Hb as [Hone Hrest].
    destruct (label_positions df b) as [|i [|j rest]] eqn:Hp; try done.
    destruct (Hall i) as [n Hn]. rewrite (id_test_one b i n Hp Hn).
    destruct ((n =? length (df_rows df)) && (100 <? length (df_rows df)));
      by apply IH.
Qed.

End loop.

(** X23: [detect_data_issues] returns a report only for a frame whose
    column labels are distinct. In that report every column listed under
    [missing_values] has a count above zero that pandas reported for it;
    there are at most two warnings plus one per column; a frame of 100 rows
    or fewer gets no identifier warning, so at most two warnings; and with
    no missing value and no duplicate row such a frame gets none. With
    distinct labels, and pandas counting without an exception, the report is
    returned. With a repeated label [df[col]] is a dataframe, the test of
    the [if] is one of a Series, and the call raises [ValueError]; an
    exception of [df.duplicated()] is raised by the call as well. *)
Theorem detect_data_issues_warnings
  (isnull_sum : DataFrame -> list (string * nat))
  (duplicated_sum : DataFrame -> outcome nat)
  (dtypes_items : DataFrame -> list (string * string))
  (series_nunique : list cell -> outcome nat) (df : DataFrame) :
  (forall issues,
     detect_data_issues isnull_sum duplicated_sum dtypes_items series_nunique
       df = Return issues ->
     NoDup (df_columns df)
     /\ duplicated_sum df = Return (duplicates issues)
     /\ (forall col n,
           missing_values issues !! col = Some n ->
           0 < n /\ (col, n) ∈ isnull_sum df)
     /\ length (warnings issues) <= 2 + length (df_columns df)
     /\ (length (df_rows df) <= 100 -> length (warnings issues) <= 2)
     /\ (length (df_rows df) <= 100 ->
         Forall (fun kv => kv.2 = 0) (isnull_sum df) ->
         duplicates issues = 0 ->
         warnings issues = []))
  /\ (forall dups,
        duplicated_sum df = Return dups ->
        (forall i, exists n, series_nunique (column_at df i) = Return n) ->
        (NoDup (df_columns df) ->
         exists issues,
           detect_data_issues isnull_sum duplicated_sum dtypes_items
             series_nunique df = Return issues)
        /\ (~ NoDup (df_columns df) ->
            detect_data_issues isnull_sum duplicated_sum dtypes_items
              series_nunique df = Raise ValueError))
  /\ (forall e,
        duplicated_sum df = Raise e ->
        detect_data_issues isnull_sum duplicated_sum dtypes_items
          series_nunique df = Raise e).
Proof.
  unfold detect_data_issues.
  set (missing := dict_of (List.filter (fun kv => 0 <? kv.2) (isnull_sum df))).
  assert (Hw1 : forall b : bool, forall x : string,
            length (if b then [x] else []) <= 1)
    by (intros [] x; simpl; lia).
  split; [| split].
  - intros issues. destruct (duplicated_sum df) as [dups|e]; [| done].
    match goal with
    | |- context [id_warnings _ _ _ ?ws] => set (early := ws)
    end.
    destruct (id_warnings series_nunique df (df_columns df) early)
      as [out|e] eqn:Hloop; [| done].
    intros [= <-]. simpl.
    apply id_warnings_returns in Hloop as (Hone & Hlen & Hsame).
    assert (Hearly : length early <= 2).
    { unfold early. rewrite length_app.
      pose proof (Hw1 (0 <? size missing)
                    ("Found " +:+ pretty (sum_values missing)
                     +:+ " missing values across " +:+ pretty (size missing)
                     +:+ " columns")).
      pose proof (Hw1 (0 <? dups)
                    ("Found " +:+ pretty dups +:+ " duplicate rows")).
      lia. }
    split; [| split; [done | split; [| split; [lia | split]]]].
    + apply NoDup_positions. eapply Forall_impl; [exact Hone |].
      intros col Hcol. unfold label_positions in Hcol. lia.
    + intros col n H. unfold missing, dict_of in H.
      apply dict_of_from_items in H as [H | H]; [done |].
      apply list_elem_of_In, filter_In in H as [Hin Hpos].
      split; [by apply Nat.ltb_lt in Hpos | by apply list_elem_of_In].
    + intros Hle. rewrite (Hsame Hle). exact Hearly.
    + intros Hle Hnone ->. rewrite (Hsame Hle). unfold early.
      assert (Hf : List.filter (fun kv : string * nat => 0 <? kv.2)
                     (isnull_sum df) = []).
      { clear -Hnone. induction (isnull_sum df) as [|kv rest IH]; [done |].
        apply Forall_cons in Hnone as [H0 Hrest]. simpl. rewrite H0. simpl.
        by apply IH. }
      unfold missing. rewrite Hf. done.
  - intros dups -> Hall.
    match goal with
    | |- context [id_warnings _ _ _ ?ws] => set (early := ws)
    end.
    split.
    + intros Hnd.
      destruct (id_warnings_total series_nunique df (df_columns df) early Hall)
        as [out ->]; [| by eexists].
      apply Forall_forall. intros col Hin.
      pose proof (positions_from_NoDup 0 col _ Hnd).
      pose proof (positions_from_nonempty 0 col _ Hin).
      unfold label_positions.
      destruct (positions_from 0 col (df_columns df)) as [|i [|j rest]];
        [done | done | simpl in *; lia].
    + intros Hdup.
      destruct (first_failing
                  (fun col => length (label_positions df col) =? 1)
                  (df_columns df))
        as [Hall1 | (before & col & after & Heq & Hb & Hcol)].
      * destruct Hdup. apply NoDup_positions.
        eapply Forall_impl; [exact Hall1 |].
        intros col Hcol. apply Nat.eqb_eq in Hcol.
        unfold label_positions in Hcol. lia.
      * assert (Hin : col ∈ df_columns df).
        { rewrite Heq. apply elem_of_app. right. by left. }
        pose proof (positions_from_nonempty 0 col _ Hin) as Hne.
        apply Nat.eqb_neq in Hcol.
        assert (Hrep : 1 < length (label_positions df col)).
        { unfold label_positions in *.
          destruct (positions_from 0 col (df_columns df)) as [|i [|j rest]];
            [done | done | simpl; lia]. }
        rewrite Heq at 1.
        rewrite (id_warnings_raises series_nunique df before col after early
                   ValueError); [done | done | |].
        -- eapply Forall_impl; [exact Hb |].
           intros c Hc. by apply Nat.eqb_eq in Hc.
        -- by apply id_test_repeated.
  - by intros e ->.
Qed.

Lemma detect_data_issues_warnings_witness :
  detect_data_issues
    (fun _ => [("region", 0); ("sales", 1)]) (fun _ => Return 0)
    (fun _ => [("region", "object"); ("sales", "float64")])
    (fun _ => Return 2) Scenario.tiny_df
  = Return {| missing_values := {["sales" := 1]};
              duplicates := 0;
              data_types := <["sales" := "float64"]> {["region" := "object"]};
              warnings := ["Found 1 missing values across 1 columns"] |}
  /\ length (df_rows Scenario.tiny_df) <= 100
  /\ NoDup (df_columns Scenario.tiny_df).
Proof.
  split; [reflexivity | split; [simpl; lia |]].
  destruct (detect_data_issues_warnings
              (fun _ => [("region", 0); ("sales", 1)]) (fun _ => Return 0)
              (fun _ => [("region", "object"); ("sales", "float64")])
              (fun _ => Return 2) Scenario.tiny_df) as (H & _).
  exact (proj1 (H _ eq_refl)).
Defined.

Example detect_data_issues_example :
  detect_data_issues
    (fun _ => [("region", 0); ("sales", 1)]) (fun _ => Return 1)
    (fun _ => [("region", "object"); ("sales", "float64")])
    (fun _ => Return 2) Scenario.tiny_df
  = Return {| missing_values := {["sales" := 1]};
              duplicates := 1;
              data_types := <["sales" := "float64"]> {["region" := "object"]};
              warnings := ["Found 1 missing values across 1 columns";
                           "Found 1 duplicate rows"] |}.
Proof. reflexivity. Qed.

(** A frame with the label ["sales"] on two columns: the loop reaches the
    label and the call raises. *)
Example detect_data_issues_repeated_label :
  detect_data_issues
    (fun _ => []) (fun _ => Return 0) (fun _ => []) (fun _ => Return 1)
    {| df_columns := ["region"; "sales"; "sales"];
       df_rows := [[CellStr "north"; CellInt 10; CellInt 11]] |}
  = Raise ValueError.
Proof. reflexivity. Qed.

Lemma occurs_exec_call (q : string) : occurs "exec(" q -> occurs "exec" q.
Proof.
  intros (pre & post & ->). exists pre, ("(" +:+ post).
  induction pre as [|c pre IH]; simpl; [done |]. by f_equal.
Qed.

(** X24: the last entry of the deny-list, ["exec("], is never the keyword
    [is_safe_query] names: a query is either safe or rejected with one of
    the nine entries before it, since ["exec"] comes first and occurs
    wherever ["exec("] does. *)
Theorem is_safe_query_names_first_nine (query : string) :
  (is_safe_query query = (true, "Query is safe")
   \/ exists keyword,
        keyword ∈ take 9 dangerous_keywords
        /\ is_safe_query query = (false, danger_message keyword))
  /\ snd (is_safe_query query) <> danger_message "exec(".
Proof.
  assert (H : is_safe_query query = (true, "Query is safe")
              \/ exists keyword,
                   keyword ∈ take 9 dangerous_keywords
                   /\ is_safe_query query = (false, danger_message keyword)).
  { unfold is_safe_query, dangerous_keywords.
    cbn [scan_keywords take].
    repeat match goal with
    | |- context [if contains ?k ?q then _ else _] =>
        destruct (contains k q) eqn:?;
        [right; exists k; split; [set_solver | reflexivity] |]
    end.
    destruct (contains "exec(" (lower query)) eqn:Hc; [| by left].
    exfalso.
    apply contains_true_iff, occurs_exec_call, contains_true_iff in Hc.
    congruence. }
  split; [exact H |].
  destruct H as [-> | (keyword & Hin & ->)]; [done |].
  simpl in Hin. intros Heq. simpl in Heq.
  repeat (apply elem_of_cons in Hin as [-> | Hin]; [discriminate Heq |]).
  by apply elem_of_nil in Hin.
Qed.

End ValidatorFacts.
